(** * BiBorBA adaptive RAG control loop: a shallow embedding

    The development follows [app/core/graph/adaptive_graph.py] and the node
    modules under [app/core/graph/nodes/], together with the parts of
    [app/config.py] and [app/services/graph_service.py] they depend on.

    Python integers are [Z]; strings are byte strings.  Temperatures, on
    which the generator computes, are binary64 floats with the arithmetic
    of Python's [float] (the Standard Library's [SpecFloat]); the grading
    confidence and its threshold are only compared, which is exact, and are
    given by their rational values [Q].  Calls to the language model and to
    the retrieval backend are answered by an environment of oracles and
    recorded in a call log, so that "which calls were made, with which
    arguments" is a property of the log. *)

From Stdlib Require Import ZArith QArith List String Ascii Bool Lia.
From Stdlib Require Import Floats.SpecFloat.
Import ListNotations.

Local Open Scope string_scope.
Local Open Scope Z_scope.

(* ===================================================================== *)
(** ** Python helpers *)
(* ===================================================================== *)

Module Py.

(** Exceptions that the modelled code raises or catches by class. *)
Inductive exn : Type :=
| RuntimeError (msg : string)
| FileNotFoundError (msg : string)
| ValueError (msg : string)
| AttributeError (msg : string)
| OtherException (msg : string).

Definition exn_str (e : exn) : string :=
  match e with
  | RuntimeError m | FileNotFoundError m | ValueError m
  | AttributeError m | OtherException m => m
  end.

Inductive outcome (A : Type) : Type :=
| Ok (a : A)
| Raise (e : exn).
Arguments Ok {A} a.
Arguments Raise {A} e.

(** [str.lower()] on the ASCII range; bytes outside [A-Z] are unchanged. *)
Definition lower_ascii (c : ascii) : ascii :=
  let n := nat_of_ascii c in
  if (Nat.leb 65 n && Nat.leb n 90)%bool then ascii_of_nat (n + 32) else c.

Fixpoint lower (s : string) : string :=
  match s with
  | EmptyString => EmptyString
  | String c t => String (lower_ascii c) (lower t)
  end.

(** [needle in hay] for strings. *)
Fixpoint str_in (needle hay : string) : bool :=
  if String.prefix needle hay then true
  else match hay with
       | EmptyString => false
       | String _ t => str_in needle t
       end.

(** [sep.join(parts)]. *)
Fixpoint join (sep : string) (parts : list string) : string :=
  match parts with
  | [] => ""
  | [p] => p
  | p :: rest => p ++ sep ++ join sep rest
  end.

Definition newline : string := String (ascii_of_nat 10) EmptyString.

(** [range(start, stop, step)]: a zero step raises [ValueError]. *)
Fixpoint range_from (start step : Z) (count : nat) : list Z :=
  match count with
  | O => []
  | S c => start :: range_from (start + step) step c
  end.

Definition range_count (start stop step : Z) : nat :=
  if 0 <? step then Z.to_nat ((stop - start + step - 1) / step)
  else Z.to_nat ((start - stop + (- step) - 1) / (- step)).

Definition range (start stop step : Z) : outcome (list Z) :=
  if step =? 0 then Raise (ValueError "range() arg 3 must not be zero")
  else Ok (range_from start step (range_count start stop step)).

(** [l[a:b]] for [0 <= a] and [0 <= b]. *)
Definition slice {A : Type} (l : list A) (a b : Z) : list A :=
  firstn (Z.to_nat b - Z.to_nat a) (skipn (Z.to_nat a) l).

(** Python's [float]: IEEE 754 binary64 with round to nearest, ties to
    even, as the Standard Library specifies it. *)
Definition float : Type := spec_float.

Definition float_of_Z (n : Z) : float := binary_normalize 53 1024 n 0 false.

(** The decimal literal [num / den] (as [0.1] is [1 / 10]), for [num] and
    [den] that are floats themselves: the float nearest to the quotient. *)
Definition float_lit (num den : Z) : float :=
  SFdiv 53 1024 (float_of_Z num) (float_of_Z den).

Definition float_add (x y : float) : float := SFadd 53 1024 x y.

Definition float_mul (x y : float) : float := SFmul 53 1024 x y.

Definition float_lt (x y : float) : bool := SFltb x y.

(** The conversion of an [int] that meets a [float] in an arithmetic
    expression: the nearest binary64 value (ties to even), and
    [OverflowError] when that value is not finite, which is from
    [2^1024 - 2^970] on. *)
Definition float_int_bound : Z := 2 ^ 1024 - 2 ^ 970.

Definition float_of_int (n : Z) : outcome float :=
  if Z.abs n <? float_int_bound
  then Ok (float_of_Z n)
  else Raise (OtherException "OverflowError: int too large to convert to float").

(** [min(a, b)]: [b] when [b < a], else [a]. *)
Definition py_min (a b : float) : float :=
  if float_lt b a then b else a.

(** A [dict] with string keys, in insertion order. *)
Definition dict (V : Type) : Type := list (string * V).

Fixpoint dict_get {V : Type} (d : dict V) (k : string) (default : V) : V :=
  match d with
  | [] => default
  | (k', v) :: rest => if String.eqb k k' then v else dict_get rest k default
  end.

Fixpoint dict_set {V : Type} (d : dict V) (k : string) (v : V) : dict V :=
  match d with
  | [] => [(k, v)]
  | (k', v') :: rest =>
      if String.eqb k k' then (k', v) :: rest else (k', v') :: dict_set rest k v
  end.

End Py.
Export Py.

(* ===================================================================== *)
(** ** Configuration ([app/config.py]) *)
(* ===================================================================== *)

Record Settings : Type := {
  max_generation_retries : Z;
  max_transform_retries : Z;
  max_total_iterations : Z;
  graph_recursion_limit : Z;
  document_grading_batch_size : Z;
  document_grading_retry_attempts : Z;
  document_grading_confidence_threshold : Q;
  enable_retry_variation : bool;
  retry_temperature_increment : float;
  retrieval_k : Z;
  hallucination_batch_size : Z
}.

Definition default_settings : Settings := {|
  max_generation_retries := 2;
  max_transform_retries := 2;
  max_total_iterations := 15;
  graph_recursion_limit := 20;
  document_grading_batch_size := 4;
  document_grading_retry_attempts := 2;
  document_grading_confidence_threshold := 6 # 10;
  enable_retry_variation := true;
  retry_temperature_increment := float_lit 1 10;
  retrieval_k := 4;
  hallucination_batch_size := 3
|}.

(* ===================================================================== *)
(** ** Data model ([app/core/graph/utils.py]) *)
(* ===================================================================== *)

Record Document : Type := {
  page_content : string;
  metadata : dict string
}.

(** [GraphState].  [graph_service.execute_query] creates the state with all
    twelve keys and every node returns all twelve, so a key is never
    missing and the defaults of [state.get(key, default)] are never used. *)
Record GraphState : Type := {
  question : string;
  original_question : string;
  generation : string;
  documents : list Document;
  model_config : dict float;
  collection_ids : list Z;
  generation_attempts : Z;
  transform_attempts : Z;
  total_iterations : Z;
  max_iterations_reached : bool;
  no_relevant_docs_fallback : bool;
  fallback_type : string
}.

(** [format_docs]: page contents separated by a blank line. *)
Definition format_docs (docs : list Document) : string :=
  join (newline ++ newline) (map page_content docs).

(* ===================================================================== *)
(** ** Collaborators: oracles, call log and the monad of node code *)
(* ===================================================================== *)

(** Structured outputs of the three graders (pydantic models). *)
Module GradeDocuments.
Record t : Type := {
  binary_score : string;
  confidence : Q;
  reasoning : string
}.
End GradeDocuments.

Module GradeHallucinations.
Record t : Type := { binary_score : string }.
End GradeHallucinations.

Module GradeAnswer.
Record t : Type := { binary_score : string }.
End GradeAnswer.

(** What a retriever hands back before [retrieve] normalises it. *)
Inductive RawItem : Type :=
| ItemDocument (d : Document)
| ItemOther (repr : string).

Inductive RawDocuments : Type :=
| RawNone
| RawStr (s : string)
| RawList (items : list RawItem)
| RawOther (repr : string).

(** One entry of the call log per call to a collaborator. *)
Inductive Call : Type :=
| RetrieverToolInvoke (query : string)
| CollectionRetrieverInvoke (coll_id : Z) (query : string)
| DocumentGraderInvoke (doc_index attempt : Z) (q document : string)
| AnswerGeneratorInvoke (cfg : dict float) (context q : string)
| PureLLMInvoke (cfg : dict float) (q : string)
| QuestionRewriterInvoke (cfg : dict float) (q : string)
| HallucinationGraderInvoke (docs gen : string)
| AnswerGraderInvoke (q gen : string).

Definition World : Type := list Call.

(** The environment answers every call.  The first argument is the number
    of calls made before, so the same request may be answered differently
    each time it is made (the graders are not deterministic).  The document
    grader is called concurrently inside one grading step: its answers are
    indexed by the clock at the start of the step, the document index and
    the attempt, which makes them independent of how the calls interleave;
    the log lists them in document order. *)
Record Env : Type := {
  retriever_tool_invoke : nat -> string -> outcome RawDocuments;
  collection_retriever_invoke : nat -> Z -> string -> outcome (list RawItem);
  document_grader_ainvoke :
    nat -> Z -> Z -> string -> string -> outcome GradeDocuments.t;
  rag_chain_invoke : nat -> dict float -> string -> string -> outcome string;
  llm_chain_invoke : nat -> dict float -> string -> outcome string;
  question_rewriter_invoke : nat -> dict float -> string -> outcome string;
  hallucination_grader_invoke :
    nat -> string -> string -> outcome GradeHallucinations.t;
  answer_grader_invoke : nat -> string -> string -> outcome GradeAnswer.t
}.

(** Node code: reads and extends the call log, returns or raises. *)
Definition M (A : Type) : Type := World -> outcome A * World.

Definition ret {A : Type} (a : A) : M A := fun w => (Ok a, w).

Definition raise {A : Type} (e : exn) : M A := fun w => (Raise e, w).

Definition bind {A B : Type} (m : M A) (k : A -> M B) : M B :=
  fun w =>
    match m w with
    | (Ok a, w') => k a w'
    | (Raise e, w') => (Raise e, w')
    end.

Definition try_except {A : Type} (m : M A) (handler : exn -> M A) : M A :=
  fun w =>
    match m w with
    | (Ok a, w') => (Ok a, w')
    | (Raise e, w') => handler e w'
    end.

(** The outcome of [m] as a value: [try: m] with the handler left to the
    caller. *)
Definition attempt {A : Type} (m : M A) : M (outcome A) :=
  fun w => let '(r, w') := m w in (Ok r, w').

Definition lift {A : Type} (r : outcome A) : M A := fun w => (r, w).

Definition clock : M nat := fun w => (Ok (List.length w), w).

(** A call to a collaborator: logged, answered by the oracle at the
    current clock. *)
Definition perform {A : Type} (c : Call) (oracle : nat -> outcome A) : M A :=
  fun w => (oracle (List.length w), (w ++ [c])%list).

(** Same, with the clock fixed by the caller. *)
Definition perform_at {A : Type} (c : Call) (r : outcome A) : M A :=
  fun w => (r, (w ++ [c])%list).

Declare Scope node_scope.
Delimit Scope node_scope with node.
Notation "x <- m ;; k" := (bind m (fun x => k))
  (at level 61, m at next level, right associativity) : node_scope.
Local Open Scope node_scope.

(* ===================================================================== *)
(** ** Nodes ([app/core/graph/nodes/]) *)
(* ===================================================================== *)

Section Nodes.

Variable settings : Settings.
Variable env : Env.

(** *** [retriever.py] *)

Definition document_of_item (item : RawItem) : Document :=
  match item with
  | ItemDocument d => d
  | ItemOther repr =>
      {| page_content := repr;
         metadata := [("source", "converted_from_list")] |}
  end.

Definition documents_of_raw (raw_documents : RawDocuments) : list Document :=
  match raw_documents with
  | RawNone => []
  | RawStr s =>
      [{| page_content := s; metadata := [("source", "retriever_string")] |}]
  | RawList items => map document_of_item items
  | RawOther repr =>
      [{| page_content := repr;
          metadata := [("source", "converted_single_item")] |}]
  end.

(** The loop over [collection_ids]; a collection that fails is skipped. *)
Fixpoint retrieve_from_collections (query : string) (ids : list Z)
    (all_documents : list RawItem) : M (list RawItem) :=
  match ids with
  | [] => ret all_documents
  | coll_id :: rest =>
      all_documents' <-
        try_except
          (docs <- perform (CollectionRetrieverInvoke coll_id query)
                     (fun t => collection_retriever_invoke env t coll_id query) ;;
           ret (all_documents ++ docs)%list)
          (fun _ => ret all_documents) ;;
      retrieve_from_collections query rest all_documents'
  end.

Definition retrieve_result (state : GraphState) (docs : list Document)
    (total_iterations' : Z) : GraphState :=
  {| documents := docs;
     question := state.(question);
     original_question := state.(original_question);
     generation := state.(generation);
     model_config := state.(model_config);
     collection_ids := state.(collection_ids);
     generation_attempts := state.(generation_attempts);
     transform_attempts := state.(transform_attempts);
     total_iterations := total_iterations';
     max_iterations_reached := false;
     no_relevant_docs_fallback := false;
     fallback_type := "" |}.

Definition retrieve (state : GraphState) : M GraphState :=
  let query := state.(question) in
  let ids := state.(collection_ids) in
  let total_iterations' := state.(total_iterations) + 1 in
  try_except
    (raw_documents <-
       match ids with
       | _ :: _ =>
           all_documents <- retrieve_from_collections query ids [] ;;
           ret (RawList all_documents)
       | [] =>
           perform (RetrieverToolInvoke query)
             (fun t => retriever_tool_invoke env t query)
       end ;;
     ret (retrieve_result state (documents_of_raw raw_documents)
            total_iterations'))
    (fun e =>
       match e with
       | FileNotFoundError _ =>
           ret (retrieve_result state [] total_iterations')
       | _ => ret (retrieve_result state [] total_iterations')
       end).

(** *** [document_grader.py] *)

Definition GradingResult : Type :=
  (Document * bool * option exn * Q * string)%type.

(** The retry loop of [grade_single_doc]: [Some score] after [break],
    [None] when the range is exhausted without a score. *)
Fixpoint grade_with_retries (t0 : nat) (q content : string)
    (doc_index max_retries : Z) (attempts : list Z)
    : M (option GradeDocuments.t) :=
  match attempts with
  | [] => ret None
  | n :: rest =>
      r <- attempt
             (perform_at (DocumentGraderInvoke doc_index n q content)
                (document_grader_ainvoke env t0 doc_index n q content)) ;;
      match r with
      | Ok score => ret (Some score)
      | Raise (RuntimeError msg) =>
          let error_msg := lower msg in
          let is_tcp_error :=
            (str_in "tcptransport" error_msg && str_in "closed" error_msg)%bool in
          if (is_tcp_error && (n <? max_retries - 1))%bool
          then grade_with_retries t0 q content doc_index max_retries rest
          else raise (RuntimeError msg)
      | Raise e => raise e
      end
  end.

Definition is_relevant_grade (grade : string) (conf : Q) : bool :=
  (String.eqb grade "yes"
   && Qle_bool settings.(document_grading_confidence_threshold) conf)%bool.

(** The first half of the [try] block of [grade_single_doc]: the retry
    loop, then the access to [score.binary_score], which raises when the
    loop left [score = None]. *)
Definition obtain_score (t0 : nat) (q content : string) (doc_index : Z)
    : M GradeDocuments.t :=
  let max_retries := settings.(document_grading_retry_attempts) in
  attempts <- lift (range 0 max_retries 1) ;;
  score <- grade_with_retries t0 q content doc_index max_retries attempts ;;
  match score with
  | None =>
      raise (AttributeError
               "'NoneType' object has no attribute 'binary_score'")
  | Some score => ret score
  end.

Definition grade_single_doc (t0 : nat) (q : string) (doc : Document)
    (doc_index : Z) : M GradingResult :=
  try_except
    (let content := doc.(page_content) in
     score <- obtain_score t0 q content doc_index ;;
     let grade := score.(GradeDocuments.binary_score) in
     let conf := score.(GradeDocuments.confidence) in
     let why := score.(GradeDocuments.reasoning) in
     if is_relevant_grade grade conf
     then ret (doc, true, None, conf, why)
     else ret (doc, false, None, conf, why))
    (fun e => ret (doc, false, Some e, 0%Q, "Error: " ++ exn_str e)).

(** [enumerate(batch_docs)] with the tasks of one batch; [asyncio.gather]
    returns the results in task order. *)
Fixpoint grade_batch (t0 : nat) (q : string) (batch_docs : list Document)
    (doc_index : Z) : M (list GradingResult) :=
  match batch_docs with
  | [] => ret []
  | doc :: rest =>
      result <- grade_single_doc t0 q doc doc_index ;;
      results <- grade_batch t0 q rest (doc_index + 1) ;;
      ret (result :: results)
  end.

Fixpoint grade_batches (t0 : nat) (q : string)
    (normalized_docs : list Document) (batch_size : Z) (starts : list Z)
    (all_results : list GradingResult) : M (list GradingResult) :=
  match starts with
  | [] => ret all_results
  | batch_start :: rest =>
      let batch_end :=
        Z.min (batch_start + batch_size) (Z.of_nat (List.length normalized_docs)) in
      let batch_docs := slice normalized_docs batch_start batch_end in
      batch_results <- grade_batch t0 q batch_docs batch_start ;;
      grade_batches t0 q normalized_docs batch_size rest
        (all_results ++ batch_results)%list
  end.

Definition grade_all_docs (q : string) (normalized_docs : list Document)
    : M (list GradingResult) :=
  let batch_size := settings.(document_grading_batch_size) in
  t0 <- clock ;;
  starts <- lift (range 0 (Z.of_nat (List.length normalized_docs)) batch_size) ;;
  grade_batches t0 q normalized_docs batch_size starts [].

Fixpoint filter_graded (grading_results : list GradingResult) : list Document :=
  match grading_results with
  | [] => []
  | (doc, is_relevant, error, _, _) :: rest =>
      match is_relevant, error with
      | true, None => doc :: filter_graded rest
      | _, _ => filter_graded rest
      end
  end.

(** [state["documents"]] holds [Document] objects when this node runs
    ([retrieve] has normalised them), so [normalized_docs] is the list
    itself. *)
Definition grade_documents (state : GraphState) : M GraphState :=
  let q := state.(question) in
  let normalized_docs := state.(documents) in
  let total_iterations' := state.(total_iterations) + 1 in
  grading_results <- grade_all_docs q normalized_docs ;;
  let filtered_docs := filter_graded grading_results in
  ret {| documents := filtered_docs;
         question := q;
         original_question := state.(original_question);
         generation := state.(generation);
         model_config := state.(model_config);
         collection_ids := state.(collection_ids);
         generation_attempts := state.(generation_attempts);
         transform_attempts := state.(transform_attempts);
         total_iterations := total_iterations';
         max_iterations_reached := false;
         no_relevant_docs_fallback := false;
         fallback_type := "" |}.

(** *** [generator.py] *)

Definition generate (state : GraphState) : M GraphState :=
  let q := state.(question) in
  let original_question' := state.(original_question) in
  let docs := state.(documents) in
  let model_config0 := state.(model_config) in
  let generation_attempts' := state.(generation_attempts) + 1 in
  let total_iterations' := state.(total_iterations) + 1 in
  let base_temperature := dict_get model_config0 "temperature" (float_of_Z 0) in
  model_config' <-
    (if ((1 <? generation_attempts') && settings.(enable_retry_variation))%bool
     then
       factor <- lift (float_of_int (generation_attempts' - 1)) ;;
       let retry_temp :=
         float_add base_temperature
           (float_mul factor settings.(retry_temperature_increment)) in
       let retry_temp := py_min retry_temp (float_of_Z 1) in
       ret (dict_set model_config0 "temperature" retry_temp)
     else ret model_config0) ;;
  generation' <-
    perform
      (AnswerGeneratorInvoke model_config' (format_docs docs) original_question')
      (fun t =>
         rag_chain_invoke env t model_config' (format_docs docs)
           original_question') ;;
  ret {| documents := docs;
         question := q;
         original_question := original_question';
         generation := generation';
         model_config := model_config';
         collection_ids := state.(collection_ids);
         generation_attempts := generation_attempts';
         transform_attempts := state.(transform_attempts);
         total_iterations := total_iterations';
         max_iterations_reached := false;
         no_relevant_docs_fallback := false;
         fallback_type := "" |}.

(** *** [rewriter.py] *)

Definition transform_query (state : GraphState) : M GraphState :=
  let q := state.(question) in
  let docs := state.(documents) in
  let model_config0 := state.(model_config) in
  let transform_attempts' := state.(transform_attempts) + 1 in
  let total_iterations' := state.(total_iterations) + 1 in
  better_question <-
    perform (QuestionRewriterInvoke model_config0 q)
      (fun t => question_rewriter_invoke env t model_config0 q) ;;
  ret {| documents := docs;
         question := better_question;
         original_question := state.(original_question);
         generation := state.(generation);
         model_config := model_config0;
         collection_ids := state.(collection_ids);
         generation_attempts := state.(generation_attempts);
         transform_attempts := transform_attempts';
         total_iterations := total_iterations';
         max_iterations_reached := false;
         no_relevant_docs_fallback := false;
         fallback_type := "" |}.

(** *** [hallucination_grader.py] *)

(** The [for batch_start in range(...)] loop; the result is the value of
    [is_grounded]. *)
Fixpoint hallucination_batches (docs : list Document) (gen : string)
    (total_docs : Z) (starts : list Z) : M bool :=
  match starts with
  | [] => ret false
  | batch_start :: rest =>
      let batch_end :=
        Z.min (batch_start + settings.(hallucination_batch_size)) total_docs in
      let doc_batch := slice docs batch_start batch_end in
      match doc_batch with
      | [] => hallucination_batches docs gen total_docs rest
      | _ :: _ =>
          let formatted_batch := format_docs doc_batch in
          r <- attempt
                 (perform (HallucinationGraderInvoke formatted_batch gen)
                    (fun t =>
                       hallucination_grader_invoke env t formatted_batch gen)) ;;
          match r with
          | Raise _ => hallucination_batches docs gen total_docs rest
          | Ok score =>
              if String.eqb (lower score.(GradeHallucinations.binary_score)) "yes"
              then ret true
              else hallucination_batches docs gen total_docs rest
          end
      end
  end.

Definition grade_hallucination (state : GraphState) : M bool :=
  let docs := state.(documents) in
  let gen := state.(generation) in
  match docs with
  | [] => ret false
  | _ :: _ =>
      let total_docs := Z.of_nat (List.length docs) in
      starts <- lift (range 0 total_docs settings.(hallucination_batch_size)) ;;
      hallucination_batches docs gen total_docs starts
  end.

(** *** [answer_grader.py] and [base_grader.py] *)

Definition AnswerGrader_prepare_input (state : GraphState) : string * string :=
  (state.(question), state.(generation)).

Definition AnswerGrader_process_result (score : GradeAnswer.t) (state : GraphState) : bool :=
  String.eqb (lower score.(GradeAnswer.binary_score)) "yes".

(** [BaseGrader.grade]; the result is the value of [addresses_question]. *)
Definition AnswerGrader_grade (state : GraphState) : M bool :=
  let '(q, gen) := AnswerGrader_prepare_input state in
  score <- perform (AnswerGraderInvoke q gen)
             (fun t => answer_grader_invoke env t q gen) ;;
  ret (AnswerGrader_process_result score state).

(* ===================================================================== *)
(** ** The adaptive graph ([app/core/graph/adaptive_graph.py]) *)
(* ===================================================================== *)

Definition check_iteration_limits (state : GraphState) : bool :=
  if settings.(max_generation_retries) <=? state.(generation_attempts) then true
  else if settings.(max_transform_retries) <=? state.(transform_attempts) then true
  else if settings.(max_total_iterations) <=? state.(total_iterations) then true
  else false.

(** Return values of [decide_to_generate]. *)
Inductive DocumentsDecision : Type :=
| transform_query_d    (* "transform_query" *)
| generate_d           (* "generate" *)
| no_docs_fallback_d.  (* "no_docs_fallback" *)

Definition decide_to_generate (state : GraphState) : DocumentsDecision :=
  let filtered_documents := state.(documents) in
  let transform_attempts' := state.(transform_attempts) in
  match filtered_documents with
  | [] =>
      if settings.(max_transform_retries) <=? transform_attempts'
      then no_docs_fallback_d
      else transform_query_d
  | _ :: _ => generate_d
  end.

(** Return values of [grade_generation_v_documents_and_question]. *)
Inductive GenerationDecision : Type :=
| not_supported     (* "not supported" *)
| useful            (* "useful" *)
| not_useful        (* "not useful" *)
| max_iterations.   (* "max_iterations" *)

Definition grade_generation_v_documents_and_question (state : GraphState)
    : M GenerationDecision :=
  if check_iteration_limits state then ret max_iterations
  else
    is_grounded <- grade_hallucination state ;;
    if is_grounded : bool then
      addresses_question <- AnswerGrader_grade state ;;
      if addresses_question : bool then ret useful
      else if settings.(max_transform_retries) <=? state.(transform_attempts)
           then ret useful
           else ret not_useful
    else if settings.(max_generation_retries) <=? state.(generation_attempts)
         then ret max_iterations
         else ret not_supported.

Definition generate_no_docs_fallback (state : GraphState) : M GraphState :=
  let q := state.(question) in
  let model_config0 := state.(model_config) in
  generation' <-
    perform (PureLLMInvoke model_config0 q)
      (fun t => llm_chain_invoke env t model_config0 q) ;;
  ret {| documents := [];
         question := q;
         original_question := state.(original_question);
         generation := generation';
         model_config := model_config0;
         collection_ids := state.(collection_ids);
         generation_attempts := 1;
         transform_attempts := state.(transform_attempts);
         total_iterations := state.(total_iterations) + 1;
         max_iterations_reached := true;
         no_relevant_docs_fallback := true;
         fallback_type := "no_relevant_docs" |}.

(** [{**state, ...}]: a copy with three keys replaced. *)
Definition mark_max_iterations (state : GraphState) : M GraphState :=
  ret {| documents := state.(documents);
         question := state.(question);
         original_question := state.(original_question);
         generation := state.(generation);
         model_config := state.(model_config);
         collection_ids := state.(collection_ids);
         generation_attempts := state.(generation_attempts);
         transform_attempts := state.(transform_attempts);
         total_iterations := state.(total_iterations);
         max_iterations_reached := true;
         no_relevant_docs_fallback := false;
         fallback_type := "max_iterations" |}.

(** The workflow: nodes, edges and conditional edges. *)
Inductive Node : Type :=
| retrieve_n
| grade_documents_n
| generate_n
| transform_query_n
| fallback_n
| no_docs_fallback_n.

Inductive Target : Type :=
| To (n : Node)
| END.

Definition node_fn (n : Node) : GraphState -> M GraphState :=
  match n with
  | retrieve_n => retrieve
  | grade_documents_n => grade_documents
  | generate_n => generate
  | transform_query_n => transform_query
  | fallback_n => mark_max_iterations
  | no_docs_fallback_n => generate_no_docs_fallback
  end.

(** The edge leaving node [n], evaluated on the state the node returned. *)
Definition edge (n : Node) (state : GraphState) : M Target :=
  match n with
  | retrieve_n => ret (To grade_documents_n)
  | grade_documents_n =>
      match decide_to_generate state with
      | transform_query_d => ret (To transform_query_n)
      | generate_d => ret (To generate_n)
      | no_docs_fallback_d => ret (To no_docs_fallback_n)
      end
  | no_docs_fallback_n => ret END
  | transform_query_n => ret (To retrieve_n)
  | generate_n =>
      d <- grade_generation_v_documents_and_question state ;;
      match d with
      | not_supported => ret (To generate_n)
      | useful => ret END
      | not_useful => ret (To transform_query_n)
      | max_iterations => ret (To fallback_n)
      end
  | fallback_n => ret END
  end.

(** How an execution of the compiled graph ends. *)
Inductive Ending : Type :=
| Ended (final_state : GraphState)
| Raised (e : exn)
| OutOfSteps.

Record Execution : Type := {
  trace : list Node;
  ending : Ending;
  calls : World
}.

(** Runs the graph from node [n]: at most [steps] node executions, the
    role that the graph library's recursion limit
    ([settings.graph_recursion_limit] in [execute_query]) plays for the
    compiled graph; running out is [OutOfSteps].  The trace lists the nodes
    that completed, in order; a node whose function or outgoing edge raises
    ends the execution and is not listed. *)
Fixpoint run_from (steps : nat) (n : Node) (state : GraphState) (w : World)
    : Execution :=
  match steps with
  | O => {| trace := []; ending := OutOfSteps; calls := w |}
  | S steps' =>
      match node_fn n state w with
      | (Raise e, w1) => {| trace := []; ending := Raised e; calls := w1 |}
      | (Ok state1, w1) =>
          match edge n state1 w1 with
          | (Raise e, w2) => {| trace := []; ending := Raised e; calls := w2 |}
          | (Ok END, w2) =>
              {| trace := [n]; ending := Ended state1; calls := w2 |}
          | (Ok (To n'), w2) =>
              let x := run_from steps' n' state1 w2 in
              {| trace := n :: x.(trace);
                 ending := x.(ending);
                 calls := x.(calls) |}
          end
      end
  end.

End Nodes.

(* ===================================================================== *)
(** ** The caller ([app/services/graph_service.py]) *)
(* ===================================================================== *)

Module GraphService.

(** [initial_state] of [execute_query]; [model_config or {}] and
    [collection_ids or []] are the arguments themselves when given. *)
Definition initial_state (q : string) (cfg : dict float) (ids : list Z)
    : GraphState :=
  {| question := q;
     original_question := q;
     generation := "";
     documents := [];
     model_config := cfg;
     collection_ids := ids;
     generation_attempts := 0;
     transform_attempts := 0;
     total_iterations := 0;
     max_iterations_reached := false;
     no_relevant_docs_fallback := false;
     fallback_type := "" |}.

Definition _get_disclaimer_text (final_state : GraphState) : option string :=
  if final_state.(no_relevant_docs_fallback)
  then Some "Diese Antwort basiert auf allgemeinem Wissen, nicht auf Dokumenten aus der Wissensbasis."
  else if final_state.(max_iterations_reached)
  then Some "Diese Antwort konnte nicht vollständig verifiziert werden."
  else None.

(** [graph.stream(initial_state, {"recursion_limit": ...})] under a
    recursion limit that leaves room for [steps] node executions.  The
    graph is entered at [retrieve] ([START -> retrieve]). *)
Definition stream (settings : Settings) (env : Env) (steps : nat)
    (q : string) (cfg : dict float) (ids : list Z) : Execution :=
  run_from settings env steps retrieve_n (initial_state q cfg ids) [].

(** The node executions that [settings.graph_recursion_limit] leaves room
    for.  The graph library stops a run with [GraphRecursionError] unless
    it reaches [END] within [recursion_limit] steps, and a run of [n]
    nodes takes [n + 1] of them.  The library is not part of the
    repository: what is taken from it is which runs complete, and a run
    that does not is reported as [OutOfSteps]. *)
Definition node_budget (settings : Settings) : nat :=
  Z.to_nat (settings.(graph_recursion_limit) - 1).

(** The call that [execute_query] makes:
    [graph.stream(initial_state,
                  {"recursion_limit": settings.graph_recursion_limit})]. *)
Definition graph_stream (settings : Settings) (env : Env)
    (q : string) (cfg : dict float) (ids : list Z) : Execution :=
  stream settings env (node_budget settings) q cfg ids.

End GraphService.

(* ===================================================================== *)
(** ** Stub collaborators for concrete executions *)
(* ===================================================================== *)

Module Stub.

Definition doc (content : string) : Document :=
  {| page_content := content; metadata := [] |}.

Definition graded (label : string) (conf : Q) : outcome GradeDocuments.t :=
  Ok {| GradeDocuments.binary_score := label;
        GradeDocuments.confidence := conf;
        GradeDocuments.reasoning := "stub" |}.

(** Collaborators that answer every call the same way: the retriever
    returns [raw], every document is graded [grade], the hallucination
    grader answers [grounded], the answer grader [addresses], and the
    rewriter appends [" (rewritten)"] to the question it is given. *)
Definition constant (raw : outcome RawDocuments)
    (grade : outcome GradeDocuments.t) (grounded addresses : string) : Env :=
  {| retriever_tool_invoke := fun _ _ => raw;
     collection_retriever_invoke := fun _ _ _ => Ok [];
     document_grader_ainvoke := fun _ _ _ _ _ => grade;
     rag_chain_invoke := fun _ _ _ _ => Ok "answer from documents";
     llm_chain_invoke := fun _ _ _ => Ok "answer from general knowledge";
     question_rewriter_invoke := fun _ _ q => Ok (q ++ " (rewritten)");
     hallucination_grader_invoke :=
       fun _ _ _ => Ok {| GradeHallucinations.binary_score := grounded |};
     answer_grader_invoke :=
       fun _ _ _ => Ok {| GradeAnswer.binary_score := addresses |} |}.

Definition three_docs : RawDocuments :=
  RawList [ItemDocument (doc "d1"); ItemDocument (doc "d2");
           ItemDocument (doc "d3")].

(** Retrieval finds nothing, whatever the query. *)
Definition nothing_found : Env :=
  constant (Ok (RawList [])) (graded "no" 0%Q) "no" "no".

(** Settings with the three budgets replaced. *)
Definition budgets (g t total : Z) : Settings :=
  {| max_generation_retries := g;
     max_transform_retries := t;
     max_total_iterations := total;
     graph_recursion_limit := default_settings.(graph_recursion_limit);
     document_grading_batch_size :=
       default_settings.(document_grading_batch_size);
     document_grading_retry_attempts :=
       default_settings.(document_grading_retry_attempts);
     document_grading_confidence_threshold :=
       default_settings.(document_grading_confidence_threshold);
     enable_retry_variation := default_settings.(enable_retry_variation);
     retry_temperature_increment :=
       default_settings.(retry_temperature_increment);
     retrieval_k := default_settings.(retrieval_k);
     hallucination_batch_size := default_settings.(hallucination_batch_size) |}.

(** A state as [generate] returns it: one document, [attempts] generation
    attempts made. *)
Definition after_generation (attempts : Z) : GraphState :=
  {| question := "q";
     original_question := "q";
     generation := "answer";
     documents := [doc "d1"];
     model_config := [];
     collection_ids := [];
     generation_attempts := attempts;
     transform_attempts := 0;
     total_iterations := 2 + attempts;
     max_iterations_reached := false;
     no_relevant_docs_fallback := false;
     fallback_type := "" |}.

Definition after_first_generation : GraphState := after_generation 1.
Definition after_second_generation : GraphState := after_generation 2.

(** The document grader answers by document index, the same on every
    attempt; a document beyond the list fails to be graded. *)
Definition graded_by_index (grades : list (outcome GradeDocuments.t)) : Env :=
  {| retriever_tool_invoke := fun _ _ => Ok three_docs;
     collection_retriever_invoke := fun _ _ _ => Ok [];
     document_grader_ainvoke :=
       fun _ doc_index _ _ _ =>
         nth (Z.to_nat doc_index) grades (Raise (OtherException "no grade"));
     rag_chain_invoke := fun _ _ _ _ => Ok "answer from documents";
     llm_chain_invoke := fun _ _ _ => Ok "answer from general knowledge";
     question_rewriter_invoke := fun _ _ q => Ok (q ++ " (rewritten)");
     hallucination_grader_invoke :=
       fun _ _ _ => Ok {| GradeHallucinations.binary_score := "yes" |};
     answer_grader_invoke :=
       fun _ _ _ => Ok {| GradeAnswer.binary_score := "yes" |} |}.

(** Three retrieved documents: relevant with confidence 0.59, relevant with
    confidence 0.60, and one whose grading fails on every attempt. *)
Definition mixed_grades : Env :=
  graded_by_index
    [graded "yes" (59 # 100); graded "yes" (60 # 100);
     Raise (RuntimeError "TCPTransport closed")].

Definition retrieved_three : GraphState :=
  {| question := "q";
     original_question := "q";
     generation := "";
     documents := [doc "d1"; doc "d2"; doc "d3"];
     model_config := [];
     collection_ids := [];
     generation_attempts := 0;
     transform_attempts := 0;
     total_iterations := 1;
     max_iterations_reached := false;
     no_relevant_docs_fallback := false;
     fallback_type := "" |}.

(** The hallucination grader answers its calls from a script, by clock. *)
Definition scripted_hallucination
    (script : list (outcome GradeHallucinations.t)) : Env :=
  {| retriever_tool_invoke := fun _ _ => Ok three_docs;
     collection_retriever_invoke := fun _ _ _ => Ok [];
     document_grader_ainvoke := fun _ _ _ _ _ => graded "yes" 1%Q;
     rag_chain_invoke := fun _ _ _ _ => Ok "answer from documents";
     llm_chain_invoke := fun _ _ _ => Ok "answer from general knowledge";
     question_rewriter_invoke := fun _ _ q => Ok (q ++ " (rewritten)");
     hallucination_grader_invoke :=
       fun t _ _ => nth t script (Raise (OtherException "end of script"));
     answer_grader_invoke :=
       fun _ _ _ => Ok {| GradeAnswer.binary_score := "yes" |} |}.

(** Seven documents and an answer: three batches of size 3, 3 and 1. *)
Definition seven_documents : GraphState :=
  {| question := "q";
     original_question := "q";
     generation := "answer";
     documents := [doc "d1"; doc "d2"; doc "d3"; doc "d4"; doc "d5";
                   doc "d6"; doc "d7"];
     model_config := [];
     collection_ids := [];
     generation_attempts := 1;
     transform_attempts := 0;
     total_iterations := 3;
     max_iterations_reached := false;
     no_relevant_docs_fallback := false;
     fallback_type := "" |}.

(** Retrieval finds nothing for the first query and three documents for
    every later one. *)
Definition found_after_rewrite (grounded addresses : string) : Env :=
  {| retriever_tool_invoke :=
       fun t _ => if Nat.eqb t 0 then Ok (RawList []) else Ok three_docs;
     collection_retriever_invoke := fun _ _ _ => Ok [];
     document_grader_ainvoke := fun _ _ _ _ _ => graded "yes" 1%Q;
     rag_chain_invoke := fun _ _ _ _ => Ok "answer from documents";
     llm_chain_invoke := fun _ _ _ => Ok "answer from general knowledge";
     question_rewriter_invoke := fun _ _ q => Ok (q ++ " (rewritten)");
     hallucination_grader_invoke :=
       fun _ _ _ => Ok {| GradeHallucinations.binary_score := grounded |};
     answer_grader_invoke :=
       fun _ _ _ => Ok {| GradeAnswer.binary_score := addresses |} |}.


End Stub.

(* ===================================================================== *)
(** ** Vocabulary of the properties *)
(* ===================================================================== *)

(** The fallback flags a node writes. *)
Definition flags_written (n : Node) : bool * bool * string :=
  match n with
  | fallback_n => (true, false, "max_iterations")
  | no_docs_fallback_n => (true, true, "no_relevant_docs")
  | _ => (false, false, "")
  end.

Definition flags_of (state : GraphState) : bool * bool * string :=
  (state.(max_iterations_reached), state.(no_relevant_docs_fallback),
   state.(fallback_type)).

Record node_post (n : Node) (st st' : GraphState) : Prop := {
  post_original_question : st'.(original_question) = st.(original_question);
  post_question :
    n <> transform_query_n -> st'.(question) = st.(question);
  post_generation :
    n <> generate_n -> n <> no_docs_fallback_n ->
    st'.(generation) = st.(generation);
  post_total_iterations :
    st'.(total_iterations) =
    st.(total_iterations) + (match n with fallback_n => 0 | _ => 1 end);
  post_transform_attempts :
    st'.(transform_attempts) =
    st.(transform_attempts) + (match n with transform_query_n => 1 | _ => 0 end);
  post_generation_attempts :
    st'.(generation_attempts) =
    match n with
    | generate_n => st.(generation_attempts) + 1
    | no_docs_fallback_n => 1
    | _ => st.(generation_attempts)
    end;
  post_flags : flags_of st' = flags_written n
}.


(** The nodes whose execution adds one to [total_iterations]. *)
Definition counts_as_step (n : Node) : bool :=
  match n with
  | fallback_n => false
  | _ => true
  end.

(** Node code whose result does not depend on the clock: run after any
    log, it returns what it returns on the empty log and appends the same
    calls. *)
Definition clock_free {A : Type} (m : M A) : Prop :=
  forall w, m w = (fst (m []), (w ++ snd (m []))%list).

(** The grading of document number [doc_index] in the grading step that
    starts at clock [t0]: the structured verdict, or the error that is
    left after the retries. *)
Definition verdict (settings : Settings) (env : Env) (t0 : nat) (q : string)
    (doc : Document) (doc_index : Z) : outcome GradeDocuments.t :=
  fst (obtain_score settings env t0 q doc.(page_content) doc_index []).

(** The relevance policy: label ['yes'] and confidence at least the
    threshold; an error is not relevant. *)
Definition keeps (settings : Settings) (v : outcome GradeDocuments.t) : bool :=
  match v with
  | Ok score =>
      (String.eqb score.(GradeDocuments.binary_score) "yes"
       && Qle_bool settings.(document_grading_confidence_threshold)
            score.(GradeDocuments.confidence))%bool
  | Raise _ => false
  end.

(** The documents the policy keeps, in order; [doc_index] numbers the
    first document of [docs]. *)
Fixpoint kept_documents (settings : Settings) (env : Env) (t0 : nat)
    (q : string) (docs : list Document) (doc_index : Z) : list Document :=
  match docs with
  | [] => []
  | doc :: rest =>
      if keeps settings (verdict settings env t0 q doc doc_index)
      then doc :: kept_documents settings env t0 q rest (doc_index + 1)
      else kept_documents settings env t0 q rest (doc_index + 1)
  end.

(** Fixed-size batches, in order; the last one may be shorter. *)
Fixpoint chunks {A : Type} (fuel size : nat) (l : list A) : list (list A) :=
  match fuel with
  | O => []
  | S fuel' =>
      match l with
      | [] => []
      | _ :: _ => firstn size l :: chunks fuel' size (skipn size l)
      end
  end.

Definition batches_of {A : Type} (size : Z) (l : list A) : list (list A) :=
  chunks (List.length l) (Z.to_nat size) l.

(** The check of one batch at clock [t] returns grounded; a check that
    raises does not. *)
Definition batch_grounded (env : Env) (gen : string) (t : nat)
    (batch : list Document) : bool :=
  match hallucination_grader_invoke env t (format_docs batch) gen with
  | Ok score =>
      String.eqb (lower score.(GradeHallucinations.binary_score)) "yes"
  | Raise _ => false
  end.

(** Checks the batches in order, one call each, starting at clock [t], and
    stops at the first grounded batch: the verdict and the number of
    batches that were checked. *)
Fixpoint check_batches (env : Env) (gen : string) (t : nat)
    (batches : list (list Document)) : bool * nat :=
  match batches with
  | [] => (false, O)
  | b :: rest =>
      if batch_grounded env gen t b then (true, 1%nat)
      else let '(r, k) := check_batches env gen (S t) rest in (r, S k)
  end.

Definition hallucination_call (gen : string) (batch : list Document) : Call :=
  HallucinationGraderInvoke (format_docs batch) gen.

(** *** Termination measure *)

(** Rewrites and generations the budgets still allow in [state]. *)
Definition transforms_left (settings : Settings) (state : GraphState) : Z :=
  Z.max 0 (settings.(max_transform_retries) - state.(transform_attempts)).

Definition generations_left (settings : Settings) (state : GraphState) : Z :=
  Z.max 1 (settings.(max_generation_retries) - state.(generation_attempts)).

(** An upper bound on the node executions that remain when node [n] is
    about to run on [state]. *)
Definition remaining (settings : Settings) (n : Node) (state : GraphState) : Z :=
  let cycles :=
    3 * transforms_left settings state + generations_left settings state in
  match n with
  | fallback_n | no_docs_fallback_n => 1
  | generate_n | transform_query_n => cycles + 1
  | grade_documents_n => cycles + 2
  | retrieve_n => cycles + 3
  end.

(** The rewriter only runs while the transform budget is not used up. *)
Definition may_run (settings : Settings) (n : Node) (state : GraphState) : Prop :=
  n = transform_query_n ->
  state.(transform_attempts) < settings.(max_transform_retries).

(** The bound on node executions of a whole run. *)
Definition step_bound (settings : Settings) : nat :=
  Z.to_nat (3 * Z.max 0 settings.(max_transform_retries)
            + Z.max 1 settings.(max_generation_retries) + 3).

(** The model calls whose failure the loop does not handle return a value:
    answer generation, the no-documents answer, rewriting, answer grading. *)
Definition generator_answers (env : Env) : Prop :=
  forall t cfg context q, exists s, rag_chain_invoke env t cfg context q = Ok s.

Definition llm_chain_answers (env : Env) : Prop :=
  forall t cfg q, exists s, llm_chain_invoke env t cfg q = Ok s.

Definition rewriter_answers (env : Env) : Prop :=
  forall t cfg q, exists s, question_rewriter_invoke env t cfg q = Ok s.

Definition answer_grader_answers (env : Env) : Prop :=
  forall t q gen, exists s, answer_grader_invoke env t q gen = Ok s.

Definition answers (env : Env) : Prop :=
  generator_answers env /\ llm_chain_answers env
  /\ rewriter_answers env /\ answer_grader_answers env.

(** *** Environments in which nothing relevant is ever found *)

Definition never_relevant (settings : Settings) (env : Env) : Prop :=
  forall t0 q doc doc_index,
    keeps settings (verdict settings env t0 q doc doc_index) = false.

Definition zero_relevant (settings : Settings) (env : Env) : Prop :=
  forall st w,
    exists st' w',
      grade_documents settings env st w = (Ok st', w')
      /\ st'.(documents) = [].

(** *** States an execution passes through *)

(** [reachable q0 n st w]: an execution that [execute_query] started on
    the question [q0] is about to run node [n] on state [st] with call log
    [w]. *)
Inductive reachable (settings : Settings) (env : Env) (q0 : string)
    : Node -> GraphState -> World -> Prop :=
| reachable_start cfg ids :
    reachable settings env q0 retrieve_n
      (GraphService.initial_state q0 cfg ids) []
| reachable_step n st w st1 w1 n' w2 :
    reachable settings env q0 n st w ->
    node_fn settings env n st w = (Ok st1, w1) ->
    edge settings env n st1 w1 = (Ok (To n'), w2) ->
    reachable settings env q0 n' st1 w2.

Definition Node_eq_dec (a b : Node) : {a = b} + {a <> b}.
Proof. decide equality. Defined.

(* ===================================================================== *)
(** ** Further vocabulary: call logs, traces, entry conditions *)
(* ===================================================================== *)

(** Node code that only appends to the call log, and only calls that
    satisfy [P]; this holds whether it returns or raises. *)
Definition logs {A : Type} (P : Call -> Prop) (m : M A) : Prop :=
  forall w, exists cs, snd (m w) = (w ++ cs)%list /\ Forall P cs.

(** The calls node [n] may make when it runs on [st]. *)
Definition node_call (n : Node) (st : GraphState) (c : Call) : Prop :=
  match n, c with
  | retrieve_n, RetrieverToolInvoke query =>
      query = st.(question) /\ st.(collection_ids) = []
  | retrieve_n, CollectionRetrieverInvoke coll_id query =>
      query = st.(question) /\ In coll_id st.(collection_ids)
  | grade_documents_n, DocumentGraderInvoke _ _ q content =>
      q = st.(question)
      /\ exists doc, In doc st.(documents) /\ content = doc.(page_content)
  | generate_n, AnswerGeneratorInvoke _ context q =>
      q = st.(original_question) /\ context = format_docs st.(documents)
  | transform_query_n, QuestionRewriterInvoke cfg q =>
      q = st.(question) /\ cfg = st.(model_config)
  | no_docs_fallback_n, PureLLMInvoke cfg q =>
      q = st.(question) /\ cfg = st.(model_config)
  | _, _ => False
  end.

(** The calls the edge leaving [n] may make on the state [st] that the
    node returned. *)
Definition edge_call (n : Node) (st : GraphState) (c : Call) : Prop :=
  match n, c with
  | generate_n, HallucinationGraderInvoke _ gen => gen = st.(generation)
  | generate_n, AnswerGraderInvoke q gen =>
      q = st.(question) /\ gen = st.(generation)
  | _, _ => False
  end.

(** A call of the answer generator asks [q0]. *)
Definition generator_asks (q0 : string) (c : Call) : Prop :=
  match c with
  | AnswerGeneratorInvoke _ _ q => q = q0
  | _ => True
  end.

(** The edges and conditional-edge targets that [create_adaptive_graph]
    declares. *)
Definition declared_edge (a b : Node) : bool :=
  match a, b with
  | retrieve_n, grade_documents_n => true
  | grade_documents_n, transform_query_n => true
  | grade_documents_n, generate_n => true
  | grade_documents_n, no_docs_fallback_n => true
  | transform_query_n, retrieve_n => true
  | generate_n, generate_n => true
  | generate_n, transform_query_n => true
  | generate_n, fallback_n => true
  | _, _ => false
  end.

Fixpoint follows_edges (tr : list Node) : bool :=
  match tr with
  | a :: ((b :: _) as rest) => (declared_edge a b && follows_edges rest)%bool
  | _ => true
  end.

(** What is known of the state on which node [n] is entered. *)
Definition entry_condition (settings : Settings) (n : Node)
    (st : GraphState) : Prop :=
  match n with
  | transform_query_n =>
      st.(transform_attempts) < settings.(max_transform_retries)
  | fallback_n => check_iteration_limits settings st = true
  | no_docs_fallback_n =>
      st.(documents) = []
      /\ settings.(max_transform_retries) <= st.(transform_attempts)
  | _ => True
  end.

(** [l1] is [l2] with some elements left out. *)
Inductive subsequence {A : Type} : list A -> list A -> Prop :=
| subsequence_nil : subsequence [] []
| subsequence_keep x l1 l2 :
    subsequence l1 l2 -> subsequence (x :: l1) (x :: l2)
| subsequence_drop x l1 l2 :
    subsequence l1 l2 -> subsequence l1 (x :: l2).

(** The documents that one pass over [collection_ids] collects, the first
    call being made at clock [t]: a failing collection contributes
    nothing. *)
Fixpoint collected (env : Env) (query : string) (t : nat) (ids : list Z)
    : list RawItem :=
  match ids with
  | [] => []
  | coll_id :: rest =>
      match collection_retriever_invoke env t coll_id query with
      | Ok docs => (docs ++ collected env query (S t) rest)%list
      | Raise _ => collected env query (S t) rest
      end
  end.

(** The temperature entry of a model configuration. *)
Definition temperature (cfg : dict float) : float :=
  dict_get cfg "temperature" (float_of_Z 0).

(** The configuration that [generate] hands to the model on [st]: the
    stored one, or on a retry with variation the stored one with the
    temperature raised. *)
Definition retry_model_config (settings : Settings) (st : GraphState)
    : outcome (dict float) :=
  if ((1 <? st.(generation_attempts) + 1)
      && settings.(enable_retry_variation))%bool
  then
    match float_of_int (st.(generation_attempts) + 1 - 1) with
    | Ok factor =>
        Ok (dict_set st.(model_config) "temperature"
              (py_min
                 (float_add (temperature st.(model_config))
                    (float_mul factor
                       settings.(retry_temperature_increment)))
                 (float_of_Z 1)))
    | Raise e => Raise e
    end
  else Ok st.(model_config).

(** Further stub collaborators and states for concrete executions. *)
Module Fixture.

(** Collection 2 cannot be read; every other collection holds one document
    named after it. *)
Definition collections : Env :=
  {| retriever_tool_invoke := fun _ _ => Ok RawNone;
     collection_retriever_invoke :=
       fun _ coll_id _ =>
         if coll_id =? 2 then Raise (ValueError "Collection with ID 2 not found")
         else if coll_id =? 1 then Ok [ItemDocument (Stub.doc "from 1")]
         else Ok [ItemDocument (Stub.doc "from another")];
     document_grader_ainvoke := fun _ _ _ _ _ => Stub.graded "yes" 1%Q;
     rag_chain_invoke := fun _ _ _ _ => Ok "answer from documents";
     llm_chain_invoke := fun _ _ _ => Ok "answer from general knowledge";
     question_rewriter_invoke := fun _ _ q => Ok (q ++ " (rewritten)");
     hallucination_grader_invoke :=
       fun _ _ _ => Ok {| GradeHallucinations.binary_score := "yes" |};
     answer_grader_invoke :=
       fun _ _ _ => Ok {| GradeAnswer.binary_score := "yes" |} |}.

(** The default settings with the two batch sizes replaced. *)
Definition batch_sizes (grading hallucination : Z) : Settings :=
  {| max_generation_retries := default_settings.(max_generation_retries);
     max_transform_retries := default_settings.(max_transform_retries);
     max_total_iterations := default_settings.(max_total_iterations);
     graph_recursion_limit := default_settings.(graph_recursion_limit);
     document_grading_batch_size := grading;
     document_grading_retry_attempts :=
       default_settings.(document_grading_retry_attempts);
     document_grading_confidence_threshold :=
       default_settings.(document_grading_confidence_threshold);
     enable_retry_variation := default_settings.(enable_retry_variation);
     retry_temperature_increment :=
       default_settings.(retry_temperature_increment);
     retrieval_k := default_settings.(retrieval_k);
     hallucination_batch_size := hallucination |}.

(** The document grader fails once with a closed TCP transport and then
    answers. *)
Definition flaky_grader : Env :=
  {| retriever_tool_invoke := fun _ _ => Ok Stub.three_docs;
     collection_retriever_invoke := fun _ _ _ => Ok [];
     document_grader_ainvoke :=
       fun _ _ n _ _ =>
         if n =? 0 then Raise (RuntimeError "TCPTransport closed")
         else Stub.graded "yes" 1%Q;
     rag_chain_invoke := fun _ _ _ _ => Ok "answer from documents";
     llm_chain_invoke := fun _ _ _ => Ok "answer from general knowledge";
     question_rewriter_invoke := fun _ _ q => Ok (q ++ " (rewritten)");
     hallucination_grader_invoke :=
       fun _ _ _ => Ok {| GradeHallucinations.binary_score := "yes" |};
     answer_grader_invoke :=
       fun _ _ _ => Ok {| GradeAnswer.binary_score := "yes" |} |}.

(** After one generation, with temperature [t] and another parameter in
    the configuration. *)
Definition second_attempt (t : float) : GraphState :=
  {| question := "q";
     original_question := "q";
     generation := "answer";
     documents := [Stub.doc "d1"];
     model_config := [("top_p", float_lit 9 10); ("temperature", t)];
     collection_ids := [];
     generation_attempts := 1;
     transform_attempts := 0;
     total_iterations := 3;
     max_iterations_reached := false;
     no_relevant_docs_fallback := false;
     fallback_type := "" |}.

(** Retrieval finds three documents for the first query and nothing
    afterwards. *)
Definition lost_after_rewrite (grounded addresses : string) : Env :=
  {| retriever_tool_invoke :=
       fun t _ => if Nat.eqb t 0 then Ok Stub.three_docs else Ok (RawList []);
     collection_retriever_invoke := fun _ _ _ => Ok [];
     document_grader_ainvoke := fun _ _ _ _ _ => Stub.graded "yes" 1%Q;
     rag_chain_invoke := fun _ _ _ _ => Ok "answer from documents";
     llm_chain_invoke := fun _ _ _ => Ok "answer from general knowledge";
     question_rewriter_invoke := fun _ _ q => Ok (q ++ " (rewritten)");
     hallucination_grader_invoke :=
       fun _ _ _ => Ok {| GradeHallucinations.binary_score := grounded |};
     answer_grader_invoke :=
       fun _ _ _ => Ok {| GradeAnswer.binary_score := addresses |} |}.

End Fixture.

(** The condition under which [grade_single_doc] retries: a [RuntimeError]
    whose lowercased message mentions both "tcptransport" and "closed". *)
Definition is_tcp_error (e : exn) : bool :=
  match e with
  | RuntimeError msg =>
      (str_in "tcptransport" (lower msg) && str_in "closed" (lower msg))%bool
  | _ => false
  end.

(** The nodes of a trace that count as a step. *)
Definition step_count (tr : list Node) : Z :=
  Z.of_nat (List.length (filter counts_as_step tr)).

Definition occurrences (n : Node) (tr : list Node) : Z :=
  Z.of_nat (count_occ Node_eq_dec tr n).

(** The generations a run may still perform when it is about to run node
    [n] on [st]. *)
Definition generation_budget (settings : Settings) (n : Node)
    (st : GraphState) : Z :=
  match n with
  | fallback_n | no_docs_fallback_n => 0
  | _ => generations_left settings st
  end.

(** The nodes whose function was called in a run, in order.  It is the
    trace, followed by the node that raised (itself or the edge function
    that leaves it) when the run ended that way: the trace lists a node
    when the stream yields its output. *)
Fixpoint started_from (settings : Settings) (env : Env) (steps : nat)
    (n : Node) (state : GraphState) (w : World) : list Node :=
  match steps with
  | O => []
  | S steps' =>
      n :: match node_fn settings env n state w with
           | (Ok state1, w1) =>
               match edge settings env n state1 w1 with
               | (Ok (To n'), w2) =>
                   started_from settings env steps' n' state1 w2
               | _ => []
               end
           | (Raise _, _) => []
           end
  end.

Definition started (settings : Settings) (env : Env) (steps : nat)
    (q : string) (cfg : dict float) (ids : list Z) : list Node :=
  started_from settings env steps retrieve_n
    (GraphService.initial_state q cfg ids) [].

(** No conversion of the attempt counter to a float can overflow when
    node [n] is about to run on [st]: the counter is within the
    generation budget. *)
Definition generation_room (settings : Settings) (n : Node)
    (st : GraphState) : Prop :=
  match n with
  | fallback_n | no_docs_fallback_n => True
  | _ =>
      st.(generation_attempts) <= 0
      \/ st.(generation_attempts) < settings.(max_generation_retries)
  end.

(* ===================================================================== *)
(** ** The linear graph ([app/core/graph/rag_graph.py]) *)
(* ===================================================================== *)

(** A compiled graph over the node names of [Node]: a function per node
    and the target of the edge that leaves it.  [run_graph] is the runner
    of [run_from] with these two as parameters. *)
Fixpoint run_graph (fn : Node -> GraphState -> M GraphState)
    (edges : Node -> GraphState -> M Target)
    (steps : nat) (n : Node) (state : GraphState) (w : World) : Execution :=
  match steps with
  | O => {| trace := []; ending := OutOfSteps; calls := w |}
  | S steps' =>
      match fn n state w with
      | (Raise e, w1) => {| trace := []; ending := Raised e; calls := w1 |}
      | (Ok state1, w1) =>
          match edges n state1 w1 with
          | (Raise e, w2) => {| trace := []; ending := Raised e; calls := w2 |}
          | (Ok END, w2) =>
              {| trace := [n]; ending := Ended state1; calls := w2 |}
          | (Ok (To n'), w2) =>
              let x := run_graph fn edges steps' n' state1 w2 in
              {| trace := n :: x.(trace);
                 ending := x.(ending);
                 calls := x.(calls) |}
          end
      end
  end.

Module RagGraph.

(** [create_rag_graph]: the nodes "retrieve" and "generate" with the node
    functions of the adaptive graph, and the edges [START -> retrieve],
    [retrieve -> generate], [generate -> END].  The other names of [Node]
    are not nodes of this graph and are never reached. *)
Definition edge (n : Node) (state : GraphState) : M Target :=
  match n with
  | retrieve_n => ret (To generate_n)
  | _ => ret END
  end.

Definition stream (settings : Settings) (env : Env) (steps : nat)
    (q : string) (cfg : dict float) (ids : list Z) : Execution :=
  run_graph (node_fn settings env) edge steps retrieve_n
    (GraphService.initial_state q cfg ids) [].

End RagGraph.

(* ===================================================================== *)
(** ** The result of [execute_query] ([app/services/graph_service.py]) *)
(* ===================================================================== *)

Module QueryResult.

Record IterationMetrics : Type := {
  generation_attempts : Z;
  transform_attempts : Z;
  total_iterations : Z;
  max_iterations_reached : bool;
  no_relevant_docs_fallback : bool;
  disclaimer : option string
}.

(** The entries of [result] that are computed from the final state and the
    trace.  The timing entries, the per-document summaries and the id of
    the stored execution record are left out. *)
Record t : Type := {
  answer : string;
  documents_retrieved : Z;
  graph_trace : list Node;
  rewritten_question : option string;
  iteration_metrics : IterationMetrics
}.

End QueryResult.

(** "Extract results" in [execute_query], for a final state that holds all
    keys (every node of the adaptive and of the linear graph returns
    them all). *)
Definition extract_results (q : string) (execution_trace : list Node)
    (final_state : GraphState) : QueryResult.t :=
  {| QueryResult.answer := final_state.(generation);
     QueryResult.documents_retrieved :=
       Z.of_nat (List.length final_state.(documents));
     QueryResult.graph_trace := execution_trace;
     QueryResult.rewritten_question :=
       if String.eqb final_state.(question) q then None
       else Some final_state.(question);
     QueryResult.iteration_metrics :=
       {| QueryResult.generation_attempts := final_state.(generation_attempts);
          QueryResult.transform_attempts := final_state.(transform_attempts);
          QueryResult.total_iterations := final_state.(total_iterations);
          QueryResult.max_iterations_reached :=
            final_state.(max_iterations_reached);
          QueryResult.no_relevant_docs_fallback :=
            final_state.(no_relevant_docs_fallback);
          QueryResult.disclaimer :=
            GraphService._get_disclaimer_text final_state |} |}.

(** [execute_query] on an execution of a graph: the result when the graph
    reached [END]; an exception of a node, or the recursion error of the
    graph library, is raised again. *)
Definition execute_query_on (q : string) (x : Execution)
    : outcome QueryResult.t :=
  match x.(ending) with
  | Ended final_state => Ok (extract_results q x.(trace) final_state)
  | Raised e => Raise e
  | OutOfSteps => Raise (OtherException "GraphRecursionError")
  end.

(** [execute_query] with [graph_type = ADAPTIVE_RAG] and with
    [graph_type = SIMPLE_RAG]. *)
Definition execute_query_adaptive (settings : Settings) (env : Env)
    (steps : nat) (q : string) (cfg : dict float) (ids : list Z)
    : outcome QueryResult.t :=
  execute_query_on q (GraphService.stream settings env steps q cfg ids).

Definition execute_query_simple (settings : Settings) (env : Env)
    (steps : nat) (q : string) (cfg : dict float) (ids : list Z)
    : outcome QueryResult.t :=
  execute_query_on q (RagGraph.stream settings env steps q cfg ids).

(** [execute_query] of the adaptive graph as the service runs it, under
    the configured recursion limit. *)
Definition execute_query (settings : Settings) (env : Env)
    (q : string) (cfg : dict float) (ids : list Z) : outcome QueryResult.t :=
  execute_query_on q (GraphService.graph_stream settings env q cfg ids).

(** The least value of [total_iterations] with which node [n] is
    entered. *)
Definition least_iterations (n : Node) : Z :=
  match n with
  | retrieve_n => 0
  | grade_documents_n => 1
  | fallback_n => 3
  | _ => 2
  end.

(* ===================================================================== *)
(** ** The retriever tool ([app/core/graph/tools/retriever_tool.py]) *)
(* ===================================================================== *)

(** What [retriever.invoke(query)] hands to [custom_retriever_func]: a
    list, or a single value with its truth value. *)
Inductive RetrieverOutput : Type :=
| OutputList (items : list RawItem)
| OutputSingle (item : RawItem) (truthy : bool).

(** [custom_retriever_func], as a function of the outcome of
    [retriever.invoke(query)]. *)
Definition custom_retriever_func (results : outcome RetrieverOutput)
    : list RawItem :=
  match results with
  | Ok (OutputList items) => items
  | Ok (OutputSingle item truthy) => if truthy then [item] else []
  | Raise _ => []
  end.

(** An environment whose retriever tool is the [Tool] that [_create_tool]
    builds around the vector search [search]. *)
Definition with_retriever_tool
    (search : nat -> string -> outcome RetrieverOutput) (env : Env) : Env :=
  {| retriever_tool_invoke :=
       fun t query => Ok (RawList (custom_retriever_func (search t query)));
     collection_retriever_invoke := env.(collection_retriever_invoke);
     document_grader_ainvoke := env.(document_grader_ainvoke);
     rag_chain_invoke := env.(rag_chain_invoke);
     llm_chain_invoke := env.(llm_chain_invoke);
     question_rewriter_invoke := env.(question_rewriter_invoke);
     hallucination_grader_invoke := env.(hallucination_grader_invoke);
     answer_grader_invoke := env.(answer_grader_invoke) |}.

(** The retriever tool never delivers a document: it raises, or what it
    returns normalises to the empty list. *)
Definition retrieval_always_empty (env : Env) : Prop :=
  forall t query,
    match retriever_tool_invoke env t query with
    | Ok raw_documents => documents_of_raw raw_documents = []
    | Raise _ => True
    end.

(** A call to one of the three graders. *)
Definition grader_call (c : Call) : bool :=
  match c with
  | DocumentGraderInvoke _ _ _ _ => true
  | HallucinationGraderInvoke _ _ => true
  | AnswerGraderInvoke _ _ => true
  | _ => false
  end.

Module Outage.

(** The answer chain is down as well. *)
Definition no_generator : Env :=
  {| retriever_tool_invoke := fun _ _ => Ok Stub.three_docs;
     collection_retriever_invoke := fun _ _ _ => Ok [];
     document_grader_ainvoke := fun _ _ _ _ _ => Stub.graded "yes" 1%Q;
     rag_chain_invoke :=
       fun _ _ _ _ => Raise (RuntimeError "connection refused");
     llm_chain_invoke := fun _ _ _ => Ok "answer from general knowledge";
     question_rewriter_invoke := fun _ _ q => Ok (q ++ " (rewritten)");
     hallucination_grader_invoke :=
       fun _ _ _ => Ok {| GradeHallucinations.binary_score := "yes" |};
     answer_grader_invoke :=
       fun _ _ _ => Ok {| GradeAnswer.binary_score := "yes" |} |}.


(** A vector search that is down: every call raises. *)
Definition search (t : nat) (query : string) : outcome RetrieverOutput :=
  Raise (RuntimeError "connection refused").

(** The collaborators of [Stub.constant] behind the retriever tool built
    around that search. *)
Definition env : Env :=
  with_retriever_tool search
    (Stub.constant (Ok Stub.three_docs) (Stub.graded "yes" 1) "yes" "yes").

End Outage.

(* ===================================================================== *)
(** * Properties *)
(* ===================================================================== *)

(** ** Reasoning about node code *)

Lemma bind_Ok {A B : Type} (m : M A) (k : A -> M B) w b w' :
  bind m k w = (Ok b, w') ->
  exists a w1, m w = (Ok a, w1) /\ k a w1 = (Ok b, w').
Proof.
  unfold bind. destruct (m w) as [[a | e] w1]; intros H.
  - exists a, w1. split; [reflexivity | exact H].
  - discriminate H.
Qed.

Lemma bind_run {A B : Type} (m : M A) (k : A -> M B) w a w1 :
  m w = (Ok a, w1) -> bind m k w = k a w1.
Proof. intros H. unfold bind. rewrite H. reflexivity. Qed.

Lemma bind_raise {A B : Type} (m : M A) (k : A -> M B) w e w1 :
  m w = (Raise e, w1) -> bind m k w = (Raise e, w1).
Proof. intros H. unfold bind. rewrite H. reflexivity. Qed.

Lemma ret_Ok {A : Type} (a b : A) w w' :
  ret a w = (Ok b, w') -> b = a /\ w' = w.
Proof. unfold ret. intros H. inversion H. split; reflexivity. Qed.

Lemma perform_Ok {A : Type} (c : Call) (oracle : nat -> outcome A) w a w' :
  perform c oracle w = (Ok a, w') ->
  oracle (List.length w) = Ok a /\ w' = (w ++ [c])%list.
Proof. unfold perform. intros H. inversion H. split; reflexivity. Qed.

(** Splits a successful [x <- m ;; k] into its two halves. *)
Ltac bind_inv H :=
  let a := fresh "a" in
  let w1 := fresh "w" in
  let Hm := fresh "Hm" in
  let Hk := fresh "Hk" in
  apply bind_Ok in H; destruct H as (a & w1 & Hm & Hk).

Ltac ret_inv H :=
  let E1 := fresh "E" in
  let E2 := fresh "E" in
  apply ret_Ok in H; destruct H as [E1 E2]; subst.

Ltac perform_inv H :=
  let E1 := fresh "Hcall" in
  let E2 := fresh "E" in
  apply perform_Ok in H; destruct H as [E1 E2]; subst.

(** [generate], run: the configuration is computed without a call, then
    the answer chain is called once. *)
Lemma generate_run settings env st w :
  generate settings env st w
  = match retry_model_config settings st with
    | Raise e => (Raise e, w)
    | Ok cfg =>
        let c := AnswerGeneratorInvoke cfg (format_docs st.(documents))
                   st.(original_question) in
        match rag_chain_invoke env (List.length w) cfg
                (format_docs st.(documents)) st.(original_question) with
        | Raise e => (Raise e, (w ++ [c])%list)
        | Ok generation' =>
            (Ok {| documents := st.(documents);
                   question := st.(question);
                   original_question := st.(original_question);
                   generation := generation';
                   model_config := cfg;
                   collection_ids := st.(collection_ids);
                   generation_attempts := st.(generation_attempts) + 1;
                   transform_attempts := st.(transform_attempts);
                   total_iterations := st.(total_iterations) + 1;
                   max_iterations_reached := false;
                   no_relevant_docs_fallback := false;
                   fallback_type := "" |},
             (w ++ [c])%list)
        end
    end.
Proof.
  unfold generate, retry_model_config, temperature, bind, lift, perform, ret.
  destruct ((1 <? st.(generation_attempts) + 1)
            && settings.(enable_retry_variation))%bool.
  - destruct (float_of_int (st.(generation_attempts) + 1 - 1));
      [| reflexivity].
    cbv zeta.
    destruct (rag_chain_invoke env _ _ _ _); reflexivity.
  - cbv zeta. destruct (rag_chain_invoke env _ _ _ _); reflexivity.
Qed.

Lemma generate_Ok settings env st w st' w' :
  generate settings env st w = (Ok st', w') ->
  exists cfg generation',
    retry_model_config settings st = Ok cfg
    /\ rag_chain_invoke env (List.length w) cfg (format_docs st.(documents))
         st.(original_question) = Ok generation'
    /\ st' = {| documents := st.(documents);
                question := st.(question);
                original_question := st.(original_question);
                generation := generation';
                model_config := cfg;
                collection_ids := st.(collection_ids);
                generation_attempts := st.(generation_attempts) + 1;
                transform_attempts := st.(transform_attempts);
                total_iterations := st.(total_iterations) + 1;
                max_iterations_reached := false;
                no_relevant_docs_fallback := false;
                fallback_type := "" |}
    /\ w' = (w ++ [AnswerGeneratorInvoke cfg (format_docs st.(documents))
                     st.(original_question)])%list.
Proof.
  rewrite generate_run. intros H.
  destruct (retry_model_config settings st) as [cfg | e]; [| discriminate H].
  cbv zeta in H.
  destruct (rag_chain_invoke env _ _ _ _) as [generation' | e] eqn:E;
    [| discriminate H].
  inversion H; subst. exists cfg, generation'. repeat split; assumption.
Qed.

(** ** The end-to-end scenarios of the specification, executed *)

(** Happy path: three relevant documents, a grounded answer that addresses
    the question. *)
Example scenario_happy_path :
  let x := GraphService.stream default_settings
             (Stub.constant (Ok Stub.three_docs) (Stub.graded "yes" (9 # 10))
                "yes" "yes")
             20 "How to JOIN two tables in SQL?" [] [] in
  x.(trace) = [retrieve_n; grade_documents_n; generate_n]
  /\ exists final,
       x.(ending) = Ended final
       /\ final.(fallback_type) = ""
       /\ final.(total_iterations) = 3
       /\ final.(generation_attempts) = 1.
Proof.
  split; [vm_compute; reflexivity |].
  eexists. split; [vm_compute; reflexivity |]. repeat split.
Qed.

(** One rewrite, then relevant documents and a good answer. *)
Example scenario_rewrite_then_succeed :
  let x := GraphService.stream default_settings
             (Stub.found_after_rewrite "yes" "yes") 20 "q" [] [] in
  x.(trace) = [retrieve_n; grade_documents_n; transform_query_n;
               retrieve_n; grade_documents_n; generate_n]
  /\ exists final,
       x.(ending) = Ended final /\ final.(transform_attempts) = 1.
Proof.
  split; [vm_compute; reflexivity |].
  eexists. split; [vm_compute; reflexivity |]. reflexivity.
Qed.

(** No relevant documents with [max_transform_retries = 1]. *)
Example scenario_no_docs_fallback :
  let x := GraphService.stream (Stub.budgets 2 1 15) Stub.nothing_found 20
             "q" [] [] in
  exists final,
    x.(ending) = Ended final
    /\ final.(fallback_type) = "no_relevant_docs"
    /\ final.(no_relevant_docs_fallback) = true
    /\ final.(documents) = []
    /\ GraphService._get_disclaimer_text final <> None.
Proof.
  eexists. split; [vm_compute; reflexivity |].
  repeat split. discriminate.
Qed.

(** The hallucination grader never accepts, [max_generation_retries = 2]. *)
Example scenario_max_iterations_fallback :
  let x := GraphService.stream default_settings
             (Stub.constant (Ok Stub.three_docs) (Stub.graded "yes" (9 # 10))
                "no" "yes")
             20 "q" [] [] in
  x.(trace) = [retrieve_n; grade_documents_n; generate_n; generate_n;
               fallback_n]
  /\ exists final,
       x.(ending) = Ended final
       /\ final.(generation_attempts) = 2
       /\ final.(fallback_type) = "max_iterations"
       /\ final.(max_iterations_reached) = true
       /\ final.(generation) = "answer from documents".
Proof.
  split; [vm_compute; reflexivity |].
  eexists. split; [vm_compute; reflexivity |]. repeat split.
Qed.

(** ** What each node does to the state *)

Lemma retrieve_total env st w :
  exists docs w',
    retrieve env st w
    = (Ok (retrieve_result st docs (st.(total_iterations) + 1)), w').
Proof.
  unfold retrieve, try_except.
  match goal with
  | |- context [match ?m w with _ => _ end] => destruct (m w) as [[st1 | e] w1] eqn:Hbody
  end.
  - bind_inv Hbody. ret_inv Hk. eauto.
  - destruct e; unfold ret; eauto.
Qed.

Lemma node_fn_post settings env n st w st' w' :
  node_fn settings env n st w = (Ok st', w') -> node_post n st st'.
Proof.
  destruct n; simpl; intros H.
  - destruct (retrieve_total env st w) as (docs & w1 & E).
    rewrite E in H. inversion H; subst.
    constructor; simpl; try reflexivity; intros; try lia; reflexivity.
  - unfold grade_documents in H. bind_inv H. ret_inv Hk.
    constructor; simpl; try reflexivity; intros; try lia; reflexivity.
  - apply generate_Ok in H. destruct H as (cfg & gen & _ & _ & -> & _).
    constructor; simpl; try reflexivity; intros; try lia; try reflexivity;
      congruence.
  - unfold transform_query in H. bind_inv H. ret_inv Hk.
    constructor; simpl; try reflexivity; intros; try lia; try reflexivity;
      congruence.
  - unfold mark_max_iterations in H. ret_inv H.
    constructor; simpl; try reflexivity; intros; try lia; reflexivity.
  - unfold generate_no_docs_fallback in H. bind_inv H. ret_inv Hk.
    constructor; simpl; try reflexivity; intros; try lia; try reflexivity;
      congruence.
Qed.

(** ** Iteration counter *)

(** C8 (as stated, refuted): the [fallback] node is one of the listed node
    executions, and it returns the state with [total_iterations] unchanged
    rather than increased by one. *)
Lemma fallback_does_not_count :
  let st := GraphService.initial_state "q" [] [] in
  exists st',
    node_fn default_settings Stub.nothing_found fallback_n st [] = (Ok st', [])
    /\ st'.(total_iterations) = st.(total_iterations)
    /\ st'.(total_iterations) <> st.(total_iterations) + 1.
Proof.
  simpl. eexists. split; [reflexivity |]. simpl. split; [reflexivity | lia].
Qed.

(** C8 (amended): each execution of retrieve, grade_documents, generate,
    transform_query and no_docs_fallback that returns increases
    [total_iterations] by exactly 1; an execution of fallback leaves it
    unchanged. *)
Theorem total_iterations_step settings env n st w st' w' :
  node_fn settings env n st w = (Ok st', w') ->
  st'.(total_iterations)
  = st.(total_iterations) + (if counts_as_step n then 1 else 0).
Proof.
  intros H. apply node_fn_post in H. destruct H as [_ _ _ Hti _ _ _].
  rewrite Hti. destruct n; reflexivity.
Qed.

Lemma total_iterations_step_witness :
  exists st' w',
    node_fn default_settings Stub.nothing_found retrieve_n
      (GraphService.initial_state "q" [] []) [] = (Ok st', w')
    /\ st'.(total_iterations) = 1.
Proof.
  eexists. eexists.
  assert (H : node_fn default_settings Stub.nothing_found retrieve_n
                (GraphService.initial_state "q" [] []) []
              = (Ok (retrieve_result (GraphService.initial_state "q" [] []) [] 1),
                 [RetrieverToolInvoke "q"])) by reflexivity.
  split; [exact H |].
  rewrite (total_iterations_step _ _ _ _ _ _ _ H). reflexivity.
Defined.

(** ** The two decision functions *)

Lemma check_iteration_limits_true settings st :
  check_iteration_limits settings st = true <->
  (settings.(max_generation_retries) <= st.(generation_attempts)
   \/ settings.(max_transform_retries) <= st.(transform_attempts)
   \/ settings.(max_total_iterations) <= st.(total_iterations)).
Proof.
  unfold check_iteration_limits.
  destruct (Z.leb_spec settings.(max_generation_retries) st.(generation_attempts));
  destruct (Z.leb_spec settings.(max_transform_retries) st.(transform_attempts));
  destruct (Z.leb_spec settings.(max_total_iterations) st.(total_iterations));
  split; intros Hx; try reflexivity; try discriminate; try lia; auto.
Qed.

Lemma check_iteration_limits_false settings st :
  check_iteration_limits settings st = false <->
  (st.(generation_attempts) < settings.(max_generation_retries)
   /\ st.(transform_attempts) < settings.(max_transform_retries)
   /\ st.(total_iterations) < settings.(max_total_iterations)).
Proof.
  unfold check_iteration_limits.
  destruct (Z.leb_spec settings.(max_generation_retries) st.(generation_attempts));
  destruct (Z.leb_spec settings.(max_transform_retries) st.(transform_attempts));
  destruct (Z.leb_spec settings.(max_total_iterations) st.(total_iterations));
  split; intros Hx; try reflexivity; try discriminate; try lia.
Qed.

(** C4: [grade_generation_v_documents_and_question] checks the budgets
    first.  When one of the three budgets is used up it returns
    ["max_iterations"] (the edge to [fallback]) and the call log is
    unchanged, so neither grader was called.  Otherwise, when the
    hallucination grader reports not grounded, it returns
    ["not supported"] (regenerate) unless [generation_attempts >=
    max_generation_retries], in which case ["max_iterations"]. *)
Theorem budget_check_precedes_graders settings env st w :
  ((settings.(max_generation_retries) <= st.(generation_attempts)
    \/ settings.(max_transform_retries) <= st.(transform_attempts)
    \/ settings.(max_total_iterations) <= st.(total_iterations)) ->
   grade_generation_v_documents_and_question settings env st w
   = (Ok max_iterations, w))
  /\
  (~ (settings.(max_generation_retries) <= st.(generation_attempts)
      \/ settings.(max_transform_retries) <= st.(transform_attempts)
      \/ settings.(max_total_iterations) <= st.(total_iterations)) ->
   forall w1,
     grade_hallucination settings env st w = (Ok false, w1) ->
     grade_generation_v_documents_and_question settings env st w
     = (Ok (if settings.(max_generation_retries) <=? st.(generation_attempts)
            then max_iterations else not_supported), w1)).
Proof.
  unfold grade_generation_v_documents_and_question. split.
  - intros H. apply check_iteration_limits_true in H. rewrite H. reflexivity.
  - intros H w1 Hh.
    destruct (check_iteration_limits settings st) eqn:E.
    + apply check_iteration_limits_true in E. contradiction.
    + rewrite (bind_run _ _ _ _ _ Hh).
      destruct (settings.(max_generation_retries) <=? st.(generation_attempts));
        reflexivity.
Qed.

Lemma budget_check_precedes_graders_witness :
  grade_generation_v_documents_and_question default_settings
    (Stub.constant (Ok Stub.three_docs) (Stub.graded "yes" 1) "no" "no")
    Stub.after_second_generation []
  = (Ok max_iterations, [])
  /\
  grade_generation_v_documents_and_question default_settings
    (Stub.constant (Ok Stub.three_docs) (Stub.graded "yes" 1) "no" "no")
    Stub.after_first_generation []
  = (Ok not_supported,
     [HallucinationGraderInvoke (format_docs [Stub.doc "d1"]) "answer"]).
Proof.
  split.
  - apply (proj1 (budget_check_precedes_graders _ _ _ _)).
    simpl. lia.
  - apply (proj2 (budget_check_precedes_graders default_settings
                    (Stub.constant (Ok Stub.three_docs) (Stub.graded "yes" 1)
                       "no" "no")
                    Stub.after_first_generation [])).
    + simpl. lia.
    + reflexivity.
Defined.

(** ** Clock-free node code *)

Lemma clock_free_ret {A : Type} (a : A) : clock_free (ret a).
Proof. intros w. unfold ret. simpl. rewrite app_nil_r. reflexivity. Qed.

Lemma clock_free_raise {A : Type} (e : exn) : clock_free (@raise A e).
Proof. intros w. unfold raise. simpl. rewrite app_nil_r. reflexivity. Qed.

Lemma clock_free_lift {A : Type} (r : outcome A) : clock_free (lift r).
Proof. intros w. unfold lift. simpl. rewrite app_nil_r. reflexivity. Qed.

Lemma clock_free_perform_at {A : Type} (c : Call) (r : outcome A) :
  clock_free (perform_at c r).
Proof. intros w. reflexivity. Qed.

Lemma clock_free_bind {A B : Type} (m : M A) (k : A -> M B) :
  clock_free m -> (forall a, clock_free (k a)) -> clock_free (bind m k).
Proof.
  intros Hm Hk w. unfold bind.
  rewrite (Hm w). destruct (m []) as [[a | e] w1]; simpl.
  - rewrite (Hk a (w ++ w1)%list), (Hk a w1). simpl.
    rewrite app_assoc. reflexivity.
  - reflexivity.
Qed.

Lemma clock_free_try_except {A : Type} (m : M A) (h : exn -> M A) :
  clock_free m -> (forall e, clock_free (h e)) -> clock_free (try_except m h).
Proof.
  intros Hm Hh w. unfold try_except.
  rewrite (Hm w). destruct (m []) as [[a | e] w1]; simpl.
  - reflexivity.
  - rewrite (Hh e (w ++ w1)%list), (Hh e w1). simpl.
    rewrite app_assoc. reflexivity.
Qed.

Lemma clock_free_attempt {A : Type} (m : M A) :
  clock_free m -> clock_free (attempt m).
Proof.
  intros Hm w. unfold attempt. rewrite (Hm w).
  destruct (m []) as [r w1]. reflexivity.
Qed.

Lemma clock_free_grade_with_retries env t0 q content doc_index max_retries
    attempts :
  clock_free
    (grade_with_retries env t0 q content doc_index max_retries attempts).
Proof.
  induction attempts as [| n rest IH]; simpl.
  - apply clock_free_ret.
  - apply clock_free_bind.
    + apply clock_free_attempt, clock_free_perform_at.
    + intros [score | e].
      * apply clock_free_ret.
      * destruct e; try apply clock_free_raise.
        destruct (_ && _)%bool; [exact IH | apply clock_free_raise].
Qed.

Lemma clock_free_obtain_score settings env t0 q content doc_index :
  clock_free (obtain_score settings env t0 q content doc_index).
Proof.
  unfold obtain_score.
  apply clock_free_bind; [apply clock_free_lift |]. intros attempts.
  apply clock_free_bind; [apply clock_free_grade_with_retries |].
  intros [score |]; [apply clock_free_ret | apply clock_free_raise].
Qed.

(** ** Batches: [range(0, n, size)] and slices *)

Lemma range_count_step start stop step :
  0 < step -> start < stop ->
  range_count start stop step = S (range_count (start + step) stop step).
Proof.
  intros Hstep Hlt. unfold range_count.
  destruct (Z.ltb_spec 0 step) as [_ | Hn]; [| lia].
  replace (stop - start + step - 1)
    with ((stop - (start + step) + step - 1) + 1 * step) by lia.
  rewrite Z.div_add by lia.
  assert (H0 : -1 <= (stop - (start + step) + step - 1) / step).
  { apply Z.div_le_lower_bound; lia. }
  destruct (Z.le_gt_cases 0 ((stop - (start + step) + step - 1) / step)).
  - rewrite Z2Nat.inj_add by lia. simpl. lia.
  - exfalso.
    assert (H1 : 0 <= (stop - (start + step) + step - 1) / step).
    { apply Z.div_pos; lia. }
    lia.
Qed.

Lemma range_count_done start stop step :
  0 < step -> stop <= start -> range_count start stop step = O.
Proof.
  intros Hstep Hle. unfold range_count.
  destruct (Z.ltb_spec 0 step) as [_ | Hn]; [| lia].
  assert (H : (stop - start + step - 1) / step <= 0).
  { apply Z.lt_succ_r. apply Z.div_lt_upper_bound; lia. }
  lia.
Qed.

Lemma slice_batch {A : Type} (l : list A) (start size : Z) :
  0 <= start -> 0 < size ->
  slice l start (Z.min (start + size) (Z.of_nat (List.length l)))
  = firstn (Z.to_nat size) (skipn (Z.to_nat start) l).
Proof.
  intros Hs Hsize. unfold slice.
  destruct (Z.le_gt_cases (start + size) (Z.of_nat (List.length l))) as [Hle | Hgt].
  - rewrite Z.min_l by lia. f_equal. lia.
  - rewrite Z.min_r by lia. rewrite Nat2Z.id.
    rewrite firstn_all2 by (rewrite length_skipn; lia).
    rewrite firstn_all2 by (rewrite length_skipn; lia).
    reflexivity.
Qed.

Lemma skipn_next {A : Type} (l : list A) (start size : Z) :
  0 <= start -> 0 < size ->
  skipn (Z.to_nat (start + size)) l
  = skipn (Z.to_nat size) (skipn (Z.to_nat start) l).
Proof.
  intros Hs Hsize. rewrite skipn_skipn. f_equal. lia.
Qed.

Lemma skipn_nonempty {A : Type} (l : list A) (start : Z) :
  0 <= start -> start < Z.of_nat (List.length l) ->
  skipn (Z.to_nat start) l <> [].
Proof.
  intros Hs Hlt E.
  assert (H : List.length (skipn (Z.to_nat start) l) = O) by (rewrite E; reflexivity).
  rewrite length_skipn in H. lia.
Qed.

(** ** Document grading *)

Lemma filter_graded_app rs1 rs2 :
  filter_graded (rs1 ++ rs2) = (filter_graded rs1 ++ filter_graded rs2)%list.
Proof.
  induction rs1 as [| [[[[d rel] err] c] why] rs1 IH]; simpl.
  - reflexivity.
  - destruct rel; [destruct err |]; simpl; rewrite IH; reflexivity.
Qed.

Lemma kept_documents_app settings env t0 q l1 l2 i :
  kept_documents settings env t0 q (l1 ++ l2) i
  = (kept_documents settings env t0 q l1 i
     ++ kept_documents settings env t0 q l2 (i + Z.of_nat (List.length l1)))%list.
Proof.
  revert i. induction l1 as [| d l1 IH]; intros i; simpl.
  - rewrite Z.add_0_r. reflexivity.
  - rewrite IH.
    replace (i + 1 + Z.of_nat (List.length l1))
      with (i + Z.pos (Pos.of_succ_nat (List.length l1))) by lia.
    destruct (keeps _ _); reflexivity.
Qed.

(** Grading one document never raises, and the document passes the filter
    exactly when the policy keeps its verdict. *)
Lemma grade_single_doc_run settings env t0 q doc i w :
  exists r cs,
    grade_single_doc settings env t0 q doc i w = (Ok r, (w ++ cs)%list)
    /\ filter_graded [r]
       = if keeps settings (verdict settings env t0 q doc i) then [doc] else [].
Proof.
  unfold grade_single_doc, try_except, bind, verdict.
  rewrite (clock_free_obtain_score settings env t0 q doc.(page_content) i w).
  destruct (obtain_score settings env t0 q doc.(page_content) i [])
    as [[score | e] cs]; simpl.
  - unfold is_relevant_grade.
    destruct (_ && _)%bool; unfold ret; eexists; eexists;
      (split; [reflexivity | reflexivity]).
  - unfold ret. eexists. eexists. split; reflexivity.
Qed.

Lemma grade_batch_run settings env t0 q docs :
  forall i w,
  exists rs cs,
    grade_batch settings env t0 q docs i w = (Ok rs, (w ++ cs)%list)
    /\ filter_graded rs = kept_documents settings env t0 q docs i.
Proof.
  induction docs as [| doc rest IH]; intros i w; simpl.
  - exists [], []. rewrite app_nil_r. split; reflexivity.
  - destruct (grade_single_doc_run settings env t0 q doc i w)
      as (r & cs1 & E1 & F1).
    destruct (IH (i + 1) (w ++ cs1)%list) as (rs & cs2 & E2 & F2).
    exists (r :: rs), (cs1 ++ cs2)%list. split.
    + rewrite (bind_run _ _ _ _ _ E1), (bind_run _ _ _ _ _ E2).
      unfold ret. rewrite app_assoc. reflexivity.
    + change (r :: rs) with ([r] ++ rs)%list.
      rewrite filter_graded_app, F1, F2.
      destruct (keeps _ _); reflexivity.
Qed.

Lemma grade_batches_run settings env t0 q full size :
  0 < size ->
  forall count start acc w,
    0 <= start ->
    count = range_count start (Z.of_nat (List.length full)) size ->
    exists rs cs,
      grade_batches settings env t0 q full size (range_from start size count)
        acc w
      = (Ok (acc ++ rs)%list, (w ++ cs)%list)
      /\ filter_graded rs
         = kept_documents settings env t0 q (skipn (Z.to_nat start) full) start.
Proof.
  intros Hsize. induction count as [| count IH]; intros start acc w Hs Hc.
  - simpl. exists [], []. rewrite !app_nil_r. split; [reflexivity |].
    destruct (Z.lt_ge_cases start (Z.of_nat (List.length full))) as [Hlt | Hge].
    + rewrite (range_count_step _ _ _ Hsize Hlt) in Hc. discriminate Hc.
    + rewrite skipn_all2 by lia. reflexivity.
  - destruct (Z.lt_ge_cases start (Z.of_nat (List.length full))) as [Hlt | Hge].
    2:{ rewrite (range_count_done _ _ _ Hsize) in Hc by lia. discriminate Hc. }
    rewrite (range_count_step _ _ _ Hsize Hlt) in Hc. injection Hc as Hc.
    simpl. rewrite slice_batch by lia.
    destruct (grade_batch_run settings env t0 q
                (firstn (Z.to_nat size) (skipn (Z.to_nat start) full)) start w)
      as (rs1 & cs1 & E1 & F1).
    rewrite (bind_run _ _ _ _ _ E1).
    destruct (IH (start + size) (acc ++ rs1)%list (w ++ cs1)%list
                ltac:(lia) Hc) as (rs2 & cs2 & E2 & F2).
    exists (rs1 ++ rs2)%list, (cs1 ++ cs2)%list. split.
    + rewrite E2, !app_assoc. reflexivity.
    + rewrite filter_graded_app, F1, F2.
      rewrite skipn_next by lia.
      rewrite <- (firstn_skipn (Z.to_nat size) (skipn (Z.to_nat start) full))
        at 3.
      rewrite kept_documents_app. f_equal.
      destruct (skipn (Z.to_nat size) (skipn (Z.to_nat start) full))
        as [| d tl] eqn:Erest; [reflexivity |].
      f_equal.
      assert (Hlen : List.length
                       (skipn (Z.to_nat size) (skipn (Z.to_nat start) full))
                     <> O) by (rewrite Erest; discriminate).
      rewrite !length_skipn in Hlen.
      rewrite length_firstn, length_skipn. lia.
Qed.

(** With a positive batch size the grading step returns, and the filtered
    list is what the policy keeps of the documents it was given. *)
Lemma grade_documents_run settings env st w :
  0 < settings.(document_grading_batch_size) ->
  exists st' cs,
    grade_documents settings env st w = (Ok st', (w ++ cs)%list)
    /\ st'.(documents)
       = kept_documents settings env (List.length w) st.(question)
           st.(documents) 0.
Proof.
  intros Hsize. unfold grade_documents, grade_all_docs.
  unfold clock at 1. unfold bind at 2. unfold bind at 2.
  unfold lift, range.
  destruct (Z.eqb_spec settings.(document_grading_batch_size) 0) as [E0 | _];
    [lia |].
  destruct (grade_batches_run settings env (List.length w) st.(question)
              st.(documents) _ Hsize _ 0 [] w (Z.le_refl 0) eq_refl)
    as (rs & cs & E & F).
  unfold bind. rewrite E. unfold ret. simpl.
  eexists. exists cs. split; [reflexivity |]. simpl. exact F.
Qed.

(** ** Hallucination grading *)

Lemma chunks_fuel {A : Type} (size : nat) :
  (0 < size)%nat ->
  forall f1 f2 (l : list A),
    (List.length l <= f1)%nat -> (List.length l <= f2)%nat ->
    chunks f1 size l = chunks f2 size l.
Proof.
  intros Hsize. induction f1 as [| f1 IH]; intros f2 l H1 H2.
  - destruct l; [| simpl in H1; lia]. destruct f2; reflexivity.
  - destruct l as [| a l]; [destruct f2; reflexivity |].
    destruct f2 as [| f2]; [simpl in H2; lia |].
    cbn [chunks]. f_equal. cbn [List.length] in H1, H2.
    apply IH; rewrite length_skipn; cbn [List.length]; lia.
Qed.

Lemma batches_of_step {A : Type} (size : Z) (l : list A) :
  0 < size -> l <> [] ->
  batches_of size l
  = firstn (Z.to_nat size) l :: batches_of size (skipn (Z.to_nat size) l).
Proof.
  intros Hsize Hl. unfold batches_of.
  destruct l as [| a l]; [contradiction |].
  cbn [List.length chunks]. f_equal.
  apply chunks_fuel; [lia | |]; rewrite ?length_skipn; cbn [List.length]; lia.
Qed.

Lemma hallucination_batches_run settings env docs gen :
  0 < settings.(hallucination_batch_size) ->
  forall count start w,
    0 <= start ->
    count = range_count start (Z.of_nat (List.length docs))
              settings.(hallucination_batch_size) ->
    let batches :=
      batches_of settings.(hallucination_batch_size)
        (skipn (Z.to_nat start) docs) in
    hallucination_batches settings env docs gen (Z.of_nat (List.length docs))
      (range_from start settings.(hallucination_batch_size) count) w
    = (Ok (fst (check_batches env gen (List.length w) batches)),
       (w ++ map (hallucination_call gen)
               (firstn (snd (check_batches env gen (List.length w) batches))
                  batches))%list).
Proof.
  intros Hsize. induction count as [| count IH]; intros start w Hs Hc batches.
  - destruct (Z.lt_ge_cases start (Z.of_nat (List.length docs))) as [Hlt | Hge].
    + rewrite (range_count_step _ _ _ Hsize Hlt) in Hc. discriminate Hc.
    + subst batches. rewrite skipn_all2 by lia. simpl.
      rewrite app_nil_r. reflexivity.
  - destruct (Z.lt_ge_cases start (Z.of_nat (List.length docs))) as [Hlt | Hge].
    2:{ rewrite (range_count_done _ _ _ Hsize) in Hc by lia. discriminate Hc. }
    rewrite (range_count_step _ _ _ Hsize Hlt) in Hc. injection Hc as Hc.
    pose proof (skipn_nonempty docs start Hs Hlt) as Hne.
    subst batches. rewrite (batches_of_step _ _ Hsize Hne).
    cbn [range_from hallucination_batches].
    rewrite slice_batch by lia.
    specialize (IH (start + settings.(hallucination_batch_size))).
    rewrite skipn_next in IH by lia.
    set (rest := skipn (Z.to_nat start) docs) in *.
    assert (Hb : firstn (Z.to_nat settings.(hallucination_batch_size)) rest
                 <> []).
    { destruct rest as [| d tl]; [contradiction |].
      destruct (Z.to_nat settings.(hallucination_batch_size)) eqn:En; [lia |].
      discriminate. }
    destruct (firstn (Z.to_nat settings.(hallucination_batch_size)) rest)
      as [| d0 b0] eqn:Eb; [contradiction |].
    cbn [check_batches]. unfold batch_grounded, bind, attempt, perform.
    specialize (IH (w ++ [HallucinationGraderInvoke (format_docs (d0 :: b0)) gen])%list
                  ltac:(lia) Hc).
    rewrite length_app in IH. cbn [List.length] in IH.
    rewrite Nat.add_1_r in IH.
    destruct (hallucination_grader_invoke env (List.length w)
                (format_docs (d0 :: b0)) gen) as [score | e].
    + destruct (String.eqb _ "yes").
      * reflexivity.
      * rewrite IH.
        destruct (check_batches env gen (S (List.length w)) _) as [r k].
        simpl. rewrite <- app_assoc. reflexivity.
    + rewrite IH.
      destruct (check_batches env gen (S (List.length w)) _) as [r k].
      simpl. rewrite <- app_assoc. reflexivity.
Qed.

Lemma grade_hallucination_run settings env st w :
  0 < settings.(hallucination_batch_size) ->
  let batches :=
    batches_of settings.(hallucination_batch_size) st.(documents) in
  grade_hallucination settings env st w
  = (Ok (fst (check_batches env st.(generation) (List.length w) batches)),
     (w ++ map (hallucination_call st.(generation))
             (firstn
                (snd (check_batches env st.(generation) (List.length w) batches))
                batches))%list).
Proof.
  intros Hsize batches. unfold grade_hallucination.
  destruct st.(documents) as [| d docs] eqn:Ed.
  - subst batches. unfold ret. simpl. rewrite app_nil_r.
    reflexivity.
  - unfold bind, lift, range.
    destruct (Z.eqb_spec settings.(hallucination_batch_size) 0) as [E0 | _];
      [lia |].
    rewrite (hallucination_batches_run settings env (d :: docs)
               st.(generation) Hsize _ 0 w (Z.le_refl 0) eq_refl).
    subst batches. reflexivity.
Qed.

(** What [check_batches] reports: the batch it stopped at is the first
    grounded one; a negative verdict means every batch was checked and none
    was grounded. *)
Lemma check_batches_spec env gen batches :
  forall t,
    let '(r, k) := check_batches env gen t batches in
    if r then
      (exists i, k = S i /\ (i < List.length batches)%nat
                 /\ batch_grounded env gen (t + i) (nth i batches []) = true
                 /\ forall j, (j < i)%nat ->
                      batch_grounded env gen (t + j) (nth j batches []) = false)
    else
      k = List.length batches
      /\ forall j, (j < List.length batches)%nat ->
           batch_grounded env gen (t + j) (nth j batches []) = false.
Proof.
  induction batches as [| b rest IH]; intros t.
  - simpl. split; [reflexivity | intros j Hj; lia].
  - cbn [check_batches].
    destruct (batch_grounded env gen t b) eqn:Eb.
    + exists O. rewrite Nat.add_0_r. simpl.
      repeat split; try lia; try assumption.
    + specialize (IH (S t)).
      destruct (check_batches env gen (S t) rest) as [r k].
      destruct r.
      * destruct IH as (i & Ek & Hi & Hg & Hbefore).
        exists (S i). rewrite Nat.add_succ_r. simpl.
        repeat split; try lia; try assumption.
        intros [| j] Hj.
        -- rewrite Nat.add_0_r. exact Eb.
        -- rewrite Nat.add_succ_r. apply Hbefore. lia.
      * destruct IH as (Ek & Hnone). simpl. split; [lia |].
        intros [| j] Hj.
        -- rewrite Nat.add_0_r. exact Eb.
        -- rewrite Nat.add_succ_r. apply Hnone. lia.
Qed.

Lemma chunks_spec {A : Type} (size : nat) :
  (0 < size)%nat ->
  forall fuel (l : list A),
    (List.length l <= fuel)%nat ->
    List.concat (chunks fuel size l) = l
    /\ Forall (fun b => (0 < List.length b <= size)%nat) (chunks fuel size l)
    /\ (forall i, (S i < List.length (chunks fuel size l))%nat ->
          List.length (nth i (chunks fuel size l) []) = size).
Proof.
  intros Hsize. induction fuel as [| fuel IH]; intros l Hl.
  - destruct l; [| simpl in Hl; lia]. simpl.
    repeat split; [constructor | intros i Hi; lia].
  - destruct l as [| a l].
    + simpl. repeat split; [constructor | intros i Hi; lia].
    + cbn [chunks].
      destruct (IH (skipn size (a :: l))) as (Hc & Hf & Hfull).
      { rewrite length_skipn. cbn [List.length] in *. lia. }
      repeat split.
      * cbn [List.concat]. rewrite Hc. apply firstn_skipn.
      * constructor; [| exact Hf].
        rewrite length_firstn. cbn [List.length]. lia.
      * intros [| i] Hi; cbn [nth List.length] in *.
        -- destruct (chunks fuel size (skipn size (a :: l))) as [| b bs] eqn:E;
             [simpl in Hi; lia |].
           assert (Hs : skipn size (a :: l) <> []).
           { intros E0. rewrite E0 in E. destruct fuel; discriminate E. }
           assert (Hlen : List.length (skipn size (a :: l)) <> O).
           { destruct (skipn size (a :: l)); [contradiction | discriminate]. }
           rewrite length_skipn in Hlen. rewrite length_firstn. lia.
        -- apply Hfull. lia.
Qed.

(** C6: with a positive batch size (3 by default) the hallucination grader
    cuts the documents into batches of that size (in order, the last one
    possibly shorter) and checks them one call at a time.  It answers grounded at the
    first batch whose check returns grounded, and the log then holds the
    calls for the batches up to that one and nothing for a later batch; a
    batch whose call raises counts as not grounded and the next one is
    checked; it answers not grounded only after every batch was checked and
    none returned grounded. *)
Theorem hallucination_early_exit settings env st w :
  0 < settings.(hallucination_batch_size) ->
  let size := settings.(hallucination_batch_size) in
  let batches := batches_of size st.(documents) in
  let grounded i :=
    batch_grounded env st.(generation) (List.length w + i) (nth i batches []) in
  default_settings.(hallucination_batch_size) = 3
  /\ List.concat batches = st.(documents)
  /\ Forall (fun b => (0 < List.length b <= Z.to_nat size)%nat) batches
  /\ (forall i, (S i < List.length batches)%nat ->
        List.length (nth i batches []) = Z.to_nat size)
  /\ exists is_grounded checked,
       grade_hallucination settings env st w
       = (Ok is_grounded,
          (w ++ map (hallucination_call st.(generation))
                  (firstn checked batches))%list)
       /\ if is_grounded : bool then
            exists i, checked = S i /\ (i < List.length batches)%nat
                      /\ grounded i = true
                      /\ forall j, (j < i)%nat -> grounded j = false
          else
            checked = List.length batches
            /\ forall j, (j < List.length batches)%nat -> grounded j = false.
Proof.
  intros Hsize size batches grounded.
  destruct (chunks_spec (A := Document) (Z.to_nat size) ltac:(lia)
              (List.length st.(documents)) st.(documents) (Nat.le_refl _))
    as (Hc & Hf & Hfull).
  split; [reflexivity |].
  repeat split; try assumption.
  pose proof (grade_hallucination_run settings env st w Hsize) as Hrun.
  pose proof (check_batches_spec env st.(generation) batches (List.length w))
    as Hspec.
  cbv zeta in Hrun. fold size in Hrun. fold batches in Hrun.
  destruct (check_batches env st.(generation) (List.length w) batches)
    as [r k].
  exists r, k. split; [exact Hrun | exact Hspec].
Qed.

Lemma hallucination_early_exit_witness :
  0 < default_settings.(hallucination_batch_size)
  /\ exists cs,
       grade_hallucination default_settings
         (Stub.scripted_hallucination
            [Raise (OtherException "timeout");
             Ok {| GradeHallucinations.binary_score := "Yes" |}])
         Stub.seven_documents []
       = (Ok true, cs)
       /\ List.length cs = 2%nat.
Proof.
  split; [simpl; lia |].
  destruct (hallucination_early_exit default_settings
              (Stub.scripted_hallucination
                 [Raise (OtherException "timeout");
                  Ok {| GradeHallucinations.binary_score := "Yes" |}])
              Stub.seven_documents [] ltac:(simpl; lia))
    as (_ & _ & _ & _ & r & k & E & _).
  eexists. split.
  - rewrite E. f_equal.
    assert (L : fst (grade_hallucination default_settings
                       (Stub.scripted_hallucination
                          [Raise (OtherException "timeout");
                           Ok {| GradeHallucinations.binary_score := "Yes" |}])
                       Stub.seven_documents [])
                = Ok true) by reflexivity.
    rewrite E in L. simpl in L. exact L.
  - assert (L : List.length
                  (snd (grade_hallucination default_settings
                          (Stub.scripted_hallucination
                             [Raise (OtherException "timeout");
                              Ok {| GradeHallucinations.binary_score := "Yes" |}])
                          Stub.seven_documents []))
                = 2%nat) by reflexivity.
    rewrite E in L. exact L.
Defined.

Lemma keeps_iff settings v :
  keeps settings v = true <->
  exists score,
    v = Ok score
    /\ score.(GradeDocuments.binary_score) = "yes"
    /\ (settings.(document_grading_confidence_threshold)
        <= score.(GradeDocuments.confidence))%Q.
Proof.
  unfold keeps. split.
  - destruct v as [score | e]; [| discriminate].
    intros H. apply andb_true_iff in H. destruct H as [Hy Hc].
    exists score. split; [reflexivity |]. split.
    + apply String.eqb_eq. exact Hy.
    + apply Qle_bool_iff. exact Hc.
  - intros (score & E & Hy & Hc). subst v.
    apply andb_true_iff. split.
    + apply String.eqb_eq. exact Hy.
    + apply Qle_bool_iff. exact Hc.
Qed.

(** C7: with a positive batch size the document grading step returns (an
    error while grading a document never makes it raise), and its filtered
    list consists of exactly those documents, in order, whose verdict has
    label ['yes'] and confidence at least the threshold; a document whose
    grading ends in an error is not kept.  At threshold 0.6 a document
    graded (yes, 0.59) is dropped and one graded (yes, 0.60) is kept. *)
Theorem confidence_gate settings env st w :
  0 < settings.(document_grading_batch_size) ->
  (exists st' w',
     grade_documents settings env st w = (Ok st', w')
     /\ st'.(documents)
        = kept_documents settings env (List.length w) st.(question)
            st.(documents) 0)
  /\ (forall v,
        keeps settings v = true <->
        exists score,
          v = Ok score
          /\ score.(GradeDocuments.binary_score) = "yes"
          /\ (settings.(document_grading_confidence_threshold)
              <= score.(GradeDocuments.confidence))%Q)
  /\ (forall e, keeps settings (Raise e) = false)
  /\ keeps default_settings (Stub.graded "yes" (59 # 100)) = false
  /\ keeps default_settings (Stub.graded "yes" (60 # 100)) = true.
Proof.
  intros Hsize. split; [| split; [| split; [| split]]].
  - destruct (grade_documents_run settings env st w Hsize)
      as (st' & cs & E & D).
    exists st', (w ++ cs)%list. split; assumption.
  - apply keeps_iff.
  - reflexivity.
  - reflexivity.
  - reflexivity.
Qed.

Lemma confidence_gate_witness :
  0 < default_settings.(document_grading_batch_size)
  /\ exists st' w',
       grade_documents default_settings Stub.mixed_grades
         Stub.retrieved_three [] = (Ok st', w')
       /\ st'.(documents) = [Stub.doc "d2"].
Proof.
  split; [simpl; lia |].
  destruct (proj1 (confidence_gate default_settings Stub.mixed_grades
                     Stub.retrieved_three [] ltac:(simpl; lia)))
    as (st' & w' & E & D).
  exists st', w'. split; [exact E |].
  rewrite D. reflexivity.
Defined.

(** ** The decision after generation, case by case *)

Lemma grade_generation_inv settings env st w d w' :
  grade_generation_v_documents_and_question settings env st w = (Ok d, w') ->
  match d with
  | max_iterations => check_iteration_limits settings st = true /\ w' = w
  | not_supported =>
      check_iteration_limits settings st = false
      /\ grade_hallucination settings env st w = (Ok false, w')
  | useful =>
      check_iteration_limits settings st = false
      /\ exists w1,
           grade_hallucination settings env st w = (Ok true, w1)
           /\ AnswerGrader_grade env st w1 = (Ok true, w')
  | not_useful =>
      check_iteration_limits settings st = false
      /\ exists w1,
           grade_hallucination settings env st w = (Ok true, w1)
           /\ AnswerGrader_grade env st w1 = (Ok false, w')
  end.
Proof.
  unfold grade_generation_v_documents_and_question.
  destruct (check_iteration_limits settings st) eqn:Elim.
  - intros H. ret_inv H. split; reflexivity.
  - pose proof (proj1 (check_iteration_limits_false settings st) Elim)
      as (Hg & Ht & _).
    intros H. bind_inv H. destruct a as [|].
    + bind_inv Hk. destruct a as [|].
      * ret_inv Hk0. split; [reflexivity |]. exists w0. split; assumption.
      * destruct (Z.leb_spec settings.(max_transform_retries)
                    st.(transform_attempts)); [lia |].
        ret_inv Hk0. split; [reflexivity |]. exists w0. split; assumption.
    + destruct (Z.leb_spec settings.(max_generation_retries)
                  st.(generation_attempts)); [lia |].
      ret_inv Hk. split; [reflexivity | assumption].
Qed.

(** ** Termination *)

Lemma run_from_S settings env steps n st w :
  run_from settings env (S steps) n st w
  = match node_fn settings env n st w with
    | (Raise e, w1) => {| trace := []; ending := Raised e; calls := w1 |}
    | (Ok st1, w1) =>
        match edge settings env n st1 w1 with
        | (Raise e, w2) => {| trace := []; ending := Raised e; calls := w2 |}
        | (Ok END, w2) =>
            {| trace := [n]; ending := Ended st1; calls := w2 |}
        | (Ok (To n'), w2) =>
            let x := run_from settings env steps n' st1 w2 in
            {| trace := n :: x.(trace);
               ending := x.(ending);
               calls := x.(calls) |}
        end
    end.
Proof. reflexivity. Qed.

(** Following an edge keeps the rewriter's precondition and uses up at
    least one unit of the measure. *)
Lemma edge_decreases settings env n st w st1 w1 n' w2 :
  may_run settings n st ->
  node_fn settings env n st w = (Ok st1, w1) ->
  edge settings env n st1 w1 = (Ok (To n'), w2) ->
  may_run settings n' st1
  /\ remaining settings n' st1 + 1 <= remaining settings n st.
Proof.
  intros Hmay Hnode Hedge.
  apply node_fn_post in Hnode.
  destruct Hnode as [_ _ _ _ Hta Hga _].
  unfold may_run, remaining, transforms_left, generations_left in *.
  rewrite Hta, Hga.
  destruct n; simpl in Hedge.
  - ret_inv Hedge. inversion E; subst. split; [discriminate | lia].
  - unfold decide_to_generate in Hedge.
    destruct st1.(documents).
    + destruct (Z.leb_spec settings.(max_transform_retries)
                  st1.(transform_attempts));
        ret_inv Hedge; inversion E; subst;
        (split; [try discriminate; intros _; lia | lia]).
    + ret_inv Hedge. inversion E; subst. split; [discriminate | lia].
  - bind_inv Hedge.
    pose proof (grade_generation_inv _ _ _ _ _ _ Hm) as Hinv.
    destruct a; ret_inv Hk; inversion E; subst.
    + destruct Hinv as (Hlim & _).
      apply check_iteration_limits_false in Hlim.
      rewrite Hga in Hlim. split; [discriminate | lia].
    + destruct Hinv as (Hlim & _).
      apply check_iteration_limits_false in Hlim.
      rewrite Hga in Hlim. split; [intros _; lia | lia].
    + split; [discriminate | lia].
  - specialize (Hmay eq_refl).
    ret_inv Hedge. inversion E; subst. split; [discriminate | lia].
  - ret_inv Hedge. discriminate E.
  - ret_inv Hedge. discriminate E.
Qed.

(** A run that is given as many steps as the measure asks for does not run
    out of steps, and executes no more nodes than the measure. *)
Lemma run_from_bounded settings env :
  forall steps n st w,
    may_run settings n st ->
    remaining settings n st <= Z.of_nat steps ->
    let x := run_from settings env steps n st w in
    x.(ending) <> OutOfSteps
    /\ Z.of_nat (List.length x.(trace)) <= remaining settings n st.
Proof.
  induction steps as [| steps IH]; intros n st w Hmay Hrem.
  - exfalso. unfold remaining, transforms_left, generations_left in Hrem.
    destruct n; lia.
  - cbv zeta. rewrite run_from_S.
    assert (Hpos : 1 <= remaining settings n st).
    { unfold remaining, transforms_left, generations_left. destruct n; lia. }
    destruct (node_fn settings env n st w) as [[st1 | e] w1] eqn:Hnode.
    2:{ simpl. split; [discriminate | lia]. }
    destruct (edge settings env n st1 w1) as [[[n' |] | e] w2] eqn:Hedge.
    + destruct (edge_decreases _ _ _ _ _ _ _ _ _ Hmay Hnode Hedge)
        as [Hmay' Hdec].
      destruct (IH n' st1 w2 Hmay' ltac:(lia)) as [Hend Hlen].
      cbn [trace ending List.length]. split; [exact Hend | lia].
    + simpl. split; [discriminate | lia].
    + simpl. split; [discriminate | lia].
Qed.

(** ** No node raises when the collaborators answer *)

Lemma grade_batches_total settings env t0 q full size starts :
  forall acc w,
  exists rs w',
    grade_batches settings env t0 q full size starts acc w = (Ok rs, w').
Proof.
  induction starts as [| s rest IH]; intros acc w; simpl.
  - unfold ret. eauto.
  - destruct (grade_batch_run settings env t0 q
                (slice full s (Z.min (s + size) (Z.of_nat (List.length full))))
                s w) as (rs1 & cs1 & E1 & _).
    rewrite (bind_run _ _ _ _ _ E1). apply IH.
Qed.

Lemma grade_documents_total settings env st w :
  settings.(document_grading_batch_size) <> 0 ->
  exists st' w', grade_documents settings env st w = (Ok st', w').
Proof.
  intros Hsize. unfold grade_documents, grade_all_docs.
  unfold clock at 1. unfold bind at 2. unfold bind at 2.
  unfold lift, range.
  destruct (Z.eqb_spec settings.(document_grading_batch_size) 0) as [E0 | _];
    [contradiction |].
  unfold bind. cbv beta.
  match goal with
  | |- context [grade_batches ?s ?e ?t ?q ?f ?b ?l ?a w] =>
      destruct (grade_batches_total s e t q f b l a w) as (rs & w' & E)
  end.
  rewrite E. unfold ret. eauto.
Qed.

Lemma hallucination_batches_total settings env docs gen total starts :
  forall w,
  exists r w',
    hallucination_batches settings env docs gen total starts w = (Ok r, w').
Proof.
  induction starts as [| s rest IH]; intros w; simpl.
  - unfold ret. eauto.
  - destruct (slice docs s _); [apply IH |].
    unfold bind, attempt, perform.
    destruct (hallucination_grader_invoke env _ _ _) as [score | e].
    + destruct (String.eqb _ _); [unfold ret; eauto | apply IH].
    + apply IH.
Qed.

Lemma grade_hallucination_total settings env st w :
  settings.(hallucination_batch_size) <> 0 ->
  exists r w', grade_hallucination settings env st w = (Ok r, w').
Proof.
  intros Hsize. unfold grade_hallucination.
  destruct st.(documents) as [| d docs]; [unfold ret; eauto |].
  unfold bind, lift, range.
  destruct (Z.eqb_spec settings.(hallucination_batch_size) 0) as [E0 | _];
    [contradiction |].
  apply hallucination_batches_total.
Qed.

Lemma float_of_int_total n :
  Z.abs n < float_int_bound -> exists f, float_of_int n = Ok f.
Proof.
  intros H. unfold float_of_int.
  destruct (Z.ltb_spec (Z.abs n) float_int_bound); [eauto | lia].
Qed.

Lemma retry_model_config_total settings st :
  settings.(max_generation_retries) < float_int_bound ->
  st.(generation_attempts) <= 0
  \/ st.(generation_attempts) < settings.(max_generation_retries) ->
  exists cfg, retry_model_config settings st = Ok cfg.
Proof.
  intros HG Hroom. unfold retry_model_config.
  destruct (Z.ltb_spec 1 (st.(generation_attempts) + 1)) as [Hlt | Hge];
    cbn [andb]; [| eauto].
  destruct settings.(enable_retry_variation); [| eauto].
  destruct (float_of_int_total (st.(generation_attempts) + 1 - 1))
    as (f & E); [lia |].
  rewrite E. eauto.
Qed.

Lemma node_fn_total settings env n st w :
  settings.(document_grading_batch_size) <> 0 ->
  settings.(max_generation_retries) < float_int_bound ->
  answers env ->
  generation_room settings n st ->
  exists st' w', node_fn settings env n st w = (Ok st', w').
Proof.
  intros Hsize HG (Hrag & Hllm & Hrew & _) Hroom. destruct n; simpl.
  - destruct (retrieve_total env st w) as (docs & w' & E). eauto.
  - apply grade_documents_total. exact Hsize.
  - rewrite generate_run.
    destruct (retry_model_config_total settings st HG Hroom) as (cfg & E).
    rewrite E. cbv zeta.
    destruct (Hrag (List.length w) cfg (format_docs st.(documents))
                st.(original_question)) as (s & Es).
    rewrite Es. eauto.
  - unfold transform_query, bind, perform.
    destruct (Hrew (List.length w) st.(model_config) st.(question)) as (s & E).
    rewrite E. unfold ret. eauto.
  - unfold mark_max_iterations, ret. eauto.
  - unfold generate_no_docs_fallback, bind, perform.
    destruct (Hllm (List.length w) st.(model_config) st.(question)) as (s & E).
    rewrite E. unfold ret. eauto.
Qed.

(** The attempt counter stays within the generation budget along the
    edges. *)
Lemma edge_generation_room settings env n st w st1 w1 n' w2 :
  generation_room settings n st ->
  node_fn settings env n st w = (Ok st1, w1) ->
  edge settings env n st1 w1 = (Ok (To n'), w2) ->
  generation_room settings n' st1.
Proof.
  intros Hroom Hnode Hedge.
  pose proof (node_fn_post _ _ _ _ _ _ _ Hnode) as P.
  pose proof (post_generation_attempts _ _ _ P) as Hga.
  destruct n; cbn [edge] in Hedge.
  - ret_inv Hedge. inversion E; subst. cbn [generation_room] in *. lia.
  - destruct (decide_to_generate settings st1); ret_inv Hedge;
      inversion E; subst; cbn [generation_room] in *; try exact I; lia.
  - bind_inv Hedge.
    pose proof (grade_generation_inv _ _ _ _ _ _ Hm) as Hinv.
    destruct a; ret_inv Hk; inversion E; subst; cbn [generation_room];
      try exact I.
    + destruct Hinv as (Hlim & _).
      apply check_iteration_limits_false in Hlim. lia.
    + destruct Hinv as (Hlim & _).
      apply check_iteration_limits_false in Hlim. lia.
  - ret_inv Hedge. inversion E; subst. cbn [generation_room] in *. lia.
  - ret_inv Hedge. discriminate E.
  - ret_inv Hedge. discriminate E.
Qed.

Lemma edge_total settings env n st w :
  settings.(hallucination_batch_size) <> 0 ->
  answers env ->
  exists t w', edge settings env n st w = (Ok t, w').
Proof.
  intros Hsize (_ & _ & _ & Hans). destruct n; simpl;
    try (unfold ret; eauto; fail).
  - destruct (decide_to_generate settings st); unfold ret; eauto.
  - unfold grade_generation_v_documents_and_question.
    destruct (check_iteration_limits settings st);
      [unfold bind, ret; eauto |].
    destruct (grade_hallucination_total settings env st w Hsize)
      as (r & w1 & Eh).
    unfold bind at 1. unfold bind at 1. rewrite Eh.
    destruct r.
    + unfold AnswerGrader_grade, AnswerGrader_prepare_input, bind, perform.
      destruct (Hans (List.length w1) st.(question) st.(generation))
        as (s & Es).
      rewrite Es. unfold ret.
      destruct (AnswerGrader_process_result s st); [eauto |].
      destruct (_ <=? _); eauto.
    + destruct (_ <=? _); unfold ret; eauto.
Qed.

Lemma run_from_never_raises settings env :
  settings.(document_grading_batch_size) <> 0 ->
  settings.(hallucination_batch_size) <> 0 ->
  settings.(max_generation_retries) < float_int_bound ->
  answers env ->
  forall steps n st w e,
    generation_room settings n st ->
    (run_from settings env steps n st w).(ending) <> Raised e.
Proof.
  intros Hd Hh HG Hans. induction steps as [| steps IH]; intros n st w e Hroom.
  - simpl. discriminate.
  - rewrite run_from_S.
    destruct (node_fn_total settings env n st w Hd HG Hans Hroom)
      as (st1 & w1 & En).
    rewrite En.
    destruct (edge_total settings env n st1 w1 Hh Hans) as (t & w2 & Ee).
    rewrite Ee. destruct t as [n' |]; simpl.
    + apply IH. exact (edge_generation_room _ _ _ _ _ _ _ _ _ Hroom En Ee).
    + discriminate.
Qed.

Lemma constant_answers raw grade grounded addresses :
  answers (Stub.constant raw grade grounded addresses).
Proof.
  repeat split; intro; intros; eexists; reflexivity.
Qed.

(** X20: termination under the configured recursion limit.  When
    [3 * max(0, max_transform_retries) + max(1, max_generation_retries) + 3]
    is below [graph_recursion_limit], a run of the adaptive graph executes
    at most that many nodes and is never cut off by the recursion limit,
    whatever the collaborators answer.  When moreover the two batch sizes
    are not zero, the model calls for generation, the no-documents answer,
    rewriting and answer grading answer, and [max_generation_retries] is
    below [2^1024 - 2^970] (so that the attempt counter converts to a
    float), no node raises and the run reaches [END]. *)
Theorem adaptive_loop_terminates settings env q cfg ids :
  Z.of_nat (step_bound settings) < settings.(graph_recursion_limit) ->
  let x := GraphService.graph_stream settings env q cfg ids in
  (List.length x.(trace) <= step_bound settings)%nat
  /\ x.(ending) <> OutOfSteps
  /\ (settings.(document_grading_batch_size) <> 0 ->
      settings.(hallucination_batch_size) <> 0 ->
      settings.(max_generation_retries) < float_int_bound ->
      answers env ->
      exists final,
        x.(ending) = Ended final
        /\ execute_query settings env q cfg ids
           = Ok (extract_results q x.(trace) final)).
Proof.
  intros Hlimit x. subst x.
  unfold execute_query, execute_query_on, GraphService.graph_stream,
    GraphService.stream.
  set (steps := GraphService.node_budget settings).
  set (st0 := GraphService.initial_state q cfg ids).
  assert (Hsteps : (step_bound settings <= steps)%nat)
    by (subst steps; unfold GraphService.node_budget; lia).
  assert (Hrem : remaining settings retrieve_n st0
                 = Z.of_nat (step_bound settings)).
  { unfold remaining, transforms_left, generations_left, step_bound.
    subst st0.
    cbn [GraphService.initial_state transform_attempts generation_attempts].
    rewrite !Z.sub_0_r. lia. }
  destruct (run_from_bounded settings env steps retrieve_n st0 []
              ltac:(unfold may_run; discriminate) ltac:(lia))
    as [Hend Hlen].
  split; [lia |]. split; [exact Hend |].
  intros Hd Hh HG Hans.
  pose proof (run_from_never_raises settings env Hd Hh HG Hans steps
                retrieve_n st0 []) as Hraise.
  destruct (ending (run_from settings env steps retrieve_n st0 []))
    as [final | e |].
  - exists final. split; reflexivity.
  - exfalso. apply (Hraise e); [| reflexivity].
    subst st0. cbn [generation_room GraphService.initial_state
                      generation_attempts]. lia.
  - contradiction.
Qed.

Lemma adaptive_loop_terminates_witness :
  Z.of_nat (step_bound default_settings)
  < default_settings.(graph_recursion_limit)
  /\ let x := GraphService.graph_stream default_settings
                (Stub.constant (Ok Stub.three_docs) (Stub.graded "yes" 1)
                   "no" "no")
                "q" [] [] in
     (List.length x.(trace) <= step_bound default_settings)%nat
     /\ x.(ending) <> OutOfSteps
     /\ exists final, x.(ending) = Ended final.
Proof.
  split; [vm_compute; reflexivity |].
  destruct (adaptive_loop_terminates default_settings
              (Stub.constant (Ok Stub.three_docs) (Stub.graded "yes" 1)
                 "no" "no")
              "q" [] [] ltac:(vm_compute; reflexivity))
    as (Hlen & Hend & Hfinal).
  split; [exact Hlen |]. split; [exact Hend |].
  destruct (Hfinal ltac:(discriminate) ltac:(discriminate)
              ltac:(vm_compute; reflexivity) (constant_answers _ _ _ _))
    as (final & Hf & _).
  exists final. exact Hf.
Defined.

(** ** Cycles without relevant documents *)

Lemma run_from_step settings env steps n st w st1 w1 n' w2 :
  node_fn settings env n st w = (Ok st1, w1) ->
  edge settings env n st1 w1 = (Ok (To n'), w2) ->
  run_from settings env (S steps) n st w
  = {| trace := n :: (run_from settings env steps n' st1 w2).(trace);
       ending := (run_from settings env steps n' st1 w2).(ending);
       calls := (run_from settings env steps n' st1 w2).(calls) |}.
Proof. intros En Ee. rewrite run_from_S, En, Ee. reflexivity. Qed.

Lemma run_from_end settings env steps n st w st1 w1 w2 :
  node_fn settings env n st w = (Ok st1, w1) ->
  edge settings env n st1 w1 = (Ok END, w2) ->
  run_from settings env (S steps) n st w
  = {| trace := [n]; ending := Ended st1; calls := w2 |}.
Proof. intros En Ee. rewrite run_from_S, En, Ee. reflexivity. Qed.

Lemma edge_grade_documents_empty settings env st w :
  st.(documents) = [] ->
  edge settings env grade_documents_n st w
  = (Ok (To (if settings.(max_transform_retries) <=? st.(transform_attempts)
             then no_docs_fallback_n else transform_query_n)), w).
Proof.
  intros D. cbn [edge]. unfold decide_to_generate. rewrite D.
  destruct (_ <=? _); reflexivity.
Qed.

Lemma rewrite_cycle settings env st w steps :
  zero_relevant settings env ->
  rewriter_answers env ->
  st.(transform_attempts) < settings.(max_transform_retries) ->
  exists st3 w3,
    run_from settings env (S (S (S steps))) retrieve_n st w
    = {| trace := retrieve_n :: grade_documents_n :: transform_query_n
                  :: (run_from settings env steps retrieve_n st3 w3).(trace);
         ending := (run_from settings env steps retrieve_n st3 w3).(ending);
         calls := (run_from settings env steps retrieve_n st3 w3).(calls) |}
    /\ st3.(transform_attempts) = st.(transform_attempts) + 1
    /\ st3.(original_question) = st.(original_question).
Proof.
  intros Hzero Hrew Hlt.
  destruct (retrieve_total env st w) as (docs & w1 & E1).
  set (st1 := retrieve_result st docs (st.(total_iterations) + 1)) in *.
  destruct (Hzero st1 w1) as (st2 & w2 & E2 & D2).
  pose proof (node_fn_post settings env grade_documents_n _ _ _ _ E2) as P2.
  pose proof (edge_grade_documents_empty settings env st2 w2 D2) as Ee2.
  destruct (Z.leb_spec settings.(max_transform_retries)
              st2.(transform_attempts)) as [Hge | _].
  { rewrite (post_transform_attempts _ _ _ P2) in Hge. simpl in Hge. lia. }
  destruct (Hrew (List.length w2) st2.(model_config) st2.(question))
    as (better & E3).
  assert (En3 : exists st3 w3,
             node_fn settings env transform_query_n st2 w2 = (Ok st3, w3)).
  { cbn [node_fn]. unfold transform_query, bind, perform. rewrite E3.
    unfold ret. eauto. }
  destruct En3 as (st3 & w3 & En3).
  pose proof (node_fn_post _ _ _ _ _ _ _ En3) as P3.
  exists st3, w3. split; [| split].
  - rewrite (run_from_step settings env _ retrieve_n st w st1 w1
               grade_documents_n w1 E1 eq_refl).
    rewrite (run_from_step settings env _ grade_documents_n st1 w1 st2 w2
               transform_query_n w2 E2 Ee2).
    rewrite (run_from_step settings env _ transform_query_n st2 w2 st3 w3
               retrieve_n w3 En3 eq_refl).
    reflexivity.
  - rewrite (post_transform_attempts _ _ _ P3),
      (post_transform_attempts _ _ _ P2). simpl. lia.
  - rewrite (post_original_question _ _ _ P3),
      (post_original_question _ _ _ P2). reflexivity.
Qed.

Lemma give_up_cycle settings env st w steps :
  zero_relevant settings env ->
  llm_chain_answers env ->
  settings.(max_transform_retries) <= st.(transform_attempts) ->
  exists final w',
    run_from settings env (S (S (S steps))) retrieve_n st w
    = {| trace := [retrieve_n; grade_documents_n; no_docs_fallback_n];
         ending := Ended final;
         calls := w' |}
    /\ final.(transform_attempts) = st.(transform_attempts)
    /\ final.(original_question) = st.(original_question)
    /\ flags_of final = (true, true, "no_relevant_docs").
Proof.
  intros Hzero Hllm Hge.
  destruct (retrieve_total env st w) as (docs & w1 & E1).
  set (st1 := retrieve_result st docs (st.(total_iterations) + 1)) in *.
  destruct (Hzero st1 w1) as (st2 & w2 & E2 & D2).
  pose proof (node_fn_post settings env grade_documents_n _ _ _ _ E2) as P2.
  pose proof (edge_grade_documents_empty settings env st2 w2 D2) as Ee2.
  destruct (Z.leb_spec settings.(max_transform_retries)
              st2.(transform_attempts)) as [_ | Hlt].
  2:{ rewrite (post_transform_attempts _ _ _ P2) in Hlt. simpl in Hlt. lia. }
  destruct (Hllm (List.length w2) st2.(model_config) st2.(question))
    as (answer & E3).
  assert (En3 : exists st3 w3,
             node_fn settings env no_docs_fallback_n st2 w2 = (Ok st3, w3)).
  { cbn [node_fn]. unfold generate_no_docs_fallback, bind, perform.
    rewrite E3. unfold ret. eauto. }
  destruct En3 as (st3 & w3 & En3).
  pose proof (node_fn_post _ _ _ _ _ _ _ En3) as P3.
  exists st3, w3. split; [| split; [| split]].
  - rewrite (run_from_step settings env _ retrieve_n st w st1 w1
               grade_documents_n w1 E1 eq_refl).
    rewrite (run_from_step settings env _ grade_documents_n st1 w1 st2 w2
               no_docs_fallback_n w2 E2 Ee2).
    rewrite (run_from_end settings env _ no_docs_fallback_n st2 w2 st3 w3
               w3 En3 eq_refl).
    reflexivity.
  - rewrite (post_transform_attempts _ _ _ P3),
      (post_transform_attempts _ _ _ P2). simpl. lia.
  - rewrite (post_original_question _ _ _ P3),
      (post_original_question _ _ _ P2). reflexivity.
  - exact (post_flags _ _ _ P3).
Qed.

Lemma kept_documents_never_relevant settings env t0 q docs :
  never_relevant settings env ->
  forall i, kept_documents settings env t0 q docs i = [].
Proof.
  intros Hnever. induction docs as [| d rest IH]; intros i; simpl.
  - reflexivity.
  - rewrite Hnever. apply IH.
Qed.

Lemma never_relevant_zero_relevant settings env :
  0 < settings.(document_grading_batch_size) ->
  never_relevant settings env -> zero_relevant settings env.
Proof.
  intros Hsize Hnever st w.
  destruct (grade_documents_run settings env st w Hsize) as (st' & cs & E & D).
  exists st', (w ++ cs)%list. split; [exact E |].
  rewrite D. apply kept_documents_never_relevant. exact Hnever.
Qed.

Lemma nothing_found_zero_relevant g t total :
  zero_relevant (Stub.budgets g t total) Stub.nothing_found.
Proof.
  apply never_relevant_zero_relevant.
  - simpl. lia.
  - intros t0 q doc i. reflexivity.
Qed.

(** With nothing relevant ever found, a run from [retrieve] performs one
    retrieve/grade/rewrite cycle per transform attempt that the budget
    still allows and then takes the no-documents fallback. *)
Lemma fruitless_run settings env :
  zero_relevant settings env ->
  rewriter_answers env ->
  llm_chain_answers env ->
  forall k st w steps,
    st.(transform_attempts) = settings.(max_transform_retries) - Z.of_nat k ->
    (3 * k + 3 <= steps)%nat ->
    let x := run_from settings env steps retrieve_n st w in
    List.length x.(trace) = (3 * k + 3)%nat
    /\ count_occ Node_eq_dec x.(trace) transform_query_n = k
    /\ exists final,
         x.(ending) = Ended final
         /\ final.(transform_attempts) = settings.(max_transform_retries)
         /\ final.(original_question) = st.(original_question)
         /\ flags_of final = (true, true, "no_relevant_docs").
Proof.
  intros Hzero Hrew Hllm. induction k as [| k IH]; intros st w steps Hta Hsteps.
  - destruct steps as [| [| [| steps]]]; try lia.
    destruct (give_up_cycle settings env st w steps Hzero Hllm ltac:(lia))
      as (final & w' & E & Ht & Hq & Hf).
    cbv zeta. rewrite E. cbn [trace ending].
    split; [reflexivity |]. split; [reflexivity |].
    exists final. repeat split; try assumption. lia.
  - destruct steps as [| [| [| steps]]]; try lia.
    destruct (rewrite_cycle settings env st w steps Hzero Hrew ltac:(lia))
      as (st3 & w3 & E & Ht & Hq).
    destruct (IH st3 w3 steps ltac:(lia) ltac:(lia))
      as (Hlen & Hcount & final & Hend & Hfinal & Hfq & Hflags).
    cbv zeta. rewrite E. cbn [trace ending List.length].
    split; [lia |]. split.
    + cbn [count_occ].
      destruct (Node_eq_dec retrieve_n transform_query_n); [discriminate |].
      destruct (Node_eq_dec grade_documents_n transform_query_n);
        [discriminate |].
      destruct (Node_eq_dec transform_query_n transform_query_n);
        [| contradiction].
      rewrite Hcount. reflexivity.
    + exists final. repeat split; try assumption. congruence.
Qed.

(** No constant [c] makes [max_total_iterations + c] a bound on the node
    executions of [stream] when the step limit leaves room: whatever [c]
    is, with [max_total_iterations = 15],
    [max_transform_retries = c + 5] and a retrieval that never finds
    anything the loop executes [3 * (c + 5) + 3] nodes, because the total
    budget is only consulted after a generation. *)
Lemma total_budget_does_not_bound_the_loop :
  ~ exists c : nat,
      forall settings env steps q cfg ids,
        (List.length (GraphService.stream settings env steps q cfg ids).(trace)
         <= Z.to_nat settings.(max_total_iterations) + c)%nat.
Proof.
  intros [c H].
  specialize (H (Stub.budgets 2 (Z.of_nat (c + 5)) 15) Stub.nothing_found
                (3 * (c + 5) + 3)%nat "q" [] []).
  destruct (fruitless_run (Stub.budgets 2 (Z.of_nat (c + 5)) 15)
              Stub.nothing_found
              (nothing_found_zero_relevant _ _ _)
              (proj1 (proj2 (proj2 (constant_answers _ _ _ _))))
              (proj1 (proj2 (constant_answers _ _ _ _)))
              (c + 5)%nat (GraphService.initial_state "q" [] []) []
              (3 * (c + 5) + 3)%nat)
    as (Hlen & _).
  - cbn [Stub.budgets max_transform_retries GraphService.initial_state
           transform_attempts]. lia.
  - lia.
  - unfold GraphService.stream in H. rewrite Hlen in H.
    cbn [Stub.budgets max_total_iterations] in H. lia.
Qed.

(** C5: [decide_to_generate] answers ["generate"] when the filtered list is
    not empty, ["transform_query"] when it is empty and
    [transform_attempts < max_transform_retries], and ["no_docs_fallback"]
    when it is empty and [transform_attempts >= max_transform_retries].
    Hence with [max_transform_retries = 2] and a grading step that never
    leaves a document, the run rewrites the query exactly twice and then
    takes the no-documents fallback. *)
Theorem decide_to_generate_policy settings env st :
  (st.(documents) <> [] -> decide_to_generate settings st = generate_d)
  /\ (st.(documents) = [] ->
      st.(transform_attempts) < settings.(max_transform_retries) ->
      decide_to_generate settings st = transform_query_d)
  /\ (st.(documents) = [] ->
      settings.(max_transform_retries) <= st.(transform_attempts) ->
      decide_to_generate settings st = no_docs_fallback_d)
  /\ (settings.(max_transform_retries) = 2 ->
      zero_relevant settings env ->
      rewriter_answers env ->
      llm_chain_answers env ->
      forall steps q cfg ids,
        (9 <= steps)%nat ->
        let x := GraphService.stream settings env steps q cfg ids in
        x.(trace)
        = [retrieve_n; grade_documents_n; transform_query_n;
           retrieve_n; grade_documents_n; transform_query_n;
           retrieve_n; grade_documents_n; no_docs_fallback_n]
        /\ count_occ Node_eq_dec x.(trace) transform_query_n = 2%nat
        /\ exists final,
             x.(ending) = Ended final
             /\ final.(transform_attempts) = 2
             /\ final.(no_relevant_docs_fallback) = true
             /\ final.(fallback_type) = "no_relevant_docs").
Proof.
  unfold decide_to_generate. split; [| split; [| split]].
  - destruct st.(documents); [contradiction | reflexivity].
  - intros D Hlt. rewrite D.
    destruct (Z.leb_spec settings.(max_transform_retries)
                st.(transform_attempts)); [lia | reflexivity].
  - intros D Hge. rewrite D.
    destruct (Z.leb_spec settings.(max_transform_retries)
                st.(transform_attempts)); [reflexivity | lia].
  - intros Hmax Hzero Hrew Hllm steps q cfg ids Hsteps. cbv zeta.
    unfold GraphService.stream.
    do 9 (destruct steps as [| steps]; [lia |]).
    destruct (rewrite_cycle settings env (GraphService.initial_state q cfg ids)
                [] (S (S (S (S (S (S steps)))))) Hzero Hrew)
      as (st3 & w3 & E3 & T3 & _).
    { rewrite Hmax. simpl. lia. }
    destruct (rewrite_cycle settings env st3 w3 (S (S (S steps))) Hzero Hrew)
      as (st6 & w6 & E6 & T6 & _).
    { rewrite Hmax, T3. simpl. lia. }
    destruct (give_up_cycle settings env st6 w6 steps Hzero Hllm)
      as (final & w9 & E9 & T9 & _ & F9).
    { rewrite Hmax, T6, T3. simpl. lia. }
    rewrite E3, E6, E9. cbn [trace ending].
    split; [reflexivity |]. split; [reflexivity |].
    exists final. split; [reflexivity |].
    inversion F9. rewrite T9, T6, T3. simpl. repeat split; reflexivity.
Qed.

Lemma decide_to_generate_policy_witness :
  default_settings.(max_transform_retries) = 2
  /\ let x := GraphService.stream default_settings Stub.nothing_found 20
                "q" [] [] in
     count_occ Node_eq_dec x.(trace) transform_query_n = 2%nat
     /\ exists final,
          x.(ending) = Ended final
          /\ final.(transform_attempts) = 2
          /\ final.(no_relevant_docs_fallback) = true
          /\ final.(fallback_type) = "no_relevant_docs".
Proof.
  split; [reflexivity |].
  destruct (proj2 (proj2 (proj2
              (decide_to_generate_policy default_settings Stub.nothing_found
                 (GraphService.initial_state "q" [] []))))
              eq_refl
              (nothing_found_zero_relevant 2 2 15)
              (proj1 (proj2 (proj2 (constant_answers _ _ _ _))))
              (proj1 (proj2 (constant_answers _ _ _ _)))
              20%nat "q" [] [] ltac:(lia))
    as (_ & Hcount & Hfinal).
  split; [exact Hcount | exact Hfinal].
Defined.

(** ** Terminal states *)

Lemma edge_END settings env n st w w' :
  edge settings env n st w = (Ok END, w') ->
  n = generate_n \/ n = fallback_n \/ n = no_docs_fallback_n.
Proof.
  destruct n; simpl; intros H; auto.
  - ret_inv H. discriminate E.
  - destruct (decide_to_generate settings st); ret_inv H; discriminate E.
  - ret_inv H. discriminate E.
Qed.

Lemma run_from_ended settings env :
  forall steps n st w final,
    (run_from settings env steps n st w).(ending) = Ended final ->
    exists before last_node,
      (run_from settings env steps n st w).(trace)
      = (before ++ [last_node])%list
      /\ (last_node = generate_n \/ last_node = fallback_n
          \/ last_node = no_docs_fallback_n)
      /\ flags_of final = flags_written last_node.
Proof.
  induction steps as [| steps IH]; intros n st w final.
  - simpl. discriminate.
  - rewrite run_from_S.
    destruct (node_fn settings env n st w) as [[st1 | e] w1] eqn:Hnode;
      [| simpl; discriminate].
    destruct (edge settings env n st1 w1) as [[[n' |] | e] w2] eqn:Hedge;
      cbn [ending trace]; intros H.
    + destruct (IH n' st1 w2 final H) as (before & l & Et & Hl & Hf).
      exists (n :: before), l. rewrite Et. repeat split; assumption.
    + inversion H; subst. exists [], n. split; [reflexivity |].
      split; [exact (edge_END _ _ _ _ _ _ Hedge) |].
      exact (post_flags _ _ _ (node_fn_post _ _ _ _ _ _ _ Hnode)).
    + discriminate H.
Qed.

(** C2 (as stated, refuted): on the no-documents path the terminal state
    has [max_iterations_reached] and [no_relevant_docs_fallback] both
    true. *)
Lemma no_docs_fallback_sets_both_flags :
  let x := GraphService.stream default_settings Stub.nothing_found 20
             "q" [] [] in
  exists final,
    x.(ending) = Ended final
    /\ final.(max_iterations_reached) = true
    /\ final.(no_relevant_docs_fallback) = true.
Proof.
  eexists. split; [vm_compute; reflexivity |]. split; reflexivity.
Qed.

(** C2 (amended): a run that reaches [END] does so after exactly one of
    three nodes, and [fallback_type] tells which: after [generate] with
    both flags false and [fallback_type = ""]; after [fallback] with
    [max_iterations_reached = true], [no_relevant_docs_fallback = false]
    and [fallback_type = "max_iterations"]; after [no_docs_fallback] with
    [no_relevant_docs_fallback = true], [fallback_type =
    "no_relevant_docs"] and [max_iterations_reached = true] as well. *)
Theorem terminal_outcome settings env steps q cfg ids final :
  (GraphService.stream settings env steps q cfg ids).(ending) = Ended final ->
  exists before last_node,
    (GraphService.stream settings env steps q cfg ids).(trace)
    = (before ++ [last_node])%list
    /\ ((last_node = generate_n
         /\ final.(max_iterations_reached) = false
         /\ final.(no_relevant_docs_fallback) = false
         /\ final.(fallback_type) = "")
        \/ (last_node = fallback_n
            /\ final.(max_iterations_reached) = true
            /\ final.(no_relevant_docs_fallback) = false
            /\ final.(fallback_type) = "max_iterations")
        \/ (last_node = no_docs_fallback_n
            /\ final.(max_iterations_reached) = true
            /\ final.(no_relevant_docs_fallback) = true
            /\ final.(fallback_type) = "no_relevant_docs")).
Proof.
  unfold GraphService.stream. intros H.
  destruct (run_from_ended _ _ _ _ _ _ _ H) as (before & l & Et & Hl & Hf).
  exists before, l. split; [exact Et |].
  unfold flags_of in Hf.
  destruct Hl as [-> | [-> | ->]]; simpl in Hf; inversion Hf;
    [left | right; left | right; right]; repeat split; reflexivity.
Qed.

Lemma terminal_outcome_witness :
  exists final before,
    (GraphService.stream default_settings
       (Stub.constant (Ok Stub.three_docs) (Stub.graded "yes" 1) "no" "no")
       20 "q" [] []).(ending) = Ended final
    /\ (GraphService.stream default_settings
          (Stub.constant (Ok Stub.three_docs) (Stub.graded "yes" 1) "no" "no")
          20 "q" [] []).(trace) = (before ++ [fallback_n])%list
    /\ final.(fallback_type) = "max_iterations".
Proof.
  eexists.
  assert (E : (GraphService.stream default_settings
                 (Stub.constant (Ok Stub.three_docs) (Stub.graded "yes" 1)
                    "no" "no")
                 20 "q" [] []).(ending)
              = Ended
                  {| question := "q";
                     original_question := "q";
                     generation := "answer from documents";
                     documents := [Stub.doc "d1"; Stub.doc "d2"; Stub.doc "d3"];
                     model_config := [("temperature", float_lit 1 10)];
                     collection_ids := [];
                     generation_attempts := 2;
                     transform_attempts := 0;
                     total_iterations := 4;
                     max_iterations_reached := true;
                     no_relevant_docs_fallback := false;
                     fallback_type := "max_iterations" |})
    by (vm_compute; reflexivity).
  destruct (terminal_outcome _ _ _ _ _ _ _ E) as (before & l & Et & Hcases).
  exists before. split; [exact E |]. split; [| reflexivity].
  rewrite Et.
  destruct Hcases as [(-> & _) | [(-> & _) | (_ & _ & Hn & _)]].
  - exfalso.
    assert (L : last (GraphService.stream default_settings
                        (Stub.constant (Ok Stub.three_docs)
                           (Stub.graded "yes" 1) "no" "no")
                        20 "q" [] []).(trace) retrieve_n = fallback_n)
      by (vm_compute; reflexivity).
    rewrite Et, last_last in L. discriminate L.
  - reflexivity.
  - discriminate Hn.
Defined.

(** ** Which question the model is asked *)

Lemma generate_asks_original_question settings env st w st' w' :
  generate settings env st w = (Ok st', w') ->
  exists cfg,
    w' = (w ++ [AnswerGeneratorInvoke cfg (format_docs st.(documents))
                  st.(original_question)])%list.
Proof.
  intros H. apply generate_Ok in H.
  destruct H as (cfg & gen & _ & _ & _ & ->). exists cfg. reflexivity.
Qed.

Lemma no_docs_fallback_asks_current_question env st w st' w' :
  generate_no_docs_fallback env st w = (Ok st', w') ->
  w' = (w ++ [PureLLMInvoke st.(model_config) st.(question)])%list.
Proof.
  unfold generate_no_docs_fallback. intros H. bind_inv H. perform_inv Hm.
  ret_inv Hk. reflexivity.
Qed.

Lemma answer_grader_call env st w :
  exists r,
    AnswerGrader_grade env st w
    = (r, (w ++ [AnswerGraderInvoke st.(question) st.(generation)])%list).
Proof.
  unfold AnswerGrader_grade, AnswerGrader_prepare_input, bind, perform.
  destruct (answer_grader_invoke env _ _ _); eexists; reflexivity.
Qed.

Lemma reachable_questions settings env q0 n st w :
  reachable settings env q0 n st w ->
  st.(original_question) = q0
  /\ 0 <= st.(transform_attempts)
  /\ (st.(transform_attempts) = 0 -> st.(question) = q0).
Proof.
  induction 1 as [cfg ids | n st w st1 w1 n' w2 Hr IH Hnode Hedge].
  - simpl. repeat split; try reflexivity; lia.
  - destruct IH as (Ho & Hpos & Hq).
    pose proof (node_fn_post _ _ _ _ _ _ _ Hnode) as P.
    rewrite (post_original_question _ _ _ P),
      (post_transform_attempts _ _ _ P).
    split; [exact Ho |]. split.
    + destruct n; lia.
    + intros Hta.
      assert (Hn : n <> transform_query_n) by (intros ->; lia).
      rewrite (post_question _ _ _ P Hn). apply Hq. destruct n; lia.
Qed.

(** C3 (the code at the failing input): with [max_transform_retries = 1]
    and a retrieval that never finds anything, the question "q" is
    rewritten once and the only answer-generating call of the run, the one
    of the no-documents fallback, is asked the rewritten question, while
    [original_question] still holds "q". *)
Theorem no_docs_fallback_answers_rewritten_question :
  let x := GraphService.stream (Stub.budgets 2 1 15) Stub.nothing_found 20
             "q" [] [] in
  x.(trace) = [retrieve_n; grade_documents_n; transform_query_n;
               retrieve_n; grade_documents_n; no_docs_fallback_n]
  /\ x.(calls) = [RetrieverToolInvoke "q";
                  QuestionRewriterInvoke [] "q";
                  RetrieverToolInvoke "q (rewritten)";
                  PureLLMInvoke [] "q (rewritten)"]
  /\ exists final,
       x.(ending) = Ended final
       /\ final.(original_question) = "q"
       /\ final.(generation) = "answer from general knowledge".
Proof.
  split; [vm_compute; reflexivity |]. split; [vm_compute; reflexivity |].
  eexists. split; [vm_compute; reflexivity |]. split; reflexivity.
Qed.

(** C9 (as stated, refuted): after one rewrite the answer grader is asked
    about the rewritten question, not about the original "q". *)
Lemma answer_grader_sees_rewritten_question :
  let x := GraphService.stream (Stub.budgets 3 2 15)
             (Stub.constant (Ok Stub.three_docs) (Stub.graded "yes" 1)
                "yes" "no")
             20 "q" [] [] in
  In (AnswerGraderInvoke "q (rewritten)" "answer from documents") x.(calls)
  /\ exists final,
       x.(ending) = Ended final /\ final.(original_question) = "q".
Proof.
  split.
  - vm_compute. repeat (first [left; reflexivity | right]).
  - eexists. split; [vm_compute; reflexivity | reflexivity].
Qed.

(** C9 (amended): the answer grader is asked about the [question] field of
    the state it is given.  In an execution that field holds the user's
    question as long as no rewrite has happened
    ([transform_attempts = 0]); a rewrite replaces it by the rewriter's
    output and no other node changes it, so after a rewrite the answer is
    graded against the rewritten question. *)
Theorem answer_grader_grades_current_question settings env :
  (forall st w,
     exists r,
       AnswerGrader_grade env st w
       = (r, (w ++ [AnswerGraderInvoke st.(question) st.(generation)])%list))
  /\ (forall q0 n st w st1 w1,
        reachable settings env q0 n st w ->
        node_fn settings env n st w = (Ok st1, w1) ->
        st1.(transform_attempts) = 0 ->
        st1.(question) = q0 /\ st1.(original_question) = q0)
  /\ (forall st w st' w',
        transform_query env st w = (Ok st', w') ->
        question_rewriter_invoke env (List.length w) st.(model_config)
          st.(question) = Ok st'.(question))
  /\ (forall n st w st' w',
        n <> transform_query_n ->
        node_fn settings env n st w = (Ok st', w') ->
        st'.(question) = st.(question)).
Proof.
  split; [| split; [| split]].
  - intros st w. apply answer_grader_call.
  - intros q0 n st w st1 w1 Hr Hnode Hta.
    destruct (reachable_questions _ _ _ _ _ _ Hr) as (Ho & Hpos & Hq).
    pose proof (node_fn_post _ _ _ _ _ _ _ Hnode) as P.
    rewrite (post_original_question _ _ _ P).
    rewrite (post_transform_attempts _ _ _ P) in Hta.
    split; [| exact Ho].
    assert (Hn : n <> transform_query_n) by (intros ->; lia).
    rewrite (post_question _ _ _ P Hn). apply Hq. destruct n; lia.
  - intros st w st' w' H. unfold transform_query in H.
    bind_inv H. perform_inv Hm. ret_inv Hk. exact Hcall.
  - intros n st w st' w' Hn Hnode.
    exact (post_question _ _ _ (node_fn_post _ _ _ _ _ _ _ Hnode) Hn).
Qed.

Lemma answer_grader_grades_current_question_witness :
  exists st1 w1,
    node_fn default_settings
      (Stub.constant (Ok Stub.three_docs) (Stub.graded "yes" 1) "yes" "no")
      retrieve_n (GraphService.initial_state "q" [] []) [] = (Ok st1, w1)
    /\ st1.(question) = "q" /\ st1.(original_question) = "q".
Proof.
  eexists. eexists.
  assert (E : node_fn default_settings
                (Stub.constant (Ok Stub.three_docs) (Stub.graded "yes" 1)
                   "yes" "no")
                retrieve_n (GraphService.initial_state "q" [] []) []
              = (Ok (retrieve_result (GraphService.initial_state "q" [] [])
                       [Stub.doc "d1"; Stub.doc "d2"; Stub.doc "d3"] 1),
                 [RetrieverToolInvoke "q"])) by reflexivity.
  split; [exact E |].
  exact (proj1 (proj2 (answer_grader_grades_current_question default_settings
                         (Stub.constant (Ok Stub.three_docs)
                            (Stub.graded "yes" 1) "yes" "no")))
           "q" retrieve_n _ _ _ _ (reachable_start _ _ "q" [] []) E eq_refl).
Defined.

(** ** The accept-as-is branch *)




(* ===================================================================== *)
(** * Further properties of the nodes and of the loop *)
(* ===================================================================== *)

(** ** Retrieval *)

Lemma retrieve_from_collections_run env query ids :
  forall all_documents w,
    retrieve_from_collections env query ids all_documents w
    = (Ok (all_documents ++ collected env query (List.length w) ids)%list,
       (w ++ map (fun coll_id => CollectionRetrieverInvoke coll_id query) ids)
         %list).
Proof.
  induction ids as [| coll_id rest IH]; intros all_documents w.
  - simpl. unfold ret. rewrite !app_nil_r. reflexivity.
  - cbn [retrieve_from_collections collected map].
    unfold bind at 1. unfold try_except, bind, perform.
    destruct (collection_retriever_invoke env (List.length w) coll_id query)
      as [docs | e]; unfold ret; rewrite IH;
      rewrite length_app, Nat.add_1_r, <- !app_assoc; reflexivity.
Qed.

(** X1: [retrieve] returns whatever the retriever does.  It copies the
    question, the original question, the generation, the configuration and
    the two attempt counters, adds one to [total_iterations] and clears the
    fallback flags.  Without collection ids it makes exactly one call, to
    the retriever tool with the current question, and a tool that raises
    leaves the document list empty. *)
Theorem retrieve_never_raises env st w :
  exists st' cs,
    retrieve env st w = (Ok st', (w ++ cs)%list)
    /\ st'.(question) = st.(question)
    /\ st'.(original_question) = st.(original_question)
    /\ st'.(generation) = st.(generation)
    /\ st'.(model_config) = st.(model_config)
    /\ st'.(collection_ids) = st.(collection_ids)
    /\ st'.(generation_attempts) = st.(generation_attempts)
    /\ st'.(transform_attempts) = st.(transform_attempts)
    /\ st'.(total_iterations) = st.(total_iterations) + 1
    /\ flags_of st' = (false, false, "")
    /\ (st.(collection_ids) = [] ->
        cs = [RetrieverToolInvoke st.(question)]
        /\ st'.(documents)
           = match retriever_tool_invoke env (List.length w) st.(question) with
             | Ok raw_documents => documents_of_raw raw_documents
             | Raise _ => []
             end).
Proof.
  unfold retrieve, try_except.
  destruct st.(collection_ids) as [| coll_id rest] eqn:Eids.
  - unfold bind, perform.
    destruct (retriever_tool_invoke env (List.length w) st.(question))
      as [raw | e].
    + unfold ret. eexists. eexists. split; [reflexivity |].
      simpl. repeat split; try assumption; reflexivity.
    + destruct e; unfold ret; eexists; eexists; (split; [reflexivity |]);
        simpl; repeat split; try assumption; reflexivity.
  - unfold bind at 1. unfold bind at 1.
    rewrite retrieve_from_collections_run. unfold ret.
    eexists. eexists. split; [reflexivity |].
    simpl. repeat split; try assumption; try reflexivity.
    all: discriminate.
Qed.

Lemma retrieve_never_raises_witness :
  exists st',
    retrieve Outage.env (GraphService.initial_state "q" [] []) []
    = (Ok st', [RetrieverToolInvoke "q"])
    /\ st'.(documents) = []
    /\ st'.(total_iterations) = 1.
Proof.
  destruct (retrieve_never_raises Outage.env
              (GraphService.initial_state "q" [] []) [])
    as (st' & cs & E & _ & _ & _ & _ & _ & _ & _ & Hi & _ & H).
  destruct (H eq_refl) as (Hcs & Hd).
  exists st'. rewrite Hcs in E. split; [exact E |].
  split; [exact Hd | exact Hi].
Defined.

(** X2: with collection ids, [retrieve] calls the collection retrievers,
    one call per id in the order given, and never the retriever tool.  A
    collection whose retrieval raises is skipped; the documents are those
    of the other collections, in order. *)
Theorem retrieve_skips_failing_collections env st w :
  st.(collection_ids) <> [] ->
  exists st',
    retrieve env st w
    = (Ok st',
       (w ++ map (fun coll_id => CollectionRetrieverInvoke coll_id st.(question))
               st.(collection_ids))%list)
    /\ st'.(documents)
       = map document_of_item
           (collected env st.(question) (List.length w) st.(collection_ids)).
Proof.
  intros Hids. unfold retrieve, try_except.
  destruct st.(collection_ids) as [| coll_id rest] eqn:Eids;
    [contradiction |].
  unfold bind at 1. unfold bind at 1.
  rewrite retrieve_from_collections_run. unfold ret.
  eexists. split; reflexivity.
Qed.

Lemma retrieve_skips_failing_collections_witness :
  (GraphService.initial_state "q" [] [1; 2; 3]).(collection_ids) <> []
  /\ exists st',
       retrieve Fixture.collections
         (GraphService.initial_state "q" [] [1; 2; 3]) []
       = (Ok st',
          [CollectionRetrieverInvoke 1 "q"; CollectionRetrieverInvoke 2 "q";
           CollectionRetrieverInvoke 3 "q"])
       /\ st'.(documents) = [Stub.doc "from 1"; Stub.doc "from another"].
Proof.
  split; [discriminate |].
  destruct (retrieve_skips_failing_collections Fixture.collections
              (GraphService.initial_state "q" [] [1; 2; 3]) []
              ltac:(discriminate))
    as (st' & E & D).
  exists st'. split; [exact E | rewrite D; reflexivity].
Defined.

(** ** Batch sizes that are not positive *)

Lemma range_negative_step stop step :
  0 <= stop -> step < 0 -> range 0 stop step = Ok [].
Proof.
  intros Hstop Hstep. unfold range, range_count.
  destruct (Z.eqb_spec step 0); [lia |].
  destruct (Z.ltb_spec 0 step); [lia |].
  assert (Hq : (0 - stop + - step - 1) / - step <= 0).
  { destruct (Z.lt_ge_cases (0 - stop + - step - 1) 0) as [Hneg | Hpos].
    - assert (Hlt : (0 - stop + - step - 1) / - step < 0)
        by (apply Z.div_lt_upper_bound; lia).
      lia.
    - rewrite Z.div_small by lia. lia. }
  replace (Z.to_nat ((0 - stop + - step - 1) / - step)) with O by lia.
  reflexivity.
Qed.

(** X3: the hallucination grader without documents answers not grounded
    and calls no model.  With documents, a batch size of zero makes it
    raise [ValueError] before any call, and a negative batch size makes it
    answer not grounded without any call. *)
Theorem grade_hallucination_edge_cases settings env st w :
  (st.(documents) = [] ->
   grade_hallucination settings env st w = (Ok false, w))
  /\ (st.(documents) <> [] ->
      settings.(hallucination_batch_size) = 0 ->
      exists msg,
        grade_hallucination settings env st w = (Raise (ValueError msg), w))
  /\ (settings.(hallucination_batch_size) < 0 ->
      grade_hallucination settings env st w = (Ok false, w)).
Proof.
  unfold grade_hallucination. split; [| split].
  - intros D. rewrite D. reflexivity.
  - intros D Hsize. destruct st.(documents) as [| d docs]; [contradiction |].
    unfold bind, lift, range. rewrite Hsize. simpl. eexists. reflexivity.
  - intros Hsize. destruct st.(documents) as [| d docs]; [reflexivity |].
    unfold bind, lift.
    rewrite range_negative_step by lia. reflexivity.
Qed.

Lemma grade_hallucination_edge_cases_witness :
  (Stub.seven_documents.(documents) <> []
   /\ (Fixture.batch_sizes 4 0).(hallucination_batch_size) = 0
   /\ exists msg,
        grade_hallucination (Fixture.batch_sizes 4 0)
          (Stub.constant (Ok Stub.three_docs) (Stub.graded "yes" 1) "yes" "yes")
          Stub.seven_documents []
        = (Raise (ValueError msg), []))
  /\ ((Fixture.batch_sizes 4 (-3)).(hallucination_batch_size) < 0
      /\ grade_hallucination (Fixture.batch_sizes 4 (-3))
           (Stub.constant (Ok Stub.three_docs) (Stub.graded "yes" 1)
              "yes" "yes")
           Stub.seven_documents []
         = (Ok false, []))
  /\ ((GraphService.initial_state "q" [] []).(documents) = []
      /\ grade_hallucination default_settings
           (Stub.constant (Ok Stub.three_docs) (Stub.graded "yes" 1)
              "yes" "yes")
           (GraphService.initial_state "q" [] []) []
         = (Ok false, [])).
Proof.
  split; [| split].
  - split; [discriminate |]. split; [reflexivity |].
    apply (proj1 (proj2 (grade_hallucination_edge_cases _ _ _ _)));
      [discriminate | reflexivity].
  - split; [simpl; lia |].
    apply (proj2 (proj2 (grade_hallucination_edge_cases _ _ _ _))).
    simpl. lia.
  - split; [reflexivity |].
    apply (proj1 (grade_hallucination_edge_cases _ _ _ _)). reflexivity.
Defined.

Lemma grade_documents_without_batches settings env st w :
  (settings.(document_grading_batch_size) = 0 ->
   exists msg,
     grade_documents settings env st w = (Raise (ValueError msg), w))
  /\ (settings.(document_grading_batch_size) < 0 ->
      exists st',
        grade_documents settings env st w = (Ok st', w)
        /\ st'.(documents) = []).
Proof.
  unfold grade_documents, grade_all_docs. split.
  - intros Hsize. unfold bind, clock, lift, range. rewrite Hsize. simpl.
    eexists. reflexivity.
  - intros Hsize. unfold bind, clock, lift.
    rewrite range_negative_step by lia. simpl. unfold ret.
    eexists. split; reflexivity.
Qed.

(** X4: a document grading batch size of zero makes the grading step raise
    [ValueError] before any document is graded, even when there is no
    document; a negative batch size makes it return an empty document list
    without grading anything. *)
Theorem grade_documents_batch_size_edge_cases settings env st w :
  (settings.(document_grading_batch_size) = 0 ->
   exists msg,
     grade_documents settings env st w = (Raise (ValueError msg), w))
  /\ (settings.(document_grading_batch_size) < 0 ->
      exists st',
        grade_documents settings env st w = (Ok st', w)
        /\ st'.(documents) = []).
Proof. apply grade_documents_without_batches. Qed.

Lemma grade_documents_batch_size_edge_cases_witness :
  ((Fixture.batch_sizes 0 3).(document_grading_batch_size) = 0
   /\ exists msg,
        grade_documents (Fixture.batch_sizes 0 3) Stub.mixed_grades
          Stub.retrieved_three []
        = (Raise (ValueError msg), []))
  /\ ((Fixture.batch_sizes (-4) 3).(document_grading_batch_size) < 0
      /\ exists st',
           grade_documents (Fixture.batch_sizes (-4) 3)
             (Stub.constant (Ok Stub.three_docs) (Stub.graded "yes" 1)
                "yes" "yes")
             Stub.retrieved_three []
           = (Ok st', [])
           /\ st'.(documents) = []).
Proof.
  split.
  - split; [reflexivity |].
    apply (proj1 (grade_documents_batch_size_edge_cases _ _ _ _)).
    reflexivity.
  - split; [simpl; lia |].
    apply (proj2 (grade_documents_batch_size_edge_cases _ _ _ _)).
    simpl. lia.
Defined.

(** ** Retries of the document grader *)

Lemma range_attempts n :
  range 0 n 1 = Ok (range_from 0 1 (Z.to_nat n)).
Proof.
  unfold range, range_count. simpl.
  rewrite Z.div_1_r. do 2 f_equal. lia.
Qed.

Lemma grade_with_retries_calls env t0 q content i max_retries attempts :
  forall w,
  exists cs,
    snd (grade_with_retries env t0 q content i max_retries attempts w)
    = (w ++ cs)%list
    /\ (List.length cs <= List.length attempts)%nat.
Proof.
  induction attempts as [| n rest IH]; intros w.
  - exists []. simpl. rewrite app_nil_r. split; [reflexivity | lia].
  - cbn [grade_with_retries]. unfold bind, attempt, perform_at.
    destruct (document_grader_ainvoke env t0 i n q content) as [score | e].
    + exists [DocumentGraderInvoke i n q content]. simpl. split; [reflexivity | lia].
    + assert (Hstop : forall e', 
                 snd (@raise (option GradeDocuments.t) e'
                        (w ++ [DocumentGraderInvoke i n q content])%list)
                 = (w ++ [DocumentGraderInvoke i n q content])%list)
        by reflexivity.
      destruct e;
        try (exists [DocumentGraderInvoke i n q content]; simpl;
             split; [reflexivity | lia]).
      destruct (_ && _)%bool.
      * destruct (IH (w ++ [DocumentGraderInvoke i n q content])%list)
          as (cs & E & L).
        exists (DocumentGraderInvoke i n q content :: cs).
        rewrite E, <- app_assoc. simpl. split; [reflexivity | lia].
      * exists [DocumentGraderInvoke i n q content]. simpl.
        split; [reflexivity | lia].
Qed.

Lemma obtain_score_unfold settings env t0 q content i w :
  obtain_score settings env t0 q content i w
  = match grade_with_retries env t0 q content i
            settings.(document_grading_retry_attempts)
            (range_from 0 1
               (Z.to_nat settings.(document_grading_retry_attempts))) w with
    | (Ok (Some score), w') => (Ok score, w')
    | (Ok None, w') =>
        (Raise (AttributeError
                  "'NoneType' object has no attribute 'binary_score'"), w')
    | (Raise e, w') => (Raise e, w')
    end.
Proof.
  unfold obtain_score, bind, lift. rewrite range_attempts.
  destruct (grade_with_retries _ _ _ _ _ _ _ _) as [[[score |] | e] w'];
    reflexivity.
Qed.

(** X5: how one document is graded.  With no retry attempt configured the
    grader is not called and the grading fails.  A first call that answers
    settles the verdict with one call.  A first call that fails is not
    retried unless the failure is a closed TCP transport and another
    attempt is left; such a failure followed by an answer gives that
    answer, after two calls.  The grader is never called more than
    [document_grading_retry_attempts] times for one document. *)
Theorem grading_retry_protocol settings env t0 q content i w :
  let n := settings.(document_grading_retry_attempts) in
  let call k := DocumentGraderInvoke i k q content in
  let answer k := document_grader_ainvoke env t0 i k q content in
  (n <= 0 ->
   exists msg,
     obtain_score settings env t0 q content i w
     = (Raise (AttributeError msg), w))
  /\ (0 < n -> forall score,
        answer 0 = Ok score ->
        obtain_score settings env t0 q content i w
        = (Ok score, (w ++ [call 0])%list))
  /\ (0 < n -> forall e,
        answer 0 = Raise e ->
        is_tcp_error e = false \/ n = 1 ->
        obtain_score settings env t0 q content i w
        = (Raise e, (w ++ [call 0])%list))
  /\ (1 < n -> forall e score,
        answer 0 = Raise e ->
        is_tcp_error e = true ->
        answer 1 = Ok score ->
        obtain_score settings env t0 q content i w
        = (Ok score, (w ++ [call 0; call 1])%list))
  /\ exists cs,
       snd (obtain_score settings env t0 q content i w) = (w ++ cs)%list
       /\ Z.of_nat (List.length cs) <= Z.max 0 n.
Proof.
  intros n call answer. subst call answer.
  rewrite obtain_score_unfold. fold n.
  split; [| split; [| split; [| split]]].
  - intros Hn. replace (Z.to_nat n) with O by lia. simpl.
    eexists. reflexivity.
  - intros Hn score E.
    destruct (Z.to_nat n) as [| k] eqn:En; [lia |].
    cbn [range_from grade_with_retries].
    unfold bind, attempt, perform_at. rewrite E. reflexivity.
  - intros Hn e E Hno.
    destruct (Z.to_nat n) as [| k] eqn:En; [lia |].
    cbn [range_from grade_with_retries].
    unfold bind, attempt, perform_at. rewrite E.
    destruct e as [msg | msg | msg | msg | msg]; try reflexivity.
    destruct Hno as [Hno | Hone].
    + unfold is_tcp_error in Hno. cbv zeta. rewrite Hno. reflexivity.
    + destruct (Z.ltb_spec 0 (n - 1)) as [Hlt | _]; [lia |].
      cbv zeta. rewrite andb_false_r. reflexivity.
  - intros Hn e score E0 Htcp E1.
    destruct (Z.to_nat n) as [| [| k]] eqn:En; try lia.
    cbn [range_from grade_with_retries].
    unfold bind at 1. unfold attempt at 1. unfold perform_at at 1.
    rewrite E0.
    destruct e as [msg | msg | msg | msg | msg]; try discriminate Htcp.
    unfold is_tcp_error in Htcp. cbv zeta. rewrite Htcp.
    destruct (Z.ltb_spec 0 (n - 1)) as [_ | Hge]; [| lia].
    cbn [andb]. unfold bind, attempt, perform_at.
    change (0 + 1) with 1. rewrite E1. unfold ret.
    rewrite <- app_assoc. reflexivity.
  - destruct (grade_with_retries_calls env t0 q content i n
                (range_from 0 1 (Z.to_nat n)) w) as (cs & E & L).
    exists cs. split.
    + destruct (grade_with_retries env t0 q content i n
                  (range_from 0 1 (Z.to_nat n)) w) as [[[s |] | e] w'];
        simpl in *; exact E.
    + assert (Hlen : forall a c, List.length (range_from a 1 c) = c).
      { intros a c. revert a. induction c; intros a; simpl; congruence. }
      rewrite Hlen in L. lia.
Qed.

Lemma grading_retry_protocol_witness :
  1 < default_settings.(document_grading_retry_attempts)
  /\ is_tcp_error (RuntimeError "TCPTransport closed") = true
  /\ exists score,
       obtain_score default_settings Fixture.flaky_grader 0 "q" "d1" 0 []
       = (Ok score,
          [DocumentGraderInvoke 0 0 "q" "d1"; DocumentGraderInvoke 0 1 "q" "d1"]).
Proof.
  split; [simpl; lia |]. split; [reflexivity |].
  eexists.
  apply (proj1 (proj2 (proj2 (proj2
           (grading_retry_protocol default_settings Fixture.flaky_grader
              0%nat "q" "d1" 0 []))))
           ltac:(simpl; lia)
           (RuntimeError "TCPTransport closed")).
  - reflexivity.
  - reflexivity.
  - reflexivity.
Defined.

(** ** What document grading keeps *)

Lemma subsequence_nil_l {A : Type} (l : list A) : subsequence [] l.
Proof. induction l; constructor; assumption. Qed.

Lemma subsequence_length {A : Type} (l1 l2 : list A) :
  subsequence l1 l2 -> (List.length l1 <= List.length l2)%nat.
Proof. induction 1; simpl; lia. Qed.

Lemma subsequence_In {A : Type} (l1 l2 : list A) :
  subsequence l1 l2 -> forall x, In x l1 -> In x l2.
Proof.
  induction 1 as [| x l1 l2 H IH | x l1 l2 H IH]; intros y Hy.
  - exact Hy.
  - destruct Hy as [-> | Hy]; [left; reflexivity | right; apply IH, Hy].
  - right. apply IH, Hy.
Qed.

Lemma kept_documents_subsequence settings env t0 q docs :
  forall i, subsequence (kept_documents settings env t0 q docs i) docs.
Proof.
  induction docs as [| d rest IH]; intros i; simpl.
  - constructor.
  - destruct (keeps _ _); constructor; apply IH.
Qed.

(** X6: whenever the grading step returns, its document list is the list
    it was given with some documents left out: nothing is added, repeated
    or reordered, whatever the verdicts and the batch size. *)
Theorem grade_documents_only_drops settings env st w st' w' :
  grade_documents settings env st w = (Ok st', w') ->
  subsequence st'.(documents) st.(documents)
  /\ (List.length st'.(documents) <= List.length st.(documents))%nat
  /\ forall doc, In doc st'.(documents) -> In doc st.(documents).
Proof.
  intros H.
  assert (Hsub : subsequence st'.(documents) st.(documents)).
  { destruct (Z.lt_trichotomy settings.(document_grading_batch_size) 0)
      as [Hneg | [Hzero | Hpos]].
    - destruct (proj2 (grade_documents_without_batches settings env
                         st w) Hneg) as (st2 & E & D).
      rewrite E in H. inversion H; subst. rewrite D.
      apply subsequence_nil_l.
    - destruct (proj1 (grade_documents_without_batches settings env
                         st w) Hzero) as (msg & E).
      rewrite E in H. discriminate H.
    - destruct (grade_documents_run settings env st w Hpos)
        as (st2 & cs & E & D).
      rewrite E in H. inversion H; subst. rewrite D.
      apply kept_documents_subsequence. }
  split; [exact Hsub |]. split.
  - apply subsequence_length, Hsub.
  - apply subsequence_In, Hsub.
Qed.

Lemma grade_documents_only_drops_witness :
  exists st' w',
    grade_documents default_settings Stub.mixed_grades Stub.retrieved_three []
    = (Ok st', w')
    /\ subsequence st'.(documents) [Stub.doc "d1"; Stub.doc "d2"; Stub.doc "d3"].
Proof.
  destruct (grade_documents_total default_settings Stub.mixed_grades
              Stub.retrieved_three [] ltac:(discriminate))
    as (st' & w' & E).
  exists st', w'. split; [exact E |].
  exact (proj1 (grade_documents_only_drops _ _ _ _ _ _ E)).
Defined.

(** ** Cost of one hallucination check *)

Lemma range_count_shift start stop step :
  0 < step -> start <= stop ->
  range_count start stop step = range_count 0 (stop - start) step.
Proof.
  intros Hstep Hle. unfold range_count.
  destruct (Z.ltb_spec 0 step); [| lia]. do 2 f_equal. lia.
Qed.

Lemma chunks_length {A : Type} (size : nat) :
  (0 < size)%nat ->
  forall fuel (l : list A),
    (List.length l <= fuel)%nat ->
    List.length (chunks fuel size l)
    = range_count 0 (Z.of_nat (List.length l)) (Z.of_nat size).
Proof.
  intros Hsize. induction fuel as [| fuel IH]; intros l Hl.
  - destruct l; [| simpl in Hl; lia]. simpl.
    rewrite range_count_done by lia. reflexivity.
  - destruct l as [| a l].
    + simpl. rewrite range_count_done by lia. reflexivity.
    + cbn [chunks].
      change (List.length
                (firstn size (a :: l) :: chunks fuel size (skipn size (a :: l))))
        with (S (List.length (chunks fuel size (skipn size (a :: l))))).
      rewrite IH by (rewrite length_skipn; cbn [List.length] in *; lia).
      rewrite (range_count_step 0 (Z.of_nat (List.length (a :: l))))
        by (cbn [List.length]; lia).
      cbn [List.length]. f_equal. rewrite length_skipn.
      destruct (Nat.le_gt_cases size (List.length (a :: l))) as [Hge | Hlt];
        cbn [List.length] in *.
      * rewrite (range_count_shift (0 + Z.of_nat size)) by lia.
        f_equal. lia.
      * rewrite (range_count_done (0 + Z.of_nat size)) by lia.
        replace (S (List.length l) - size)%nat with O by lia.
        rewrite range_count_done by lia. reflexivity.
Qed.

(** X7: with a positive batch size, one hallucination check of [n]
    documents makes at most [ceil(n / hallucination_batch_size)] model
    calls, every one of them about the generation under test, and it never
    answers grounded without a call. *)
Theorem hallucination_call_bound settings env st w :
  0 < settings.(hallucination_batch_size) ->
  exists is_grounded cs,
    grade_hallucination settings env st w = (Ok is_grounded, (w ++ cs)%list)
    /\ Z.of_nat (List.length cs)
       <= (Z.of_nat (List.length st.(documents))
           + settings.(hallucination_batch_size) - 1)
          / settings.(hallucination_batch_size)
    /\ Forall (fun c => exists docs,
                 c = HallucinationGraderInvoke docs st.(generation)) cs
    /\ (is_grounded = true -> cs <> []).
Proof.
  intros Hsize.
  pose proof (grade_hallucination_run settings env st w Hsize) as Hrun.
  cbv zeta in Hrun.
  set (batches := batches_of settings.(hallucination_batch_size)
                    st.(documents)) in *.
  pose proof (check_batches_spec env st.(generation) batches (List.length w))
    as Hspec.
  destruct (check_batches env st.(generation) (List.length w) batches)
    as [r k].
  cbn [fst snd] in Hrun.
  assert (Hk : (k <= List.length batches)%nat).
  { destruct r.
    - destruct Hspec as (i & -> & Hi & _). lia.
    - destruct Hspec as (-> & _). lia. }
  assert (Hlen : List.length batches
                 = range_count 0 (Z.of_nat (List.length st.(documents)))
                     settings.(hallucination_batch_size)).
  { subst batches. unfold batches_of.
    rewrite (chunks_length (Z.to_nat settings.(hallucination_batch_size)))
      by lia.
    rewrite Z2Nat.id by lia. reflexivity. }
  exists r, (map (hallucination_call st.(generation)) (firstn k batches)).
  split; [exact Hrun |]. split; [| split].
  - rewrite length_map, length_firstn.
    unfold range_count in Hlen.
    destruct (Z.ltb_spec 0 settings.(hallucination_batch_size)); [| lia].
    rewrite Z.sub_0_r in Hlen.
    assert (0 <= (Z.of_nat (List.length st.(documents))
                  + settings.(hallucination_batch_size) - 1)
                 / settings.(hallucination_batch_size))
      by (apply Z.div_pos; lia).
    lia.
  - apply Forall_forall. intros c Hc. apply in_map_iff in Hc.
    destruct Hc as (b & <- & _). eexists. reflexivity.
  - intros ->. destruct Hspec as (i & -> & Hi & _).
    destruct batches as [| b rest]; [simpl in Hi; lia |]. discriminate.
Qed.

Lemma hallucination_call_bound_witness :
  0 < default_settings.(hallucination_batch_size)
  /\ exists is_grounded cs,
       grade_hallucination default_settings
         (Stub.constant (Ok Stub.three_docs) (Stub.graded "yes" 1) "no" "no")
         Stub.seven_documents []
       = (Ok is_grounded, cs)
       /\ Z.of_nat (List.length cs) <= 3.
Proof.
  split; [simpl; lia |].
  destruct (hallucination_call_bound default_settings
              (Stub.constant (Ok Stub.three_docs) (Stub.graded "yes" 1)
                 "no" "no")
              Stub.seven_documents [] ltac:(simpl; lia))
    as (r & cs & E & L & _).
  exists r, cs. split; [exact E | exact L].
Defined.

(** ** Temperature on regeneration *)

Lemma dict_get_set_same {V : Type} (d : dict V) k v default :
  dict_get (dict_set d k v) k default = v.
Proof.
  induction d as [| [k' v'] rest IH]; simpl.
  - rewrite String.eqb_refl. reflexivity.
  - destruct (String.eqb k k') eqn:E; simpl; rewrite E; [reflexivity | exact IH].
Qed.

Lemma dict_get_set_other {V : Type} (d : dict V) k k2 v default :
  k2 <> k ->
  dict_get (dict_set d k v) k2 default = dict_get d k2 default.
Proof.
  intros Hne. induction d as [| [k' v'] rest IH]; simpl.
  - destruct (String.eqb_spec k2 k); [contradiction | reflexivity].
  - destruct (String.eqb_spec k k') as [-> | Hk]; simpl.
    + destruct (String.eqb_spec k2 k'); [contradiction | reflexivity].
    + destruct (String.eqb k2 k'); [reflexivity | exact IH].
Qed.

Lemma py_min_le a :
  float_lt (float_of_Z 1) (py_min a (float_of_Z 1)) = false.
Proof.
  unfold py_min.
  destruct (float_lt (float_of_Z 1) a) eqn:E; [reflexivity | exact E].
Qed.

(** X8: the configuration that [generate] passes to the model is the one
    it stores in the state.  On the first attempt, or with retry variation
    switched off, it is the configuration of the incoming state,
    unchanged.  On a later attempt with retry variation on, only the
    temperature entry changes: it becomes
    [min(t + (generation_attempts - 1) * retry_temperature_increment, 1.0)]
    for the stored temperature [t], computed in binary64 floating point
    as Python does (0.7 becomes 0.7999999999999999 on the second attempt
    with the default increment 0.1), so it is never greater than 1. *)
Theorem generate_temperature settings env st w st' w' :
  generate settings env st w = (Ok st', w') ->
  let attempts := st.(generation_attempts) + 1 in
  w' = (w ++ [AnswerGeneratorInvoke st'.(model_config)
                (format_docs st.(documents)) st.(original_question)])%list
  /\ (attempts <= 1 \/ settings.(enable_retry_variation) = false ->
      st'.(model_config) = st.(model_config))
  /\ (1 < attempts -> settings.(enable_retry_variation) = true ->
      exists factor,
        float_of_int (attempts - 1) = Ok factor
        /\ temperature st'.(model_config)
           = py_min
               (float_add (temperature st.(model_config))
                  (float_mul factor
                     settings.(retry_temperature_increment)))
               (float_of_Z 1)
        /\ float_lt (float_of_Z 1) (temperature st'.(model_config)) = false
        /\ forall k default,
             k <> "temperature" ->
             dict_get st'.(model_config) k default
             = dict_get st.(model_config) k default).
Proof.
  intros H attempts. apply generate_Ok in H.
  destruct H as (cfg & gen & Hcfg & _ & -> & ->).
  cbn [model_config]. unfold retry_model_config in Hcfg. fold attempts in Hcfg.
  split; [reflexivity |]. split.
  - intros [Hle | Hoff].
    + destruct (Z.ltb_spec 1 attempts); [lia |].
      cbn [andb] in Hcfg. congruence.
    + rewrite Hoff, andb_false_r in Hcfg. congruence.
  - intros Hlt Hon.
    destruct (Z.ltb_spec 1 attempts); [| lia].
    rewrite Hon in Hcfg. cbn [andb] in Hcfg.
    destruct (float_of_int (attempts - 1)) as [factor | e];
      [| discriminate Hcfg].
    injection Hcfg as <-. exists factor.
    split; [reflexivity |].
    split.
    { unfold temperature at 1. rewrite dict_get_set_same. reflexivity. }
    split.
    { unfold temperature. rewrite dict_get_set_same.
      exact (py_min_le _). }
    intros k default Hk. apply dict_get_set_other. exact Hk.
Qed.

Lemma generate_temperature_witness :
  exists st' w',
    generate default_settings
      (Stub.constant (Ok Stub.three_docs) (Stub.graded "yes" 1) "no" "no")
      (Fixture.second_attempt (float_lit 7 10)) [] = (Ok st', w')
    /\ 1 < (Fixture.second_attempt (float_lit 7 10)).(generation_attempts)
          + 1
    /\ default_settings.(enable_retry_variation) = true
    /\ temperature st'.(model_config)
       = float_lit 7999999999999999 10000000000000000
    /\ float_lt (float_of_Z 1) (temperature st'.(model_config)) = false
    /\ dict_get st'.(model_config) "top_p" (float_of_Z 0) = float_lit 9 10.
Proof.
  eexists. eexists. split; [vm_compute; reflexivity |].
  split; [simpl; lia |]. split; [reflexivity |].
  destruct (generate_temperature default_settings
              (Stub.constant (Ok Stub.three_docs) (Stub.graded "yes" 1)
                 "no" "no")
              (Fixture.second_attempt (float_lit 7 10)) [] _ _ eq_refl)
    as (_ & _ & Hretry).
  destruct (Hretry ltac:(simpl; lia) eq_refl)
    as (factor & Hf & Ht & Hle & Hother).
  split; [reflexivity |]. split; [exact Hle |].
  rewrite Hother by discriminate. reflexivity.
Defined.

(** ** Budgets and counters along a run *)

Lemma occurrences_cons n m tr :
  occurrences n (m :: tr)
  = (if Node_eq_dec m n then 1 else 0) + occurrences n tr.
Proof.
  unfold occurrences. cbn [count_occ].
  destruct (Node_eq_dec m n); lia.
Qed.

Lemma step_count_cons m tr :
  step_count (m :: tr) = (if counts_as_step m then 1 else 0) + step_count tr.
Proof.
  unfold step_count. cbn [filter].
  destruct (counts_as_step m); cbn [List.length]; lia.
Qed.

Lemma run_from_transform_bound settings env :
  forall steps n st w,
    may_run settings n st ->
    occurrences transform_query_n (run_from settings env steps n st w).(trace)
    <= transforms_left settings st.
Proof.
  induction steps as [| steps IH]; intros n st w Hmay.
  - simpl. unfold occurrences, transforms_left. simpl. lia.
  - rewrite run_from_S.
    destruct (node_fn settings env n st w) as [[st1 | e] w1] eqn:Hnode.
    2:{ unfold occurrences, transforms_left. simpl. lia. }
    pose proof (node_fn_post _ _ _ _ _ _ _ Hnode) as P.
    assert (Hone : (if Node_eq_dec n transform_query_n then 1 else 0)
                   + transforms_left settings st1
                   <= transforms_left settings st).
    { unfold transforms_left. rewrite (post_transform_attempts _ _ _ P).
      destruct (Node_eq_dec n transform_query_n) as [-> | Hn].
      - specialize (Hmay eq_refl). lia.
      - destruct n; try contradiction; lia. }
    destruct (edge settings env n st1 w1) as [[[n' |] | e] w2] eqn:Hedge;
      cbn [trace].
    + destruct (edge_decreases _ _ _ _ _ _ _ _ _ Hmay Hnode Hedge)
        as [Hmay' _].
      specialize (IH n' st1 w2 Hmay'). rewrite occurrences_cons. lia.
    + rewrite occurrences_cons.
      change (occurrences transform_query_n []) with 0.
      unfold transforms_left in *. lia.
    + unfold occurrences, transforms_left. simpl. lia.
Qed.

Lemma edge_generation_budget settings env n st w st1 w1 n' w2 :
  node_fn settings env n st w = (Ok st1, w1) ->
  edge settings env n st1 w1 = (Ok (To n'), w2) ->
  (if Node_eq_dec n generate_n then 1 else 0)
  + generation_budget settings n' st1
  <= generation_budget settings n st.
Proof.
  intros Hnode Hedge.
  pose proof (node_fn_post _ _ _ _ _ _ _ Hnode) as P.
  pose proof (post_generation_attempts _ _ _ P) as Hga.
  unfold generation_budget, generations_left.
  destruct (Node_eq_dec n generate_n) as [-> | Hn].
  - cbn [edge] in Hedge. bind_inv Hedge.
    pose proof (grade_generation_inv _ _ _ _ _ _ Hm) as Hinv.
    destruct a; ret_inv Hk; inversion E; subst.
    + destruct Hinv as (Hlim & _).
      apply check_iteration_limits_false in Hlim. lia.
    + destruct Hinv as (Hlim & _).
      apply check_iteration_limits_false in Hlim. lia.
    + lia.
  - destruct n; try contradiction; cbn [edge] in Hedge.
    + ret_inv Hedge. inversion E; subst. lia.
    + destruct (decide_to_generate settings st1); ret_inv Hedge;
        inversion E; subst; lia.
    + ret_inv Hedge. inversion E; subst. lia.
    + ret_inv Hedge. discriminate E.
    + ret_inv Hedge. discriminate E.
Qed.

Lemma edge_END_after_fallback settings env n st w :
  n = fallback_n \/ n = no_docs_fallback_n ->
  exists w', edge settings env n st w = (Ok END, w').
Proof. intros [-> | ->]; simpl; unfold ret; eauto. Qed.

Lemma run_from_generation_bound settings env :
  forall steps n st w,
    occurrences generate_n (run_from settings env steps n st w).(trace)
    <= generation_budget settings n st.
Proof.
  induction steps as [| steps IH]; intros n st w.
  - simpl. unfold occurrences, generation_budget, generations_left. simpl.
    destruct n; lia.
  - rewrite run_from_S.
    assert (Hnonneg : 0 <= generation_budget settings n st).
    { unfold generation_budget, generations_left. destruct n; lia. }
    destruct (node_fn settings env n st w) as [[st1 | e] w1] eqn:Hnode.
    2:{ unfold occurrences. simpl. lia. }
    destruct (edge settings env n st1 w1) as [[[n' |] | e] w2] eqn:Hedge;
      cbn [trace].
    + pose proof (edge_generation_budget _ _ _ _ _ _ _ _ _ Hnode Hedge).
      specialize (IH n' st1 w2). rewrite occurrences_cons. lia.
    + rewrite occurrences_cons.
      change (occurrences generate_n []) with 0.
      destruct (Node_eq_dec n generate_n) as [-> | Hn]; [| lia].
      unfold generation_budget, generations_left. lia.
    + unfold occurrences. simpl. lia.
Qed.

Lemma started_from_S settings env steps n st w :
  started_from settings env (S steps) n st w
  = n :: match node_fn settings env n st w with
         | (Ok st1, w1) =>
             match edge settings env n st1 w1 with
             | (Ok (To n'), w2) => started_from settings env steps n' st1 w2
             | _ => []
             end
         | (Raise _, _) => []
         end.
Proof. reflexivity. Qed.

Lemma started_from_transform_bound settings env :
  forall steps n st w,
    may_run settings n st ->
    occurrences transform_query_n (started_from settings env steps n st w)
    <= transforms_left settings st.
Proof.
  induction steps as [| steps IH]; intros n st w Hmay.
  - simpl. unfold occurrences, transforms_left. simpl. lia.
  - rewrite started_from_S, occurrences_cons.
    assert (Hself : (if Node_eq_dec n transform_query_n then 1 else 0)
                    <= transforms_left settings st).
    { unfold transforms_left.
      destruct (Node_eq_dec n transform_query_n) as [-> | Hn]; [| lia].
      specialize (Hmay eq_refl). lia. }
    destruct (node_fn settings env n st w) as [[st1 | e] w1] eqn:Hnode.
    2:{ change (occurrences transform_query_n []) with 0. lia. }
    pose proof (node_fn_post _ _ _ _ _ _ _ Hnode) as P.
    assert (Hone : (if Node_eq_dec n transform_query_n then 1 else 0)
                   + transforms_left settings st1
                   <= transforms_left settings st).
    { unfold transforms_left. rewrite (post_transform_attempts _ _ _ P).
      destruct (Node_eq_dec n transform_query_n) as [-> | Hn].
      - specialize (Hmay eq_refl). lia.
      - destruct n; try contradiction; lia. }
    destruct (edge settings env n st1 w1) as [[[n' |] | e] w2] eqn:Hedge.
    + destruct (edge_decreases _ _ _ _ _ _ _ _ _ Hmay Hnode Hedge)
        as [Hmay' _].
      specialize (IH n' st1 w2 Hmay'). lia.
    + change (occurrences transform_query_n []) with 0. lia.
    + change (occurrences transform_query_n []) with 0. lia.
Qed.

(** Only a node that may generate is ever started with the generator's
    name: the name [generate_n] is reached through an edge. *)
Lemma started_from_generation_bound settings env :
  forall steps n st w,
    occurrences generate_n (started_from settings env steps n st w)
    <= match n with
       | fallback_n | no_docs_fallback_n => 0
       | _ => generations_left settings st
       end.
Proof.
  induction steps as [| steps IH]; intros n st w.
  - simpl. unfold occurrences, generations_left. simpl. destruct n; lia.
  - rewrite started_from_S, occurrences_cons.
    fold (generation_budget settings n st).
    assert (Hself : (if Node_eq_dec n generate_n then 1 else 0)
                    <= generation_budget settings n st).
    { unfold generation_budget, generations_left.
      destruct (Node_eq_dec n generate_n) as [-> | Hn]; [lia |].
      destruct n; lia. }
    destruct (node_fn settings env n st w) as [[st1 | e] w1] eqn:Hnode.
    2:{ change (occurrences generate_n []) with 0. lia. }
    destruct (edge settings env n st1 w1) as [[[n' |] | e] w2] eqn:Hedge.
    + pose proof (edge_generation_budget _ _ _ _ _ _ _ _ _ Hnode Hedge).
      specialize (IH n' st1 w2). fold (generation_budget settings n' st1) in IH.
      lia.
    + change (occurrences generate_n []) with 0. lia.
    + change (occurrences generate_n []) with 0. lia.
Qed.

(** The trace is what was started, without the node that raised. *)
Lemma started_from_trace settings env :
  forall steps n st w,
    let x := run_from settings env steps n st w in
    exists rest,
      started_from settings env steps n st w = (x.(trace) ++ rest)%list
      /\ match x.(ending) with
         | Raised _ => exists failed, rest = [failed]
         | _ => rest = []
         end.
Proof.
  induction steps as [| steps IH]; intros n st w; cbv zeta.
  - exists []. split; reflexivity.
  - rewrite started_from_S, run_from_S.
    destruct (node_fn settings env n st w) as [[st1 | e] w1] eqn:Hnode.
    2:{ exists [n]. cbn [trace ending]. split; [reflexivity | eauto]. }
    destruct (edge settings env n st1 w1) as [[[n' |] | e] w2] eqn:Hedge.
    + destruct (IH n' st1 w2) as (rest & E & Hrest).
      exists rest. cbn [trace ending]. rewrite E. split; [reflexivity |].
      exact Hrest.
    + exists []. cbn [trace ending]. split; reflexivity.
    + exists [n]. cbn [trace ending]. split; [reflexivity | eauto].
Qed.

(** X9: the budgets limit the work of every run, whatever the
    collaborators answer and however the run ends (at [END], by an
    exception of a node or of an edge function, or at the step limit):
    the rewriter node is started at most [max(0, max_transform_retries)]
    times and the generator node at most [max(1, max_generation_retries)]
    times.  This counts the node whose function or outgoing edge raised,
    which the trace of the run does not list; the trace, a prefix of the
    started nodes, obeys the same bounds. *)
Theorem budgets_limit_rewrites_and_generations settings env steps q cfg ids :
  let x := GraphService.stream settings env steps q cfg ids in
  let runs := started settings env steps q cfg ids in
  occurrences transform_query_n runs
  <= Z.max 0 settings.(max_transform_retries)
  /\ occurrences generate_n runs
     <= Z.max 1 settings.(max_generation_retries)
  /\ (exists rest,
        runs = (x.(trace) ++ rest)%list
        /\ match x.(ending) with
           | Raised _ => exists failed, rest = [failed]
           | _ => rest = []
           end)
  /\ occurrences transform_query_n x.(trace)
     <= Z.max 0 settings.(max_transform_retries)
  /\ occurrences generate_n x.(trace)
     <= Z.max 1 settings.(max_generation_retries).
Proof.
  cbv zeta. unfold GraphService.stream, started.
  split; [| split; [| split; [| split]]].
  - pose proof (started_from_transform_bound settings env steps retrieve_n
                  (GraphService.initial_state q cfg ids) []
                  ltac:(unfold may_run; discriminate)) as H.
    unfold transforms_left in H. simpl in H. rewrite Z.sub_0_r in H. exact H.
  - pose proof (started_from_generation_bound settings env steps retrieve_n
                  (GraphService.initial_state q cfg ids) []) as H.
    unfold generations_left in H. simpl in H.
    rewrite Z.sub_0_r in H. exact H.
  - apply started_from_trace.
  - pose proof (run_from_transform_bound settings env steps retrieve_n
                  (GraphService.initial_state q cfg ids) []
                  ltac:(unfold may_run; discriminate)) as H.
    unfold transforms_left in H. simpl in H. rewrite Z.sub_0_r in H. exact H.
  - pose proof (run_from_generation_bound settings env steps retrieve_n
                  (GraphService.initial_state q cfg ids) []) as H.
    unfold generation_budget, generations_left in H. simpl in H.
    rewrite Z.sub_0_r in H. exact H.
Qed.

Lemma budgets_limit_rewrites_and_generations_witness :
  let x := GraphService.stream default_settings Outage.no_generator 19
             "q" [] [] in
  let runs := started default_settings Outage.no_generator 19 "q" [] [] in
  x.(trace) = [retrieve_n; grade_documents_n]
  /\ x.(ending) = Raised (RuntimeError "connection refused")
  /\ runs = [retrieve_n; grade_documents_n; generate_n]
  /\ occurrences generate_n runs <= 2.
Proof.
  split; [vm_compute; reflexivity |]. split; [vm_compute; reflexivity |].
  split; [vm_compute; reflexivity |].
  exact (proj1 (proj2 (budgets_limit_rewrites_and_generations
                         default_settings Outage.no_generator 19
                         "q" [] []))).
Defined.

Lemma occurrences_nonneg n tr : 0 <= occurrences n tr.
Proof. unfold occurrences. lia. Qed.

Lemma run_from_accounting settings env :
  forall steps n st w final,
    (run_from settings env steps n st w).(ending) = Ended final ->
    let tr := (run_from settings env steps n st w).(trace) in
    final.(total_iterations) = st.(total_iterations) + step_count tr
    /\ final.(transform_attempts)
       = st.(transform_attempts) + occurrences transform_query_n tr
    /\ final.(generation_attempts)
       = (if 0 <? occurrences no_docs_fallback_n tr then 1
          else st.(generation_attempts) + occurrences generate_n tr).
Proof.
  induction steps as [| steps IH]; intros n st w final.
  - simpl. discriminate.
  - rewrite run_from_S.
    destruct (node_fn settings env n st w) as [[st1 | e] w1] eqn:Hnode;
      [| simpl; discriminate].
    pose proof (node_fn_post _ _ _ _ _ _ _ Hnode) as P.
    pose proof (post_total_iterations _ _ _ P) as Hti.
    pose proof (post_transform_attempts _ _ _ P) as Hta.
    pose proof (post_generation_attempts _ _ _ P) as Hga.
    destruct (edge settings env n st1 w1) as [[[n' |] | e] w2] eqn:Hedge;
      cbn [ending trace]; intros H; cbv zeta.
    + destruct (IH n' st1 w2 final H) as (Iti & Ita & Iga).
      cbv zeta in Iti, Ita, Iga.
      rewrite step_count_cons, !occurrences_cons, Iti, Ita, Iga, Hti, Hta.
      pose proof (occurrences_nonneg no_docs_fallback_n
                    (run_from settings env steps n' st1 w2).(trace)) as Hnn.
      assert (Hnot : n <> no_docs_fallback_n).
      { intros ->. simpl in Hedge. ret_inv Hedge. discriminate E. }
      destruct (Node_eq_dec n no_docs_fallback_n); [contradiction |].
      rewrite Z.add_0_l.
      repeat split.
      * destruct n; cbn [counts_as_step]; lia.
      * destruct (Node_eq_dec n transform_query_n) as [-> | Hn]; [lia |].
        destruct n; try contradiction; lia.
      * destruct (0 <? _); [reflexivity |].
        rewrite Hga.
        destruct (Node_eq_dec n generate_n) as [-> | Hn]; [lia |].
        destruct n; try contradiction; lia.
    + inversion H; subst.
      rewrite step_count_cons, !occurrences_cons.
      change (step_count []) with 0.
      change (occurrences transform_query_n []) with 0.
      change (occurrences generate_n []) with 0.
      change (occurrences no_docs_fallback_n []) with 0.
      rewrite Hti, Hta, Hga.
      destruct (edge_END _ _ _ _ _ _ Hedge) as [-> | [-> | ->]];
        vm_compute (Node_eq_dec _ _); cbn [counts_as_step];
        rewrite ?Z.add_0_r; change (0 <? 0 + 0) with false;
        change (0 <? 1 + 0) with true; cbv iota;
        repeat split; lia.
    + discriminate H.
Qed.

(** X10: the iteration metrics of a finished run report what was executed.
    [total_iterations] is the number of executed nodes other than
    [fallback]; [transform_attempts] is the number of executions of the
    rewriter; [generation_attempts] is the number of executions of the
    generator, except on the no-documents path, where it is 1 whatever
    was generated before. *)
Theorem iteration_metrics_count_the_trace settings env steps q cfg ids final :
  (GraphService.stream settings env steps q cfg ids).(ending) = Ended final ->
  let tr := (GraphService.stream settings env steps q cfg ids).(trace) in
  final.(total_iterations) = step_count tr
  /\ final.(transform_attempts) = occurrences transform_query_n tr
  /\ final.(generation_attempts)
     = (if 0 <? occurrences no_docs_fallback_n tr then 1
        else occurrences generate_n tr).
Proof.
  unfold GraphService.stream. intros H.
  destruct (run_from_accounting _ _ _ _ _ _ _ H) as (Hti & Hta & Hga).
  cbv zeta in *. simpl in Hti, Hta, Hga.
  repeat split; assumption.
Qed.

Lemma iteration_metrics_count_the_trace_witness :
  exists final,
    (GraphService.stream (Stub.budgets 3 1 15)
       (Fixture.lost_after_rewrite "yes" "no") 20 "q" [] []).(ending)
    = Ended final
    /\ (GraphService.stream (Stub.budgets 3 1 15)
          (Fixture.lost_after_rewrite "yes" "no") 20 "q" [] []).(trace)
       = [retrieve_n; grade_documents_n; generate_n; transform_query_n;
          retrieve_n; grade_documents_n; no_docs_fallback_n]
    /\ final.(total_iterations) = 7
    /\ final.(transform_attempts) = 1
    /\ final.(generation_attempts) = 1.
Proof.
  destruct (ending (GraphService.stream (Stub.budgets 3 1 15)
                      (Fixture.lost_after_rewrite "yes" "no") 20 "q" [] []))
    as [final | e |] eqn:E;
    [| vm_compute in E; discriminate E | vm_compute in E; discriminate E].
  exists final. split; [reflexivity |].
  destruct (iteration_metrics_count_the_trace _ _ _ _ _ _ _ E)
    as (Hti & Hta & Hga).
  cbv zeta in Hti, Hta, Hga.
  assert (Htr : (GraphService.stream (Stub.budgets 3 1 15)
                   (Fixture.lost_after_rewrite "yes" "no") 20 "q" [] []).(trace)
                = [retrieve_n; grade_documents_n; generate_n;
                   transform_query_n; retrieve_n; grade_documents_n;
                   no_docs_fallback_n]) by (vm_compute; reflexivity).
  rewrite Htr in Hti, Hta, Hga.
  split; [exact Htr |]. repeat split; assumption.
Defined.

(** ** Call discipline *)

Lemma logs_ret {A : Type} (P : Call -> Prop) (a : A) : logs P (ret a).
Proof. intros w. exists []. rewrite app_nil_r. split; [reflexivity | constructor]. Qed.

Lemma logs_raise {A : Type} (P : Call -> Prop) (e : exn) : logs P (@raise A e).
Proof. intros w. exists []. rewrite app_nil_r. split; [reflexivity | constructor]. Qed.

Lemma logs_lift {A : Type} (P : Call -> Prop) (r : outcome A) : logs P (lift r).
Proof. intros w. exists []. rewrite app_nil_r. split; [reflexivity | constructor]. Qed.

Lemma logs_clock (P : Call -> Prop) : logs P clock.
Proof. intros w. exists []. rewrite app_nil_r. split; [reflexivity | constructor]. Qed.

Lemma logs_perform {A : Type} (P : Call -> Prop) c (oracle : nat -> outcome A) :
  P c -> logs P (perform c oracle).
Proof.
  intros Hc w. exists [c]. split; [reflexivity |].
  constructor; [exact Hc | constructor].
Qed.

Lemma logs_perform_at {A : Type} (P : Call -> Prop) c (r : outcome A) :
  P c -> logs P (perform_at c r).
Proof.
  intros Hc w. exists [c]. split; [reflexivity |].
  constructor; [exact Hc | constructor].
Qed.

Lemma logs_bind {A B : Type} (P : Call -> Prop) (m : M A) (k : A -> M B) :
  logs P m -> (forall a, logs P (k a)) -> logs P (bind m k).
Proof.
  intros Hm Hk w. unfold bind.
  destruct (Hm w) as (cs1 & E1 & F1).
  destruct (m w) as [[a | e] w1]; simpl in E1; subst w1.
  - destruct (Hk a (w ++ cs1)%list) as (cs2 & E2 & F2).
    exists (cs1 ++ cs2)%list. rewrite E2, app_assoc.
    split; [reflexivity | apply Forall_app; split; assumption].
  - exists cs1. split; [reflexivity | exact F1].
Qed.

Lemma logs_try_except {A : Type} (P : Call -> Prop) (m : M A)
    (h : exn -> M A) :
  logs P m -> (forall e, logs P (h e)) -> logs P (try_except m h).
Proof.
  intros Hm Hh w. unfold try_except.
  destruct (Hm w) as (cs1 & E1 & F1).
  destruct (m w) as [[a | e] w1]; simpl in E1; subst w1.
  - exists cs1. split; [reflexivity | exact F1].
  - destruct (Hh e (w ++ cs1)%list) as (cs2 & E2 & F2).
    exists (cs1 ++ cs2)%list. rewrite E2, app_assoc.
    split; [reflexivity | apply Forall_app; split; assumption].
Qed.

Lemma logs_attempt {A : Type} (P : Call -> Prop) (m : M A) :
  logs P m -> logs P (attempt m).
Proof.
  intros Hm w. unfold attempt.
  destruct (Hm w) as (cs & E & F).
  destruct (m w) as [r w1]. simpl in *. exists cs. split; assumption.
Qed.

Lemma logs_weaken {A : Type} (P Q : Call -> Prop) (m : M A) :
  (forall c, P c -> Q c) -> logs P m -> logs Q m.
Proof.
  intros HPQ Hm w. destruct (Hm w) as (cs & E & F).
  exists cs. split; [exact E |].
  eapply Forall_impl; [exact HPQ | exact F].
Qed.

Lemma logs_retrieve_from_collections env query ids0 ids :
  incl ids ids0 ->
  forall all_documents,
    logs (fun c => exists coll_id,
            In coll_id ids0 /\ c = CollectionRetrieverInvoke coll_id query)
      (retrieve_from_collections env query ids all_documents).
Proof.
  induction ids as [| coll_id rest IH]; intros Hincl all_documents.
  - apply logs_ret.
  - cbn [retrieve_from_collections]. apply logs_bind.
    + apply logs_try_except.
      * apply logs_bind; [| intros; apply logs_ret].
        apply logs_perform. exists coll_id. split; [| reflexivity].
        apply Hincl. left. reflexivity.
      * intros e. apply logs_ret.
    + intros all'. apply IH. intros x Hx. apply Hincl. right. exact Hx.
Qed.

Lemma logs_retrieve env st :
  logs (node_call retrieve_n st) (retrieve env st).
Proof.
  unfold retrieve. apply logs_try_except.
  - apply logs_bind; [| intros; apply logs_ret].
    destruct st.(collection_ids) as [| coll_id rest] eqn:Eids.
    + apply logs_perform. simpl. split; [reflexivity | exact Eids].
    + apply logs_bind; [| intros; apply logs_ret].
      eapply logs_weaken;
        [| apply (logs_retrieve_from_collections env st.(question)
                    (coll_id :: rest) (coll_id :: rest) (incl_refl _))].
      intros c (id & Hin & ->). simpl. rewrite Eids.
      split; [reflexivity | exact Hin].
  - intros e. destruct e; apply logs_ret.
Qed.

Lemma logs_grade_with_retries P env t0 q content i max_retries attempts :
  (forall n, P (DocumentGraderInvoke i n q content)) ->
  logs P (grade_with_retries env t0 q content i max_retries attempts).
Proof.
  intros HP. induction attempts as [| n rest IH]; cbn [grade_with_retries].
  - apply logs_ret.
  - apply logs_bind.
    + apply logs_attempt, logs_perform_at, HP.
    + intros [score | e]; [apply logs_ret |].
      destruct e; try apply logs_raise.
      destruct (_ && _)%bool; [exact IH | apply logs_raise].
Qed.

Lemma logs_grade_single_doc P settings env t0 q doc i :
  (forall k n, P (DocumentGraderInvoke k n q doc.(page_content))) ->
  logs P (grade_single_doc settings env t0 q doc i).
Proof.
  intros HP. unfold grade_single_doc. apply logs_try_except.
  - apply logs_bind.
    + unfold obtain_score. apply logs_bind; [apply logs_lift |].
      intros attempts. apply logs_bind.
      * apply logs_grade_with_retries. intros n. apply HP.
      * intros [score |]; [apply logs_ret | apply logs_raise].
    + intros score. destruct (is_relevant_grade _ _ _); apply logs_ret.
  - intros e. apply logs_ret.
Qed.

Lemma logs_grade_batch P settings env t0 q batch_docs :
  (forall doc k n, In doc batch_docs ->
     P (DocumentGraderInvoke k n q doc.(page_content))) ->
  forall i, logs P (grade_batch settings env t0 q batch_docs i).
Proof.
  induction batch_docs as [| doc rest IH]; intros HP i; cbn [grade_batch].
  - apply logs_ret.
  - apply logs_bind.
    + apply logs_grade_single_doc. intros k n. apply HP. left. reflexivity.
    + intros r. apply logs_bind; [| intros; apply logs_ret].
      apply IH. intros d k n Hd. apply HP. right. exact Hd.
Qed.

Lemma In_slice {A : Type} (l : list A) a b x : In x (slice l a b) -> In x l.
Proof.
  unfold slice. intros H.
  rewrite <- (firstn_skipn (Z.to_nat a) l). apply in_or_app. right.
  rewrite <- (firstn_skipn (Z.to_nat b - Z.to_nat a) (skipn (Z.to_nat a) l)).
  apply in_or_app. left. exact H.
Qed.

Lemma logs_grade_batches P settings env t0 q full size starts :
  (forall doc k n, In doc full ->
     P (DocumentGraderInvoke k n q doc.(page_content))) ->
  forall acc, logs P (grade_batches settings env t0 q full size starts acc).
Proof.
  intros HP. induction starts as [| s rest IH]; intros acc;
    cbn [grade_batches].
  - apply logs_ret.
  - apply logs_bind.
    + apply logs_grade_batch. intros doc k n Hd. apply HP.
      eapply In_slice. exact Hd.
    + intros rs. apply IH.
Qed.

Lemma logs_grade_documents settings env st :
  logs (node_call grade_documents_n st) (grade_documents settings env st).
Proof.
  unfold grade_documents. apply logs_bind; [| intros; apply logs_ret].
  unfold grade_all_docs. apply logs_bind; [apply logs_clock |]. intros t0.
  apply logs_bind; [apply logs_lift |]. intros starts.
  apply logs_grade_batches. intros doc k n Hd. simpl.
  split; [reflexivity |]. exists doc. split; [exact Hd | reflexivity].
Qed.

Lemma logs_hallucination_batches settings env docs gen total starts :
  logs (fun c => exists d, c = HallucinationGraderInvoke d gen)
    (hallucination_batches settings env docs gen total starts).
Proof.
  induction starts as [| s rest IH]; cbn [hallucination_batches].
  - apply logs_ret.
  - destruct (slice docs s _); [exact IH |].
    apply logs_bind.
    + apply logs_attempt, logs_perform. eexists. reflexivity.
    + intros [score | e]; [| exact IH].
      destruct (String.eqb _ _); [apply logs_ret | exact IH].
Qed.

Lemma logs_grade_hallucination settings env st :
  logs (edge_call generate_n st) (grade_hallucination settings env st).
Proof.
  unfold grade_hallucination.
  destruct st.(documents) as [| d docs]; [apply logs_ret |].
  apply logs_bind; [apply logs_lift |]. intros starts.
  eapply logs_weaken; [| apply logs_hallucination_batches].
  intros c (ds & ->). reflexivity.
Qed.

Lemma logs_answer_grader env st :
  logs (edge_call generate_n st) (AnswerGrader_grade env st).
Proof.
  unfold AnswerGrader_grade, AnswerGrader_prepare_input.
  apply logs_bind; [| intros; apply logs_ret].
  apply logs_perform. simpl. split; reflexivity.
Qed.

Lemma logs_node_fn settings env n st :
  logs (node_call n st) (node_fn settings env n st).
Proof.
  destruct n; cbn [node_fn].
  - apply logs_retrieve.
  - apply logs_grade_documents.
  - unfold generate. apply logs_bind.
    + destruct ((1 <? st.(generation_attempts) + 1)
                && settings.(enable_retry_variation))%bool.
      * apply logs_bind; [apply logs_lift | intros; apply logs_ret].
      * apply logs_ret.
    + intros cfg. apply logs_bind; [| intros; apply logs_ret].
      apply logs_perform. simpl. split; reflexivity.
  - unfold transform_query. apply logs_bind; [| intros; apply logs_ret].
    apply logs_perform. simpl. split; reflexivity.
  - unfold mark_max_iterations. apply logs_ret.
  - unfold generate_no_docs_fallback.
    apply logs_bind; [| intros; apply logs_ret].
    apply logs_perform. simpl. split; reflexivity.
Qed.

Lemma logs_edge settings env n st :
  logs (edge_call n st) (edge settings env n st).
Proof.
  destruct n; cbn [edge]; try apply logs_ret.
  - destruct (decide_to_generate settings st); apply logs_ret.
  - apply logs_bind.
    + unfold grade_generation_v_documents_and_question.
      destruct (check_iteration_limits settings st); [apply logs_ret |].
      apply logs_bind; [apply logs_grade_hallucination |].
      intros [|].
      * apply logs_bind; [apply logs_answer_grader |].
        intros [|]; [apply logs_ret |].
        destruct (_ <=? _); apply logs_ret.
      * destruct (_ <=? _); apply logs_ret.
    + intros d. destruct d; apply logs_ret.
Qed.

(** X11: every node and every edge only appends to the call log, whether
    it returns or raises, and calls only its own collaborator.  [retrieve]
    asks the retriever tool (no collection ids) or the listed collections
    about the current question; [grade_documents] asks about the current
    question and the content of one of its documents; [generate] asks the
    original question with the formatted documents as context; the
    rewriter and the no-documents fallback are given the current question
    and the stored configuration; [fallback] calls nothing.  The edge
    after [generate] checks the stored generation, the answer grader
    against the current question; no other edge makes a call. *)
Theorem nodes_call_their_own_collaborator settings env n st :
  logs (node_call n st) (node_fn settings env n st)
  /\ logs (edge_call n st) (edge settings env n st).
Proof. split; [apply logs_node_fn | apply logs_edge]. Qed.

Lemma run_from_generator_asks settings env q0 :
  forall steps n st w,
    st.(original_question) = q0 ->
    Forall (generator_asks q0) w ->
    Forall (generator_asks q0) (run_from settings env steps n st w).(calls).
Proof.
  assert (Hnode : forall n st c,
            st.(original_question) = q0 -> node_call n st c ->
            generator_asks q0 c).
  { intros n st c Hq Hc. destruct c; simpl; try exact I.
    destruct n; simpl in Hc; try contradiction.
    destruct Hc as [-> _]. exact Hq. }
  assert (Hedge : forall n st c, edge_call n st c -> generator_asks q0 c).
  { intros n st c Hc. destruct c; simpl; try exact I.
    destruct n; contradiction. }
  induction steps as [| steps IH]; intros n st w Hq Hw.
  - exact Hw.
  - rewrite run_from_S.
    destruct (logs_node_fn settings env n st w) as (cs1 & E1 & F1).
    assert (Hw1 : Forall (generator_asks q0)
                    (snd (node_fn settings env n st w))).
    { rewrite E1. apply Forall_app. split; [exact Hw |].
      eapply Forall_impl; [| exact F1]. intros c. apply Hnode. exact Hq. }
    destruct (node_fn settings env n st w) as [[st1 | e] w1] eqn:En;
      cbn [snd] in Hw1; [| exact Hw1].
    pose proof (post_original_question _ _ _
                  (node_fn_post _ _ _ _ _ _ _ En)) as Hq1.
    destruct (logs_edge settings env n st1 w1) as (cs2 & E2 & F2).
    assert (Hw2 : Forall (generator_asks q0)
                    (snd (edge settings env n st1 w1))).
    { rewrite E2. apply Forall_app. split; [exact Hw1 |].
      eapply Forall_impl; [| exact F2]. intros c. apply Hedge. }
    destruct (edge settings env n st1 w1) as [[[n' |] | e] w2];
      cbn [snd] in Hw2; cbn [calls]; try exact Hw2.
    apply IH; [congruence | exact Hw2].
Qed.

(** X12: in every run, finished or not, each call of the answer generator
    asks the question that was submitted, however often the query was
    rewritten in between. *)
Theorem generator_always_asks_the_submitted_question
    settings env steps q cfg ids :
  Forall (generator_asks q)
    (GraphService.stream settings env steps q cfg ids).(calls).
Proof.
  unfold GraphService.stream.
  apply run_from_generator_asks; [reflexivity | constructor].
Qed.

(** ** Shape of the trace *)

Lemma edge_declared settings env n st w n' w' :
  edge settings env n st w = (Ok (To n'), w') -> declared_edge n n' = true.
Proof.
  destruct n; cbn [edge]; intros H.
  - ret_inv H. inversion E; subst. reflexivity.
  - destruct (decide_to_generate settings st); ret_inv H; inversion E; subst;
      reflexivity.
  - bind_inv H. destruct a; ret_inv Hk; inversion E; subst; reflexivity.
  - ret_inv H. inversion E; subst. reflexivity.
  - ret_inv H. discriminate E.
  - ret_inv H. discriminate E.
Qed.

Lemma run_from_path settings env :
  forall steps n st w,
    let tr := (run_from settings env steps n st w).(trace) in
    follows_edges tr = true /\ (tr = [] \/ hd_error tr = Some n).
Proof.
  induction steps as [| steps IH]; intros n st w; cbv zeta.
  - simpl. split; [reflexivity | left; reflexivity].
  - rewrite run_from_S.
    destruct (node_fn settings env n st w) as [[st1 | e] w1];
      [| simpl; split; [reflexivity | left; reflexivity]].
    destruct (edge settings env n st1 w1) as [[[n' |] | e] w2] eqn:Hedge;
      cbn [trace];
      try (simpl; split; [reflexivity | auto]; fail).
    destruct (IH n' st1 w2) as (Hpath & Hhead). cbv zeta in Hpath, Hhead.
    split; [| right; reflexivity].
    destruct (trace (run_from settings env steps n' st1 w2)) as [| m rest].
    + reflexivity.
    + destruct Hhead as [Hnil | Hhd]; [discriminate Hnil |].
      inversion Hhd; subst m.
      cbn [follows_edges].
      rewrite (edge_declared _ _ _ _ _ _ _ Hedge). exact Hpath.
Qed.

Lemma follows_edges_tail a tr :
  follows_edges (a :: tr) = true -> follows_edges tr = true.
Proof.
  destruct tr as [| b rest]; [reflexivity |].
  cbn [follows_edges]. intros H. apply andb_true_iff in H. tauto.
Qed.

Lemma follows_edges_adjacent before :
  forall tr n m after,
    follows_edges tr = true ->
    tr = (before ++ n :: m :: after)%list ->
    declared_edge n m = true.
Proof.
  induction before as [| b before IH]; intros tr n m after Hpath E; subst tr.
  - cbn [app follows_edges] in Hpath.
    apply andb_true_iff in Hpath. tauto.
  - apply (IH (before ++ n :: m :: after)%list n m after);
      [| reflexivity].
    exact (follows_edges_tail _ _ Hpath).
Qed.

(** X13: the trace of every run is a path through the declared workflow:
    it starts at [retrieve] and each node is followed by a node that an
    edge or a conditional-edge table of [create_adaptive_graph] allows.
    So a retrieval is always graded next, a rewrite is always followed by
    a new retrieval, and nothing runs after a fallback node. *)
Theorem trace_follows_declared_edges settings env steps q cfg ids :
  let tr := (GraphService.stream settings env steps q cfg ids).(trace) in
  follows_edges tr = true
  /\ (tr = [] \/ hd_error tr = Some retrieve_n)
  /\ (forall before after,
        tr = (before ++ retrieve_n :: after)%list ->
        after = [] \/ hd_error after = Some grade_documents_n)
  /\ (forall before after,
        tr = (before ++ transform_query_n :: after)%list ->
        after = [] \/ hd_error after = Some retrieve_n)
  /\ (forall before n after,
        tr = (before ++ n :: after)%list ->
        n = fallback_n \/ n = no_docs_fallback_n -> after = []).
Proof.
  cbv zeta. unfold GraphService.stream.
  destruct (run_from_path settings env steps retrieve_n
              (GraphService.initial_state q cfg ids) []) as (Hpath & Hhead).
  cbv zeta in Hpath, Hhead.
  set (tr := trace (run_from settings env steps retrieve_n
                      (GraphService.initial_state q cfg ids) [])) in *.
  assert (Hnext : forall before n after m,
            tr = (before ++ n :: m :: after)%list -> declared_edge n m = true).
  { intros before n after m E.
    exact (follows_edges_adjacent before tr n m after Hpath E). }
  split; [exact Hpath |]. split; [exact Hhead |].
  split; [| split].
  - intros before [| m after] E; [left; reflexivity | right].
    pose proof (Hnext _ _ _ _ E) as Hd. destruct m; try discriminate Hd.
    reflexivity.
  - intros before [| m after] E; [left; reflexivity | right].
    pose proof (Hnext _ _ _ _ E) as Hd. destruct m; try discriminate Hd.
    reflexivity.
  - intros before n [| m after] E Hn; [reflexivity |].
    pose proof (Hnext _ _ _ _ E) as Hd.
    destruct Hn as [-> | ->]; destruct m; discriminate Hd.
Qed.

Lemma trace_follows_declared_edges_witness :
  follows_edges
    (GraphService.stream default_settings Outage.env 9 "q" [] []).(trace)
  = true
  /\ hd_error [grade_documents_n; transform_query_n;
               retrieve_n; grade_documents_n; transform_query_n;
               retrieve_n; grade_documents_n; no_docs_fallback_n]
     = Some grade_documents_n.
Proof.
  destruct (trace_follows_declared_edges default_settings Outage.env 9
              "q" [] [])
    as (Hpath & _ & Hretrieve & _ & _).
  split; [exact Hpath |].
  destruct (Hretrieve []
              [grade_documents_n; transform_query_n;
               retrieve_n; grade_documents_n; transform_query_n;
               retrieve_n; grade_documents_n; no_docs_fallback_n]
              eq_refl) as [Hnil | Hhd];
    [discriminate Hnil | exact Hhd].
Defined.

(** ** What the outcome of a run says *)

Lemma check_iteration_limits_counters settings st st' :
  st'.(generation_attempts) = st.(generation_attempts) ->
  st'.(transform_attempts) = st.(transform_attempts) ->
  st'.(total_iterations) = st.(total_iterations) ->
  check_iteration_limits settings st' = check_iteration_limits settings st.
Proof.
  intros Hg Ht Hi. unfold check_iteration_limits. rewrite Hg, Ht, Hi.
  reflexivity.
Qed.

Lemma edge_entry settings env n st w st1 w1 n' w2 :
  node_fn settings env n st w = (Ok st1, w1) ->
  edge settings env n st1 w1 = (Ok (To n'), w2) ->
  entry_condition settings n' st1.
Proof.
  intros Hnode Hedge. destruct n; cbn [edge] in Hedge.
  - ret_inv Hedge. inversion E; subst. exact I.
  - unfold decide_to_generate in Hedge.
    destruct st1.(documents) eqn:D.
    + destruct (Z.leb_spec settings.(max_transform_retries)
                  st1.(transform_attempts));
        ret_inv Hedge; inversion E; subst; simpl; auto.
    + ret_inv Hedge. inversion E; subst. exact I.
  - bind_inv Hedge.
    pose proof (grade_generation_inv _ _ _ _ _ _ Hm) as Hinv.
    destruct a; ret_inv Hk; inversion E; subst; simpl.
    + exact I.
    + destruct Hinv as (Hlim & _).
      apply check_iteration_limits_false in Hlim. lia.
    + destruct Hinv as (Hlim & _). exact Hlim.
  - ret_inv Hedge. inversion E; subst. exact I.
  - ret_inv Hedge. discriminate E.
  - ret_inv Hedge. discriminate E.
Qed.

Lemma run_from_outcome settings env :
  forall steps n st w final,
    entry_condition settings n st ->
    (run_from settings env steps n st w).(ending) = Ended final ->
    (final.(fallback_type) = "" ->
     check_iteration_limits settings final = false
     /\ exists w1 w2,
          grade_hallucination settings env final w1 = (Ok true, w2)
          /\ AnswerGrader_grade env final w2
             = (Ok true, (run_from settings env steps n st w).(calls)))
    /\ (final.(fallback_type) = "max_iterations" ->
        check_iteration_limits settings final = true)
    /\ (final.(fallback_type) = "no_relevant_docs" ->
        final.(documents) = []
        /\ settings.(max_transform_retries) <= final.(transform_attempts)
        /\ final.(generation_attempts) = 1).
Proof.
  induction steps as [| steps IH]; intros n st w final Hentry.
  - simpl. discriminate.
  - rewrite run_from_S.
    destruct (node_fn settings env n st w) as [[st1 | e] w1] eqn:Hnode;
      [| simpl; discriminate].
    destruct (edge settings env n st1 w1) as [[[n' |] | e] w2] eqn:Hedge;
      cbn [ending calls]; intros H.
    + apply IH; [| exact H].
      exact (edge_entry _ _ _ _ _ _ _ _ _ Hnode Hedge).
    + inversion H; subst final. clear H.
      pose proof (node_fn_post _ _ _ _ _ _ _ Hnode) as P.
      pose proof (post_flags _ _ _ P) as Hf. unfold flags_of in Hf.
      destruct (edge_END _ _ _ _ _ _ Hedge) as [-> | [-> | ->]];
        simpl in Hf; injection Hf as _ _ Hft; rewrite Hft.
      * split; [| split]; [| discriminate | discriminate].
        intros _. cbn [edge] in Hedge. bind_inv Hedge.
        pose proof (grade_generation_inv _ _ _ _ _ _ Hm) as Hinv.
        destruct a; ret_inv Hk; try discriminate E.
        destruct Hinv as (Hlim & w3 & Hh & Ha).
        split; [exact Hlim |]. exists w1, w3. split; assumption.
      * split; [| split]; [discriminate | | discriminate].
        intros _. simpl in Hentry. rewrite <- Hentry.
        apply check_iteration_limits_counters.
        -- exact (post_generation_attempts _ _ _ P).
        -- rewrite (post_transform_attempts _ _ _ P). lia.
        -- rewrite (post_total_iterations _ _ _ P). lia.
      * split; [| split]; [discriminate | discriminate |].
        intros _. simpl in Hentry. destruct Hentry as (_ & Hge).
        rewrite (post_transform_attempts _ _ _ P),
          (post_generation_attempts _ _ _ P).
        cbn [node_fn] in Hnode. unfold generate_no_docs_fallback in Hnode.
        bind_inv Hnode. ret_inv Hk.
        repeat split; simpl; lia.
    + discriminate H.
Qed.

(** X14: what the outcome of a finished run means.  A normal completion
    ([fallback_type = ""]) stays strictly inside all three budgets, and
    the answer was graded grounded and as addressing the question by the
    last two grader calls of the run.  With [fallback_type =
    "max_iterations"] at least one budget is used up in the final state.
    With [fallback_type = "no_relevant_docs"] the final document list is
    empty, the transform budget is used up and [generation_attempts] is
    1. *)
Theorem outcome_meaning settings env steps q cfg ids final :
  (GraphService.stream settings env steps q cfg ids).(ending) = Ended final ->
  (final.(fallback_type) = "" ->
   (final.(generation_attempts) < settings.(max_generation_retries)
    /\ final.(transform_attempts) < settings.(max_transform_retries)
    /\ final.(total_iterations) < settings.(max_total_iterations))
   /\ exists w1 w2,
        grade_hallucination settings env final w1 = (Ok true, w2)
        /\ AnswerGrader_grade env final w2
           = (Ok true,
              (GraphService.stream settings env steps q cfg ids).(calls)))
  /\ (final.(fallback_type) = "max_iterations" ->
      settings.(max_generation_retries) <= final.(generation_attempts)
      \/ settings.(max_transform_retries) <= final.(transform_attempts)
      \/ settings.(max_total_iterations) <= final.(total_iterations))
  /\ (final.(fallback_type) = "no_relevant_docs" ->
      final.(documents) = []
      /\ settings.(max_transform_retries) <= final.(transform_attempts)
      /\ final.(generation_attempts) = 1).
Proof.
  unfold GraphService.stream. intros H.
  destruct (run_from_outcome settings env steps retrieve_n
              (GraphService.initial_state q cfg ids) [] final I H)
    as (Hok & Hmax & Hnone).
  split; [| split].
  - intros Hft. destruct (Hok Hft) as (Hlim & Hgraded).
    split; [| exact Hgraded].
    apply check_iteration_limits_false. exact Hlim.
  - intros Hft. apply check_iteration_limits_true. exact (Hmax Hft).
  - exact Hnone.
Qed.

Lemma outcome_meaning_witness :
  exists final,
    (GraphService.stream default_settings
       (Stub.constant (Ok Stub.three_docs) (Stub.graded "yes" 1) "yes" "yes")
       20 "q" [] []).(ending) = Ended final
    /\ final.(fallback_type) = ""
    /\ final.(generation_attempts) < 2
    /\ final.(total_iterations) < 15.
Proof.
  destruct (ending (GraphService.stream default_settings
                      (Stub.constant (Ok Stub.three_docs)
                         (Stub.graded "yes" 1) "yes" "yes")
                      20 "q" [] [])) as [final | e |] eqn:E;
    [| vm_compute in E; discriminate E | vm_compute in E; discriminate E].
  exists final. split; [reflexivity |].
  assert (Hft : final.(fallback_type) = "").
  { vm_compute in E. inversion E. reflexivity. }
  split; [exact Hft |].
  destruct (proj1 (outcome_meaning _ _ _ _ _ _ _ E) Hft)
    as ((Hg & _ & Hi) & _).
  split; [exact Hg | exact Hi].
Defined.

(** ** The last node of a finished run *)

Lemma run_from_last settings env (Inv : Node -> GraphState -> Prop) :
  (forall n st w st1 w1 n' w2,
     Inv n st ->
     node_fn settings env n st w = (Ok st1, w1) ->
     edge settings env n st1 w1 = (Ok (To n'), w2) ->
     Inv n' st1) ->
  forall steps n st w final,
    Inv n st ->
    (run_from settings env steps n st w).(ending) = Ended final ->
    exists n_last st_last w_last w1,
      Inv n_last st_last
      /\ node_fn settings env n_last st_last w_last = (Ok final, w1)
      /\ edge settings env n_last final w1
         = (Ok END, (run_from settings env steps n st w).(calls)).
Proof.
  intros Hstep. induction steps as [| steps IH]; intros n st w final Hinv.
  - simpl. discriminate.
  - rewrite run_from_S.
    destruct (node_fn settings env n st w) as [[st1 | e] w1] eqn:Hnode;
      [| simpl; discriminate].
    destruct (edge settings env n st1 w1) as [[[n' |] | e] w2] eqn:Hedge;
      cbn [ending calls]; intros H.
    + apply IH; [| exact H]. exact (Hstep _ _ _ _ _ _ _ Hinv Hnode Hedge).
    + inversion H; subst final. exists n, st, w, w1. repeat split; assumption.
    + discriminate H.
Qed.

Lemma least_iterations_step settings env n st w st1 w1 n' w2 :
  least_iterations n <= st.(total_iterations)
  /\ 0 <= st.(generation_attempts) /\ 0 <= st.(transform_attempts) ->
  node_fn settings env n st w = (Ok st1, w1) ->
  edge settings env n st1 w1 = (Ok (To n'), w2) ->
  least_iterations n' <= st1.(total_iterations)
  /\ 0 <= st1.(generation_attempts) /\ 0 <= st1.(transform_attempts).
Proof.
  intros (Hti & Hga & Hta) Hnode Hedge.
  pose proof (node_fn_post _ _ _ _ _ _ _ Hnode) as P.
  pose proof (edge_declared _ _ _ _ _ _ _ Hedge) as Hd.
  rewrite (post_total_iterations _ _ _ P),
    (post_generation_attempts _ _ _ P), (post_transform_attempts _ _ _ P).
  destruct n, n'; try discriminate Hd; unfold least_iterations in *; lia.
Qed.

(** X15: a run can only complete normally when the budgets leave room for
    it: [max_generation_retries >= 2], [max_transform_retries >= 1] and
    [max_total_iterations >= 4].  With a smaller budget the check after
    the first generation already sends the run to [fallback], so every
    answer then carries a fallback flag. *)
Theorem normal_completion_needs_room settings env steps q cfg ids final :
  (GraphService.stream settings env steps q cfg ids).(ending) = Ended final ->
  final.(fallback_type) = "" ->
  2 <= settings.(max_generation_retries)
  /\ 1 <= settings.(max_transform_retries)
  /\ 4 <= settings.(max_total_iterations).
Proof.
  unfold GraphService.stream. intros H Hft.
  destruct (run_from_last settings env
              (fun n st => least_iterations n <= st.(total_iterations)
                           /\ 0 <= st.(generation_attempts)
                           /\ 0 <= st.(transform_attempts))
              (least_iterations_step settings env)
              steps retrieve_n (GraphService.initial_state q cfg ids) []
              final ltac:(simpl; lia) H)
    as (n & st & w & w1 & (Hti & Hga & Hta) & Hnode & Hedge).
  pose proof (node_fn_post _ _ _ _ _ _ _ Hnode) as P.
  pose proof (post_flags _ _ _ P) as Hf. unfold flags_of in Hf.
  destruct (edge_END _ _ _ _ _ _ Hedge) as [-> | [-> | ->]];
    simpl in Hf; injection Hf as _ _ Hft'; rewrite Hft' in Hft;
    try discriminate Hft.
  cbn [edge] in Hedge. bind_inv Hedge.
  pose proof (grade_generation_inv _ _ _ _ _ _ Hm) as Hinv.
  destruct a; ret_inv Hk; try discriminate E.
  destruct Hinv as (Hlim & _).
  apply check_iteration_limits_false in Hlim.
  rewrite (post_total_iterations _ _ _ P),
    (post_generation_attempts _ _ _ P), (post_transform_attempts _ _ _ P)
    in Hlim.
  unfold least_iterations in Hti. lia.
Qed.

Lemma normal_completion_needs_room_witness :
  exists final,
    (GraphService.stream default_settings
       (Stub.constant (Ok Stub.three_docs) (Stub.graded "yes" 1) "yes" "yes")
       20 "q" [] []).(ending) = Ended final
    /\ final.(fallback_type) = ""
    /\ 2 <= default_settings.(max_generation_retries).
Proof.
  destruct (ending (GraphService.stream default_settings
                      (Stub.constant (Ok Stub.three_docs)
                         (Stub.graded "yes" 1) "yes" "yes")
                      20 "q" [] [])) as [final | e |] eqn:E;
    [| vm_compute in E; discriminate E | vm_compute in E; discriminate E].
  exists final. split; [reflexivity |].
  assert (Hft : final.(fallback_type) = "").
  { vm_compute in E. inversion E. reflexivity. }
  split; [exact Hft |].
  exact (proj1 (normal_completion_needs_room _ _ _ _ _ _ _ E Hft)).
Defined.

(** ** The result handed to the caller *)

Lemma question_kept_step settings env q0 n st w st1 w1 n' w2 :
  0 <= st.(transform_attempts)
  /\ (st.(transform_attempts) = 0 -> st.(question) = q0) ->
  node_fn settings env n st w = (Ok st1, w1) ->
  edge settings env n st1 w1 = (Ok (To n'), w2) ->
  0 <= st1.(transform_attempts)
  /\ (st1.(transform_attempts) = 0 -> st1.(question) = q0).
Proof.
  intros (Hpos & Hq) Hnode _.
  pose proof (node_fn_post _ _ _ _ _ _ _ Hnode) as P.
  rewrite (post_transform_attempts _ _ _ P). split.
  - destruct n; lia.
  - intros Hta.
    assert (Hn : n <> transform_query_n) by (intros ->; lia).
    rewrite (post_question _ _ _ P Hn). apply Hq. destruct n; lia.
Qed.

Lemma final_question settings env steps q cfg ids final :
  (GraphService.stream settings env steps q cfg ids).(ending) = Ended final ->
  final.(transform_attempts) = 0 -> final.(question) = q.
Proof.
  unfold GraphService.stream. intros H Hta.
  destruct (run_from_last settings env
              (fun _ st => 0 <= st.(transform_attempts)
                           /\ (st.(transform_attempts) = 0 ->
                               st.(question) = q))
              (question_kept_step settings env q)
              steps retrieve_n (GraphService.initial_state q cfg ids) []
              final ltac:(simpl; split; [lia | reflexivity]) H)
    as (n & st & w & w1 & (Hpos & Hq) & Hnode & _).
  pose proof (node_fn_post _ _ _ _ _ _ _ Hnode) as P.
  rewrite (post_transform_attempts _ _ _ P) in Hta.
  assert (Hn : n <> transform_query_n) by (intros ->; lia).
  rewrite (post_question _ _ _ P Hn). apply Hq. destruct n; lia.
Qed.

(** X16: what [execute_query] returns for the adaptive graph.  The answer
    is the generation of the final state and the metrics count the trace.
    The disclaimer tells how the run ended: none after [generate], the
    "not fully verified" text after [fallback], the "general knowledge"
    text after [no_docs_fallback] (where [max_iterations_reached] is true
    as well and no document is reported).  When the rewriter did not run,
    no rewritten question is reported; a reported one differs from the
    submitted question. *)
Theorem execute_query_result settings env steps q cfg ids r :
  execute_query_adaptive settings env steps q cfg ids = Ok r ->
  let m := r.(QueryResult.iteration_metrics) in
  let tr := r.(QueryResult.graph_trace) in
  tr = (GraphService.stream settings env steps q cfg ids).(trace)
  /\ m.(QueryResult.total_iterations) = step_count tr
  /\ m.(QueryResult.transform_attempts) = occurrences transform_query_n tr
  /\ (exists before last_node,
        tr = (before ++ [last_node])%list
        /\ match last_node with
           | generate_n =>
               m.(QueryResult.disclaimer) = None
               /\ m.(QueryResult.max_iterations_reached) = false
               /\ m.(QueryResult.no_relevant_docs_fallback) = false
           | fallback_n =>
               m.(QueryResult.disclaimer)
               = Some "Diese Antwort konnte nicht vollständig verifiziert werden."
               /\ m.(QueryResult.max_iterations_reached) = true
               /\ m.(QueryResult.no_relevant_docs_fallback) = false
           | no_docs_fallback_n =>
               m.(QueryResult.disclaimer)
               = Some "Diese Antwort basiert auf allgemeinem Wissen, nicht auf Dokumenten aus der Wissensbasis."
               /\ m.(QueryResult.max_iterations_reached) = true
               /\ m.(QueryResult.no_relevant_docs_fallback) = true
               /\ r.(QueryResult.documents_retrieved) = 0
           | _ => False
           end)
  /\ (occurrences transform_query_n tr = 0 ->
      r.(QueryResult.rewritten_question) = None)
  /\ (forall q', r.(QueryResult.rewritten_question) = Some q' ->
        q' <> q /\ 1 <= occurrences transform_query_n tr).
Proof.
  unfold execute_query_adaptive, execute_query_on. intros H.
  destruct (ending (GraphService.stream settings env steps q cfg ids))
    as [final | e |] eqn:E; try discriminate H.
  inversion H; subst r. clear H. cbv zeta.
  cbn [extract_results QueryResult.iteration_metrics QueryResult.graph_trace
       QueryResult.total_iterations QueryResult.transform_attempts
       QueryResult.disclaimer QueryResult.max_iterations_reached
       QueryResult.no_relevant_docs_fallback QueryResult.documents_retrieved
       QueryResult.rewritten_question].
  destruct (run_from_accounting _ _ _ _ _ _ _ E) as (Hti & Hta & _).
  cbv zeta in Hti, Hta. unfold GraphService.stream in *.
  cbn [GraphService.initial_state total_iterations transform_attempts]
    in Hti, Hta.
  rewrite Z.add_0_l in Hti, Hta.
  split; [reflexivity |]. split; [exact Hti |]. split; [exact Hta |].
  split; [| split].
  - destruct (run_from_ended _ _ _ _ _ _ _ E) as (before & l & Et & Hl & Hf).
    exists before, l. split; [exact Et |].
    unfold flags_of in Hf. unfold GraphService._get_disclaimer_text.
    destruct Hl as [-> | [-> | ->]]; simpl in Hf; injection Hf as Hm Hn Ht;
      rewrite Hm, Hn; repeat split.
    destruct (run_from_outcome settings env steps retrieve_n
                (GraphService.initial_state q cfg ids) [] final I E)
      as (_ & _ & Hno).
    destruct (Hno Ht) as (D & _). rewrite D. reflexivity.
  - intros Hzero. rewrite Hzero in Hta.
    rewrite (final_question settings env steps q cfg ids final E Hta).
    rewrite String.eqb_refl. reflexivity.
  - intros q' Hq'.
    destruct (String.eqb_spec final.(question) q) as [Heq | Hne];
      [discriminate Hq' |].
    inversion Hq'; subst q'. split; [exact Hne |].
    pose proof (occurrences_nonneg transform_query_n
                  (trace (run_from settings env steps retrieve_n
                            (GraphService.initial_state q cfg ids) [])))
      as Hnn.
    destruct (Z.eq_dec (occurrences transform_query_n
                          (trace (run_from settings env steps retrieve_n
                                    (GraphService.initial_state q cfg ids) [])))
                0) as [Hz | Hnz]; [| lia].
    exfalso. apply Hne. rewrite Hz in Hta.
    exact (final_question settings env steps q cfg ids final E Hta).
Qed.

Lemma execute_query_result_witness :
  exists r,
    execute_query_adaptive default_settings Stub.nothing_found 20 "q" [] []
    = Ok r
    /\ r.(QueryResult.iteration_metrics).(QueryResult.total_iterations) = 9
    /\ r.(QueryResult.iteration_metrics).(QueryResult.transform_attempts) = 2.
Proof.
  destruct (execute_query_adaptive default_settings Stub.nothing_found 20
              "q" [] []) as [r | e] eqn:E;
    [| vm_compute in E; discriminate E].
  exists r. split; [reflexivity |].
  destruct (execute_query_result _ _ _ _ _ _ _ E) as (Etr & Hti & Hta & _).
  cbv zeta in Etr, Hti, Hta. rewrite Etr in Hti, Hta.
  split.
  - rewrite Hti. vm_compute. reflexivity.
  - rewrite Hta. vm_compute. reflexivity.
Defined.

(** ** The linear graph *)

Lemma run_graph_adaptive settings env :
  forall steps n st w,
    run_graph (node_fn settings env) (edge settings env) steps n st w
    = run_from settings env steps n st w.
Proof.
  induction steps as [| steps IH]; intros n st w; [reflexivity |].
  cbn [run_graph run_from].
  destruct (node_fn settings env n st w) as [[st1 | e] w1]; [| reflexivity].
  destruct (edge settings env n st1 w1) as [[[n' |] | e] w2];
    try reflexivity.
  rewrite IH. reflexivity.
Qed.

Lemma run_graph_step fn edges steps n st w st1 w1 n' w2 :
  fn n st w = (Ok st1, w1) ->
  edges n st1 w1 = (Ok (To n'), w2) ->
  run_graph fn edges (S steps) n st w
  = {| trace := n :: (run_graph fn edges steps n' st1 w2).(trace);
       ending := (run_graph fn edges steps n' st1 w2).(ending);
       calls := (run_graph fn edges steps n' st1 w2).(calls) |}.
Proof. intros En Ee. cbn [run_graph]. rewrite En, Ee. reflexivity. Qed.

Lemma run_graph_end fn edges steps n st w st1 w1 w2 :
  fn n st w = (Ok st1, w1) ->
  edges n st1 w1 = (Ok END, w2) ->
  run_graph fn edges (S steps) n st w
  = {| trace := [n]; ending := Ended st1; calls := w2 |}.
Proof. intros En Ee. cbn [run_graph]. rewrite En, Ee. reflexivity. Qed.

(** X17: the linear graph (retrieve, generate, END) answers whenever the
    answer chain does, also when retrieval failed or found nothing: it
    runs exactly the two nodes, asks the submitted question with whatever
    [retrieve] returned as context, and consults no grader or rewriter.
    The result reports those documents ungraded, 2 iterations, 1
    generation attempt, no rewritten question and no disclaimer. *)
Theorem simple_graph_answers_without_checks settings env steps q cfg ids :
  (2 <= steps)%nat ->
  generator_answers env ->
  exists r st1 retrieval_calls,
    execute_query_simple settings env steps q cfg ids = Ok r
    /\ retrieve env (GraphService.initial_state q cfg ids) []
       = (Ok st1, retrieval_calls)
    /\ (RagGraph.stream settings env steps q cfg ids).(calls)
       = (retrieval_calls
          ++ [AnswerGeneratorInvoke cfg (format_docs st1.(documents)) q])%list
    /\ rag_chain_invoke env (List.length retrieval_calls) cfg
         (format_docs st1.(documents)) q
       = Ok r.(QueryResult.answer)
    /\ r.(QueryResult.graph_trace) = [retrieve_n; generate_n]
    /\ r.(QueryResult.documents_retrieved)
       = Z.of_nat (List.length st1.(documents))
    /\ r.(QueryResult.rewritten_question) = None
    /\ r.(QueryResult.iteration_metrics)
       = {| QueryResult.generation_attempts := 1;
            QueryResult.transform_attempts := 0;
            QueryResult.total_iterations := 2;
            QueryResult.max_iterations_reached := false;
            QueryResult.no_relevant_docs_fallback := false;
            QueryResult.disclaimer := None |}.
Proof.
  intros Hsteps Hgen.
  destruct steps as [| [| steps]]; try lia.
  destruct (retrieve_total env (GraphService.initial_state q cfg ids) [])
    as (docs & w1 & E1).
  set (st1 := retrieve_result (GraphService.initial_state q cfg ids) docs
                ((GraphService.initial_state q cfg ids).(total_iterations) + 1))
    in *.
  destruct (Hgen (List.length w1) cfg (format_docs docs) q) as (answer & Ea).
  assert (E2 : generate settings env st1 w1
               = (Ok {| documents := docs;
                        question := q;
                        original_question := q;
                        generation := answer;
                        model_config := cfg;
                        collection_ids := ids;
                        generation_attempts := 1;
                        transform_attempts := 0;
                        total_iterations := 2;
                        max_iterations_reached := false;
                        no_relevant_docs_fallback := false;
                        fallback_type := "" |},
                  (w1 ++ [AnswerGeneratorInvoke cfg (format_docs docs) q])%list)).
  { rewrite generate_run. unfold retry_model_config. subst st1.
    cbn [retrieve_result GraphService.initial_state generation_attempts
         total_iterations documents original_question model_config question
         collection_ids transform_attempts].
    change (1 <? 0 + 1) with false. cbn [andb]. cbv zeta.
    rewrite Ea. reflexivity. }
  assert (Ex : RagGraph.stream settings env (S (S steps)) q cfg ids
               = {| trace := [retrieve_n; generate_n];
                    ending := Ended
                      {| documents := docs;
                         question := q;
                         original_question := q;
                         generation := answer;
                         model_config := cfg;
                         collection_ids := ids;
                         generation_attempts := 1;
                         transform_attempts := 0;
                         total_iterations := 2;
                         max_iterations_reached := false;
                         no_relevant_docs_fallback := false;
                         fallback_type := "" |};
                    calls := (w1 ++ [AnswerGeneratorInvoke cfg
                                       (format_docs docs) q])%list |}).
  { unfold RagGraph.stream.
    rewrite (run_graph_step _ _ _ retrieve_n _ _ st1 w1 generate_n w1
               E1 eq_refl).
    rewrite (run_graph_end _ _ _ generate_n st1 w1 _ _ _ E2 eq_refl).
    reflexivity. }
  eexists. exists st1, w1.
  unfold execute_query_simple, execute_query_on. rewrite Ex.
  cbn [ending trace calls].
  split; [reflexivity |]. split; [exact E1 |].
  split; [reflexivity |].
  cbn [extract_results QueryResult.answer QueryResult.graph_trace
       QueryResult.documents_retrieved QueryResult.rewritten_question
       QueryResult.iteration_metrics generation documents question
       generation_attempts transform_attempts total_iterations
       max_iterations_reached no_relevant_docs_fallback].
  rewrite String.eqb_refl.
  repeat split; try reflexivity. exact Ea.
Qed.

Lemma simple_graph_answers_without_checks_witness :
  (2 <= 20)%nat
  /\ exists r,
       execute_query_simple default_settings Stub.nothing_found 20 "q" [] []
       = Ok r
       /\ r.(QueryResult.documents_retrieved) = 0
       /\ r.(QueryResult.answer) = "answer from documents"
       /\ r.(QueryResult.iteration_metrics).(QueryResult.disclaimer) = None.
Proof.
  split; [lia |].
  destruct (simple_graph_answers_without_checks default_settings
              Stub.nothing_found 20 "q" [] [] ltac:(lia)
              (proj1 (constant_answers _ _ _ _)))
    as (r & st1 & cs & E & Er & _ & Ea & _ & Hd & _ & Hm).
  exists r. split; [exact E |].
  assert (Hst : (Ok st1, cs)
                = (Ok (retrieve_result (GraphService.initial_state "q" [] [])
                         [] 1), [RetrieverToolInvoke "q"]))
    by (rewrite <- Er; reflexivity).
  inversion Hst; subst st1 cs.
  split; [exact Hd |]. split.
  - simpl in Ea. inversion Ea. reflexivity.
  - rewrite Hm. reflexivity.
Defined.

(** ** A retrieval that never delivers *)

Lemma retrieve_tool_run env st w :
  st.(collection_ids) = [] ->
  retrieve env st w
  = (Ok (retrieve_result st
           match retriever_tool_invoke env (List.length w) st.(question) with
           | Ok raw_documents => documents_of_raw raw_documents
           | Raise _ => []
           end
           (st.(total_iterations) + 1)),
     (w ++ [RetrieverToolInvoke st.(question)])%list).
Proof.
  intros Eids. unfold retrieve, try_except. rewrite Eids.
  unfold bind, perform.
  destruct (retriever_tool_invoke env (List.length w) st.(question))
    as [raw | e]; [reflexivity |].
  destruct e; reflexivity.
Qed.

Lemma grade_documents_nothing settings env st w :
  0 < settings.(document_grading_batch_size) ->
  st.(documents) = [] ->
  exists st2,
    grade_documents settings env st w = (Ok st2, w)
    /\ st2.(documents) = []
    /\ st2.(collection_ids) = st.(collection_ids)
    /\ st2.(transform_attempts) = st.(transform_attempts)
    /\ st2.(total_iterations) = st.(total_iterations) + 1.
Proof.
  intros Hsize D. unfold grade_documents, grade_all_docs.
  unfold bind, clock, lift, range. rewrite D.
  destruct (Z.eqb_spec settings.(document_grading_batch_size) 0); [lia |].
  cbn [List.length]. rewrite range_count_done by lia.
  simpl. unfold ret. eexists. repeat split.
Qed.

(** The first two steps of a retrieval that delivers nothing: one call to
    the tool, nothing to grade, and the edge that [decide_to_generate]
    picks for an empty list. *)
Lemma dry_prefix settings env st w :
  0 < settings.(document_grading_batch_size) ->
  retrieval_always_empty env ->
  st.(collection_ids) = [] ->
  exists st1 st2,
    node_fn settings env retrieve_n st w
    = (Ok st1, (w ++ [RetrieverToolInvoke st.(question)])%list)
    /\ node_fn settings env grade_documents_n st1
         (w ++ [RetrieverToolInvoke st.(question)])%list
       = (Ok st2, (w ++ [RetrieverToolInvoke st.(question)])%list)
    /\ edge settings env grade_documents_n st2
         (w ++ [RetrieverToolInvoke st.(question)])%list
       = (Ok (To (if settings.(max_transform_retries)
                       <=? st.(transform_attempts)
                  then no_docs_fallback_n else transform_query_n)),
          (w ++ [RetrieverToolInvoke st.(question)])%list)
    /\ st2.(documents) = []
    /\ st2.(collection_ids) = []
    /\ st2.(transform_attempts) = st.(transform_attempts)
    /\ st2.(total_iterations) = st.(total_iterations) + 2.
Proof.
  intros Hsize Hdry Eids.
  pose proof (retrieve_tool_run env st w Eids) as E1.
  specialize (Hdry (List.length w) st.(question)).
  set (docs := match retriever_tool_invoke env (List.length w) st.(question)
               with Ok raw => documents_of_raw raw | Raise _ => [] end) in *.
  assert (Hdocs : docs = []).
  { subst docs.
    destruct (retriever_tool_invoke env (List.length w) st.(question));
      [exact Hdry | reflexivity]. }
  rewrite Hdocs in E1. clear Hdocs docs Hdry.
  set (st1 := retrieve_result st [] (st.(total_iterations) + 1)) in *.
  set (w1 := (w ++ [RetrieverToolInvoke st.(question)])%list) in *.
  destruct (grade_documents_nothing settings env st1 w1 Hsize eq_refl)
    as (st2 & E2 & D2 & C2 & T2 & I2).
  exists st1, st2. split; [exact E1 |]. split; [exact E2 |].
  split.
  - rewrite (edge_grade_documents_empty settings env st2 w1 D2), T2.
    reflexivity.
  - split; [exact D2 |]. split; [rewrite C2; exact Eids |].
    split; [exact T2 |]. rewrite I2. subst st1. cbn [retrieve_result
      total_iterations]. lia.
Qed.

Lemma no_grader_call_snoc w c :
  grader_call c = false ->
  Forall (fun c => grader_call c = false) w ->
  Forall (fun c => grader_call c = false) (w ++ [c])%list.
Proof.
  intros Hc Hw. apply Forall_app. split; [exact Hw |].
  constructor; [exact Hc | constructor].
Qed.

Lemma dry_cycle settings env st w steps :
  0 < settings.(document_grading_batch_size) ->
  retrieval_always_empty env ->
  rewriter_answers env ->
  st.(collection_ids) = [] ->
  st.(transform_attempts) < settings.(max_transform_retries) ->
  exists st3 w3,
    run_from settings env (S (S (S steps))) retrieve_n st w
    = {| trace := retrieve_n :: grade_documents_n :: transform_query_n
                  :: (run_from settings env steps retrieve_n st3 w3).(trace);
         ending := (run_from settings env steps retrieve_n st3 w3).(ending);
         calls := (run_from settings env steps retrieve_n st3 w3).(calls) |}
    /\ st3.(transform_attempts) = st.(transform_attempts) + 1
    /\ st3.(total_iterations) = st.(total_iterations) + 3
    /\ st3.(collection_ids) = []
    /\ (Forall (fun c => grader_call c = false) w ->
        Forall (fun c => grader_call c = false) w3).
Proof.
  intros Hsize Hdry Hrew Eids Hlt.
  destruct (dry_prefix settings env st w Hsize Hdry Eids)
    as (st1 & st2 & E1 & E2 & Ee2 & D2 & C2 & T2 & I2).
  set (w1 := (w ++ [RetrieverToolInvoke st.(question)])%list) in *.
  destruct (Z.leb_spec settings.(max_transform_retries)
              st.(transform_attempts)) as [Hge | _]; [lia |].
  destruct (Hrew (List.length w1) st2.(model_config) st2.(question))
    as (better & E3).
  assert (En3 : node_fn settings env transform_query_n st2 w1
                = (Ok {| documents := st2.(documents);
                         question := better;
                         original_question := st2.(original_question);
                         generation := st2.(generation);
                         model_config := st2.(model_config);
                         collection_ids := st2.(collection_ids);
                         generation_attempts := st2.(generation_attempts);
                         transform_attempts := st2.(transform_attempts) + 1;
                         total_iterations := st2.(total_iterations) + 1;
                         max_iterations_reached := false;
                         no_relevant_docs_fallback := false;
                         fallback_type := "" |},
                   (w1 ++ [QuestionRewriterInvoke st2.(model_config)
                             st2.(question)])%list)).
  { cbn [node_fn]. unfold transform_query, bind, perform. rewrite E3.
    reflexivity. }
  eexists. eexists. split; [| split; [| split; [| split]]].
  - rewrite (run_from_step settings env _ retrieve_n st w st1 w1
               grade_documents_n w1 E1 eq_refl).
    rewrite (run_from_step settings env _ grade_documents_n st1 w1 st2 w1
               transform_query_n w1 E2 Ee2).
    rewrite (run_from_step settings env _ transform_query_n st2 w1 _ _
               retrieve_n _ En3 eq_refl).
    reflexivity.
  - cbn [transform_attempts]. lia.
  - cbn [total_iterations]. lia.
  - cbn [collection_ids]. exact C2.
  - intros Hw. subst w1. repeat apply no_grader_call_snoc;
      [reflexivity | reflexivity | exact Hw].
Qed.

Lemma dry_end settings env st w steps :
  0 < settings.(document_grading_batch_size) ->
  retrieval_always_empty env ->
  llm_chain_answers env ->
  st.(collection_ids) = [] ->
  settings.(max_transform_retries) <= st.(transform_attempts) ->
  exists final w3,
    run_from settings env (S (S (S steps))) retrieve_n st w
    = {| trace := [retrieve_n; grade_documents_n; no_docs_fallback_n];
         ending := Ended final;
         calls := w3 |}
    /\ flags_of final = (true, true, "no_relevant_docs")
    /\ final.(total_iterations) = st.(total_iterations) + 3
    /\ (Forall (fun c => grader_call c = false) w ->
        Forall (fun c => grader_call c = false) w3).
Proof.
  intros Hsize Hdry Hllm Eids Hge.
  destruct (dry_prefix settings env st w Hsize Hdry Eids)
    as (st1 & st2 & E1 & E2 & Ee2 & D2 & C2 & T2 & I2).
  set (w1 := (w ++ [RetrieverToolInvoke st.(question)])%list) in *.
  destruct (Z.leb_spec settings.(max_transform_retries)
              st.(transform_attempts)) as [_ | Hlt]; [| lia].
  destruct (Hllm (List.length w1) st2.(model_config) st2.(question))
    as (answer & E3).
  assert (En3 : node_fn settings env no_docs_fallback_n st2 w1
                = (Ok {| documents := [];
                         question := st2.(question);
                         original_question := st2.(original_question);
                         generation := answer;
                         model_config := st2.(model_config);
                         collection_ids := st2.(collection_ids);
                         generation_attempts := 1;
                         transform_attempts := st2.(transform_attempts);
                         total_iterations := st2.(total_iterations) + 1;
                         max_iterations_reached := true;
                         no_relevant_docs_fallback := true;
                         fallback_type := "no_relevant_docs" |},
                   (w1 ++ [PureLLMInvoke st2.(model_config)
                             st2.(question)])%list)).
  { cbn [node_fn]. unfold generate_no_docs_fallback, bind, perform.
    rewrite E3. reflexivity. }
  eexists. eexists. split; [| split; [| split]].
  - rewrite (run_from_step settings env _ retrieve_n st w st1 w1
               grade_documents_n w1 E1 eq_refl).
    rewrite (run_from_step settings env _ grade_documents_n st1 w1 st2 w1
               no_docs_fallback_n w1 E2 Ee2).
    rewrite (run_from_end settings env _ no_docs_fallback_n st2 w1 _ _ _
               En3 eq_refl).
    reflexivity.
  - reflexivity.
  - cbn [total_iterations]. lia.
  - intros Hw. subst w1. repeat apply no_grader_call_snoc;
      [reflexivity | reflexivity | exact Hw].
Qed.

(** Fewer than three steps end inside the first retrieve and grade. *)
Lemma dry_cut settings env st w steps :
  0 < settings.(document_grading_batch_size) ->
  retrieval_always_empty env ->
  st.(collection_ids) = [] ->
  (steps < 3)%nat ->
  Forall (fun c => grader_call c = false) w ->
  let x := run_from settings env steps retrieve_n st w in
  x.(ending) = OutOfSteps
  /\ List.length x.(trace) = steps
  /\ count_occ Node_eq_dec x.(trace) generate_n = 0%nat
  /\ Forall (fun c => grader_call c = false) x.(calls).
Proof.
  intros Hsize Hdry Eids Hsteps Hw.
  destruct (dry_prefix settings env st w Hsize Hdry Eids)
    as (st1 & st2 & E1 & E2 & Ee2 & _).
  assert (Hw1 : Forall (fun c => grader_call c = false)
                  (w ++ [RetrieverToolInvoke st.(question)])%list)
    by (apply no_grader_call_snoc; [reflexivity | exact Hw]).
  destruct steps as [| [| [| steps]]]; [| | | lia]; cbv zeta.
  - repeat split. exact Hw.
  - rewrite (run_from_step settings env _ retrieve_n st w st1 _
               grade_documents_n _ E1 eq_refl).
    cbn [run_from trace ending calls List.length].
    split; [reflexivity |]. split; [reflexivity |].
    split; [| exact Hw1].
    rewrite count_occ_cons_neq by discriminate. reflexivity.
  - rewrite (run_from_step settings env _ retrieve_n st w st1 _
               grade_documents_n _ E1 eq_refl).
    rewrite (run_from_step settings env _ grade_documents_n st1 _ st2 _
               _ _ E2 Ee2).
    cbn [run_from trace ending calls List.length].
    split; [reflexivity |]. split; [reflexivity |].
    split; [| exact Hw1].
    rewrite !count_occ_cons_neq by discriminate. reflexivity.
Qed.

Lemma dry_run settings env :
  0 < settings.(document_grading_batch_size) ->
  retrieval_always_empty env ->
  rewriter_answers env ->
  llm_chain_answers env ->
  forall k st w steps,
    st.(collection_ids) = [] ->
    Z.to_nat (settings.(max_transform_retries) - st.(transform_attempts)) = k ->
    (3 * k + 3 <= steps)%nat ->
    Forall (fun c => grader_call c = false) w ->
    let x := run_from settings env steps retrieve_n st w in
    List.length x.(trace) = (3 * k + 3)%nat
    /\ count_occ Node_eq_dec x.(trace) transform_query_n = k
    /\ count_occ Node_eq_dec x.(trace) generate_n = 0%nat
    /\ Forall (fun c => grader_call c = false) x.(calls)
    /\ exists final,
         x.(ending) = Ended final
         /\ flags_of final = (true, true, "no_relevant_docs")
         /\ final.(total_iterations)
            = st.(total_iterations) + Z.of_nat (3 * k + 3).
Proof.
  intros Hsize Hdry Hrew Hllm.
  induction k as [| k IH]; intros st w steps Eids Hk Hsteps Hw.
  - destruct steps as [| [| [| steps]]]; try lia.
    destruct (dry_end settings env st w steps Hsize Hdry Hllm Eids
                ltac:(lia))
      as (final & w3 & E & Hf & Hi & Hc).
    cbv zeta. rewrite E. cbn [trace ending calls].
    split; [reflexivity |]. split; [reflexivity |]. split; [reflexivity |].
    split; [exact (Hc Hw) |].
    exists final. split; [reflexivity |]. split; [exact Hf |].
    rewrite Hi. reflexivity.
  - destruct steps as [| [| [| steps]]]; try lia.
    destruct (dry_cycle settings env st w steps Hsize Hdry Hrew Eids
                ltac:(lia))
      as (st3 & w3 & E & Ht & Hi & Hids & Hc).
    destruct (IH st3 w3 steps Hids ltac:(lia) ltac:(lia) (Hc Hw))
      as (Hlen & Hcount & Hgen & Hcalls & final & Hend & Hflags & Htotal).
    cbv zeta. rewrite E. cbn [trace ending calls List.length].
    split; [lia |]. split; [| split; [| split]].
    + cbn [count_occ].
      destruct (Node_eq_dec retrieve_n transform_query_n); [discriminate |].
      destruct (Node_eq_dec grade_documents_n transform_query_n);
        [discriminate |].
      destruct (Node_eq_dec transform_query_n transform_query_n);
        [| contradiction].
      rewrite Hcount. reflexivity.
    + cbn [count_occ].
      destruct (Node_eq_dec retrieve_n generate_n); [discriminate |].
      destruct (Node_eq_dec grade_documents_n generate_n); [discriminate |].
      destruct (Node_eq_dec transform_query_n generate_n); [discriminate |].
      exact Hgen.
    + exact Hcalls.
    + exists final. split; [exact Hend |]. split; [exact Hflags |].
      rewrite Htotal, Hi. lia.
Qed.

(** With fewer steps than the rewrites and the fallback need, the same run
    is cut off. *)
Lemma dry_run_short settings env :
  0 < settings.(document_grading_batch_size) ->
  retrieval_always_empty env ->
  rewriter_answers env ->
  forall k st w steps,
    st.(collection_ids) = [] ->
    Z.to_nat (settings.(max_transform_retries) - st.(transform_attempts)) = k ->
    (steps < 3 * k + 3)%nat ->
    Forall (fun c => grader_call c = false) w ->
    let x := run_from settings env steps retrieve_n st w in
    x.(ending) = OutOfSteps
    /\ List.length x.(trace) = steps
    /\ count_occ Node_eq_dec x.(trace) generate_n = 0%nat
    /\ Forall (fun c => grader_call c = false) x.(calls).
Proof.
  intros Hsize Hdry Hrew.
  induction k as [| k IH]; intros st w steps Eids Hk Hsteps Hw.
  - apply dry_cut; try assumption; lia.
  - destruct (Nat.lt_ge_cases steps 3) as [Hlt | Hge].
    + apply dry_cut; assumption.
    + destruct steps as [| [| [| steps]]]; try lia.
      destruct (dry_cycle settings env st w steps Hsize Hdry Hrew Eids
                  ltac:(lia))
        as (st3 & w3 & E & Ht & Hi & Hids & Hc).
      destruct (IH st3 w3 steps Hids ltac:(lia) ltac:(lia) (Hc Hw))
        as (Hend & Hlen & Hgen & Hcalls).
      cbv zeta. rewrite E. cbn [trace ending calls List.length].
      split; [exact Hend |]. split; [lia |]. split; [| exact Hcalls].
      rewrite !count_occ_cons_neq by discriminate. exact Hgen.
Qed.

Lemma with_retriever_tool_outage env :
  retrieval_always_empty (with_retriever_tool Outage.search env).
Proof. intros t query. reflexivity. Qed.

Lemma nothing_found_always_empty : retrieval_always_empty Stub.nothing_found.
Proof. intros t query. reflexivity. Qed.

(** C1: the total budget is not enforced, and the loop need not reach
    [END].  When the retriever tool never delivers a document (and the
    grading batch size is positive, and the rewriter and the plain LLM
    chain answer), a query without collections executes
    [n = 3 * max(0, max_transform_retries) + 3] nodes: no test of
    [max_total_iterations] lies on that path.  If [n] is below
    [graph_recursion_limit] the run reaches [END] with
    [total_iterations = n], whatever [max_total_iterations] is (so beyond
    it whenever it is smaller than [n]), and the limit flag was never the
    reason ([fallback_type] is ["no_relevant_docs"]).  Otherwise the run
    reaches no terminal state: it is cut off by the recursion limit and
    [execute_query] raises. *)
Theorem total_budget_is_not_enforced settings env q cfg :
  0 < settings.(document_grading_batch_size) ->
  retrieval_always_empty env ->
  rewriter_answers env ->
  llm_chain_answers env ->
  let n := 3 * Z.max 0 settings.(max_transform_retries) + 3 in
  let x := GraphService.graph_stream settings env q cfg [] in
  (n < settings.(graph_recursion_limit) ->
   Z.of_nat (List.length x.(trace)) = n
   /\ exists final,
        x.(ending) = Ended final
        /\ final.(total_iterations) = n
        /\ final.(fallback_type) = "no_relevant_docs"
        /\ (settings.(max_total_iterations) < n ->
            settings.(max_total_iterations) < final.(total_iterations)))
  /\ (1 <= settings.(graph_recursion_limit) <= n ->
      x.(ending) = OutOfSteps
      /\ execute_query settings env q cfg []
         = Raise (OtherException "GraphRecursionError")).
Proof.
  intros Hsize Hdry Hrew Hllm n x. subst x.
  unfold GraphService.graph_stream, GraphService.stream,
    GraphService.node_budget.
  split.
  - intros Hroom.
    destruct (dry_run settings env Hsize Hdry Hrew Hllm
                (Z.to_nat settings.(max_transform_retries))
                (GraphService.initial_state q cfg []) []
                (Z.to_nat (settings.(graph_recursion_limit) - 1)) eq_refl)
      as (Hlen & _ & _ & _ & final & Hend & Hflags & Htotal).
    + cbn [GraphService.initial_state transform_attempts]. f_equal. lia.
    + subst n. lia.
    + constructor.
    + split; [rewrite Hlen; subst n; lia |].
      exists final. split; [exact Hend |].
      cbn [GraphService.initial_state total_iterations] in Htotal.
      unfold flags_of in Hflags. injection Hflags as _ _ Hf.
      split; [subst n; lia |]. split; [exact Hf |].
      intros Hsmall. subst n. lia.
  - intros Hlimit.
    destruct (dry_run_short settings env Hsize Hdry Hrew
                (Z.to_nat settings.(max_transform_retries))
                (GraphService.initial_state q cfg []) []
                (Z.to_nat (settings.(graph_recursion_limit) - 1)) eq_refl)
      as (Hend & Hlen & _ & _).
    + cbn [GraphService.initial_state transform_attempts]. f_equal. lia.
    + subst n. lia.
    + constructor.
    + split; [exact Hend |].
      unfold execute_query, execute_query_on, GraphService.graph_stream,
        GraphService.stream, GraphService.node_budget.
      rewrite Hend. reflexivity.
Qed.

Lemma total_budget_is_not_enforced_witness :
  (Stub.budgets 2 2 5).(max_total_iterations) = 5
  /\ (Stub.budgets 2 2 5).(graph_recursion_limit) = 20
  /\ (exists final,
        (GraphService.graph_stream (Stub.budgets 2 2 5) Stub.nothing_found
           "q" [] []).(ending) = Ended final
        /\ final.(total_iterations) = 9
        /\ final.(fallback_type) = "no_relevant_docs")
  /\ execute_query (Stub.budgets 2 6 15) Stub.nothing_found "q" [] []
     = Raise (OtherException "GraphRecursionError").
Proof.
  split; [reflexivity |]. split; [reflexivity |]. split.
  - destruct (total_budget_is_not_enforced (Stub.budgets 2 2 5)
                Stub.nothing_found "q" [] ltac:(reflexivity)
                nothing_found_always_empty
                (proj1 (proj2 (proj2 (constant_answers _ _ _ _))))
                (proj1 (proj2 (constant_answers _ _ _ _))))
      as (Hrun & _).
    destruct (Hrun ltac:(vm_compute; reflexivity))
      as (_ & final & Hend & Htotal & Hf & _).
    exists final. split; [exact Hend |]. split; [exact Htotal | exact Hf].
  - destruct (total_budget_is_not_enforced (Stub.budgets 2 6 15)
                Stub.nothing_found "q" [] ltac:(reflexivity)
                nothing_found_always_empty
                (proj1 (proj2 (proj2 (constant_answers _ _ _ _))))
                (proj1 (proj2 (constant_answers _ _ _ _))))
      as (_ & Hcut).
    destruct (Hcut ltac:(vm_compute; split; discriminate)) as (_ & Hx).
    exact Hx.
Defined.

(** X18: when the retriever tool never delivers a document (it raises, or
    what it returns normalises to the empty list), the grading batch size
    is positive, and the rewriter and the plain LLM chain return, a query
    without collections needs
    [n = 3 * max(0, max_transform_retries) + 3] node executions.  With
    [graph_recursion_limit > n] it runs (retrieve, grade_documents,
    transform_query) exactly [max(0, max_transform_retries)] times and
    then retrieve, grade_documents, no_docs_fallback; the generate node
    never runs, no grader is ever called, and the run ends with the
    no-documents flags and the general-knowledge disclaimer.  With
    [1 <= graph_recursion_limit <= n] the run is cut off by the recursion
    limit and [execute_query] raises the recursion error. *)
Theorem empty_retrieval_ends_in_no_docs_fallback settings env q cfg :
  0 < settings.(document_grading_batch_size) ->
  retrieval_always_empty env ->
  rewriter_answers env ->
  llm_chain_answers env ->
  let n := 3 * Z.max 0 settings.(max_transform_retries) + 3 in
  let x := GraphService.graph_stream settings env q cfg [] in
  (n < settings.(graph_recursion_limit) ->
   Z.of_nat (List.length x.(trace)) = n
   /\ occurrences transform_query_n x.(trace)
      = Z.max 0 settings.(max_transform_retries)
   /\ occurrences generate_n x.(trace) = 0
   /\ Forall (fun c => grader_call c = false) x.(calls)
   /\ exists final,
        x.(ending) = Ended final
        /\ flags_of final = (true, true, "no_relevant_docs")
        /\ GraphService._get_disclaimer_text final
           = Some "Diese Antwort basiert auf allgemeinem Wissen, nicht auf Dokumenten aus der Wissensbasis.")
  /\ (1 <= settings.(graph_recursion_limit) <= n ->
      x.(ending) = OutOfSteps
      /\ execute_query settings env q cfg []
         = Raise (OtherException "GraphRecursionError")).
Proof.
  intros Hsize Hdry Hrew Hllm n x. subst x.
  unfold GraphService.graph_stream, GraphService.stream,
    GraphService.node_budget.
  split.
  - intros Hroom.
    destruct (dry_run settings env Hsize Hdry Hrew Hllm
                (Z.to_nat settings.(max_transform_retries))
                (GraphService.initial_state q cfg []) []
                (Z.to_nat (settings.(graph_recursion_limit) - 1)) eq_refl)
      as (Hlen & Hcount & Hgen & Hcalls & final & Hend & Hflags & _).
    + cbn [GraphService.initial_state transform_attempts]. f_equal. lia.
    + subst n. lia.
    + constructor.
    + unfold occurrences. rewrite Hlen, Hcount, Hgen.
      split; [subst n; lia |]. split; [lia |]. split; [reflexivity |].
      split; [exact Hcalls |].
      exists final. split; [exact Hend |]. split; [exact Hflags |].
      unfold flags_of in Hflags. unfold GraphService._get_disclaimer_text.
      injection Hflags as _ Hn _. rewrite Hn. reflexivity.
  - intros Hlimit.
    destruct (dry_run_short settings env Hsize Hdry Hrew
                (Z.to_nat settings.(max_transform_retries))
                (GraphService.initial_state q cfg []) []
                (Z.to_nat (settings.(graph_recursion_limit) - 1)) eq_refl)
      as (Hend & _).
    + cbn [GraphService.initial_state transform_attempts]. f_equal. lia.
    + subst n. lia.
    + constructor.
    + split; [exact Hend |].
      unfold execute_query, execute_query_on, GraphService.graph_stream,
        GraphService.stream, GraphService.node_budget.
      rewrite Hend. reflexivity.
Qed.

Lemma empty_retrieval_ends_in_no_docs_fallback_witness :
  let x := GraphService.graph_stream default_settings Outage.env "q" [] [] in
  x.(trace)
  = [retrieve_n; grade_documents_n; transform_query_n;
     retrieve_n; grade_documents_n; transform_query_n;
     retrieve_n; grade_documents_n; no_docs_fallback_n]
  /\ occurrences transform_query_n x.(trace) = 2
  /\ Forall (fun c => grader_call c = false) x.(calls).
Proof.
  pose proof (empty_retrieval_ends_in_no_docs_fallback default_settings
                Outage.env "q" [] ltac:(reflexivity)
                (with_retriever_tool_outage _)
                (proj1 (proj2 (proj2 (constant_answers _ _ _ _))))
                (proj1 (proj2 (constant_answers _ _ _ _)))) as H.
  cbv zeta in H. destruct H as (Hrun & _).
  destruct (Hrun ltac:(vm_compute; reflexivity)) as (_ & Hc & _ & Hcalls & _).
  split; [reflexivity |]. split; [exact Hc | exact Hcalls].
Defined.

(** X19: through the tool that [_create_tool] builds, [retrieve] (without
    collections) returns normally with exactly the documents of
    [custom_retriever_func]'s list, one call logged.  A search that raises,
    or that returns a single falsy value, gives no documents; a single
    truthy value gives one document. *)
Theorem retrieve_through_custom_tool search env st w :
  st.(collection_ids) = [] ->
  let results := search (List.length w) st.(question) in
  exists st1,
    retrieve (with_retriever_tool search env) st w
    = (Ok st1, (w ++ [RetrieverToolInvoke st.(question)])%list)
    /\ st1.(documents)
       = map document_of_item (custom_retriever_func results)
    /\ (forall e, results = Raise e -> st1.(documents) = [])
    /\ (forall item, results = Ok (OutputSingle item false) ->
        st1.(documents) = [])
    /\ (forall item, results = Ok (OutputSingle item true) ->
        st1.(documents) = [document_of_item item]).
Proof.
  intros Eids results.
  rewrite (retrieve_tool_run _ st w Eids).
  eexists. split; [reflexivity |].
  cbn [with_retriever_tool retriever_tool_invoke retrieve_result documents
       documents_of_raw].
  fold results.
  split; [reflexivity |]. split; [| split].
  - intros e E. rewrite E. reflexivity.
  - intros item E. rewrite E. reflexivity.
  - intros item E. rewrite E. reflexivity.
Qed.

Lemma retrieve_through_custom_tool_witness :
  exists st1,
    retrieve Outage.env (GraphService.initial_state "q" [] []) []
    = (Ok st1, [RetrieverToolInvoke "q"])
    /\ st1.(documents) = [].
Proof.
  destruct (retrieve_through_custom_tool Outage.search
              (Stub.constant (Ok Stub.three_docs) (Stub.graded "yes" 1)
                 "yes" "yes")
              (GraphService.initial_state "q" [] []) [] eq_refl)
    as (st1 & E & D & _).
  exists st1. split; [exact E | exact D].
Defined.
